(** * IOLTA Manager: client-side authentication over IndexedDB and localStorage

    A shallow embedding of
      - [lib/storage/local-storage-helpers.ts]: date (de)serialisation,
        [loadFromLocalStorage], [saveToLocalStorage], [removeFromLocalStorage],
        the auth cookie;
      - [lib/storage/db.ts]: the Dexie tables used by the auth layer;
      - [lib/auth/local-auth.ts]: sign-up, sign-in, sign-out, [getSession],
        organisations and the debug utilities;
      - [lib/auth/auth-context.tsx]: the imperative wrappers of the provider.

    Conventions.
      - A [Date] is its time value, an integer number of milliseconds since the
        epoch ([Z]).  Invalid dates, cyclic objects, functions and symbols are
        outside the model.
      - Every asynchronous operation is a function of the world it runs in; it
        returns its outcome (a value or a thrown error) and the world it leaves.
        One operation observes one clock value [now].
      - Random draws ([crypto.randomUUID], [crypto.getRandomValues]) are
        arguments of the operation that draws them.
      - The world records what the code tests of its environment: whether
        [window], [document] and [crypto.subtle] are there, and whether
        [localStorage.setItem] throws for lack of room.
      - A table is the list of its rows in primary-key order, which is the
        order in which Dexie enumerates the rows of one index value.
      - The value under the session key is read at the type the code declares
        for it, [SessionRef | null]; what the operations do with a slot that
        holds another value is outside the model, and the properties of the
        operations that read the slot are stated for a slot that is empty or
        holds a reference ([session_slot_typed]).
      - An object is the list of its own properties; its prototype is not
        represented. *)

From Stdlib Require Import ZArith List Bool Lia String Ascii.
From Stdlib Require Import DecimalString DecimalZ DecimalPos.
From stdpp Require Import base gmap strings list.

Set Warnings "-register-all".

Local Open Scope string_scope.
Local Open Scope Z_scope.

(** ** Platform built-ins *)

(** The built-ins the code calls and does not define. *)
Class Platform := {
  (** [String.prototype.toLowerCase] *)
  toLowerCase : string → string;
  (** the SHA-256 digest, as bytes, of the UTF-8 encoding of a string
      ([TextEncoder.encode] followed by [subtle.digest]) *)
  sha256 : string → list Z;
  (** [Date.prototype.toISOString] on a time value *)
  toISOString : Z → string;
  (** the time value of [new Date(s)] for a string [s]; [None] is the invalid
      date, whose [getTime()] is [NaN] *)
  Date_parse : string → option Z;
}.

(** The range of time values of ECMAScript dates. *)
Definition time_value (t : Z) : bool :=
  (-8640000000000000 <=? t) && (t <=? 8640000000000000).

(** ECMAScript guarantees that the ISO rendering of a date parses back to it. *)
Definition iso_round_trip `{Platform} : Prop :=
  ∀ t, time_value t = true → Date_parse (toISOString t) = Some t.

(** ** JavaScript values *)

Inductive JsVal :=
| VUndefined
| VNull
| VBool (b : bool)
| VNum (n : Z)
| VStr (s : string)
| VDate (t : Z)
| VArr (items : list JsVal)
| VObj (props : list (string * JsVal)).

(** The own enumerable properties of an object are kept in enumeration order
    ([Object.entries]); a JavaScript object has each key once. *)
Definition keys (props : list (string * JsVal)) : list string := map fst props.

(** [typeof v === 'string'] *)
Definition typeof_string (v : JsVal) : bool :=
  match v with VStr _ => true | _ => false end.

(** [typeof v === 'object'] *)
Definition typeof_object (v : JsVal) : bool :=
  match v with VNull | VDate _ | VArr _ | VObj _ => true | _ => false end.

(** [v instanceof Date] *)
Definition instanceof_Date (v : JsVal) : bool :=
  match v with VDate _ => true | _ => false end.

(** The own property [key] is written, or added after the others. *)
Fixpoint obj_put (key : string) (value : JsVal) (result : list (string * JsVal))
  : list (string * JsVal) :=
  match result with
  | [] => [(key, value)]
  | (k, x) :: rest =>
      if String.eqb k key then (k, value) :: rest
      else (k, x) :: obj_put key value rest
  end.

(** [result[key] = value] on an object made by a literal.  The key
    [__proto__] reaches the setter inherited from [Object.prototype]: no own
    property is made, so the member does not show in [Object.entries] or
    [JSON.stringify].  The prototype the setter may install is not
    represented. *)
Definition obj_set (key : string) (value : JsVal) (result : list (string * JsVal))
  : list (string * JsVal) :=
  if String.eqb key "__proto__" then result else obj_put key value result.

(** [obj[key]], [undefined] when the property is missing. *)
Fixpoint obj_get (key : string) (props : list (string * JsVal)) : JsVal :=
  match props with
  | [] => VUndefined
  | (k, x) :: rest => if String.eqb k key then x else obj_get key rest
  end.

(** [for (const [key, value] of Object.entries(obj)) result[key] = f(key, value)] *)
Definition assign_entries (f : string → JsVal → JsVal)
  : list (string * JsVal) → list (string * JsVal) → list (string * JsVal) :=
  fix loop entries result :=
    match entries with
    | [] => result
    | (key, value) :: rest => loop rest (obj_set key (f key value) result)
    end.

(** ** Date serialisation (local-storage-helpers.ts) *)

Definition defaultDateFields : list string :=
  [ "createdAt"; "updatedAt"; "timestamp"; "expiresAt";
    "openDate"; "closeDate"; "releasedAt"; "generatedAt" ].

(** [l.includes(key)] *)
Definition includes (l : list string) (key : string) : bool :=
  existsb (String.eqb key) l.

(** [[...new Set(l)]]: the first occurrence of each element, in order. *)
Definition spread_Set (l : list string) : list string :=
  fold_left (fun seen x => if includes seen x then seen else (seen ++ [x])%list) l [].

Definition allDateFields (dateFields : list string) : list string :=
  spread_Set (defaultDateFields ++ dateFields).

Section DateSerialization.
Context `{Platform}.

Fixpoint serializeDates (obj : JsVal) : JsVal :=
  match obj with
  | VNull | VUndefined => obj
  | VDate t => VStr (toISOString t)
  | VArr items => VArr (map serializeDates items)
  | VObj props =>
      VObj (assign_entries (fun _ value => serializeDates value) props [])
  | _ => obj
  end.

(** [new Date(value)], kept as the string when the date is invalid. *)
Definition revive_date (value : JsVal) : JsVal :=
  match value with
  | VStr s => match Date_parse s with Some t => VDate t | None => value end
  | _ => value
  end.

Fixpoint deserializeDates (dateFields : list string) (obj : JsVal) : JsVal :=
  match obj with
  | VNull | VUndefined => obj
  | VArr items => VArr (map (deserializeDates dateFields) items)
  | VObj props =>
      VObj (assign_entries
              (fun key value =>
                 if includes (allDateFields dateFields) key && typeof_string value
                 then revive_date value
                 else if typeof_object value
                      then deserializeDates dateFields value
                      else value)
              props [])
  | VDate _ => VObj []   (* an object without own enumerable properties *)
  | _ => obj
  end.

End DateSerialization.

(** ** JSON texts

    [JSON.stringify] and [JSON.parse] are built-ins.  A well-formed JSON text is
    represented by the document it denotes, so that parsing the text gives the
    document back; any other string is kept as it is. *)

Inductive Text :=
| JsonText (doc : JsVal)
| PlainText (s : string).

(** A thrown error is its message. *)
Inductive Outcome (A : Type) :=
| Ok (a : A)
| Throw (message : string).
Arguments Ok {A} a.
Arguments Throw {A} message.

Section Json.
Context `{Platform}.

(** The document written by [JSON.stringify] for a value that is not
    [undefined]: dates go through [toJSON], [undefined] properties are
    dropped and [undefined] array items become [null]. *)
Fixpoint json_doc (v : JsVal) : JsVal :=
  match v with
  | VUndefined => VNull
  | VDate t => VStr (toISOString t)
  | VArr items =>
      VArr (map (fun x => match x with
                          | VUndefined => VNull
                          | _ => json_doc x
                          end) items)
  | VObj props =>
      VObj ((fix members (ps : list (string * JsVal)) :=
               match ps with
               | [] => []
               | (_, VUndefined) :: rest => members rest
               | (k, x) :: rest => (k, json_doc x) :: members rest
               end) props)
  | _ => v
  end.

(** [JSON.stringify(v)]; [None] is the [undefined] it returns for
    [undefined]. *)
Definition JSON_stringify (v : JsVal) : option Text :=
  match v with
  | VUndefined => None
  | _ => Some (JsonText (json_doc v))
  end.

(** [JSON.parse(text)] throws a [SyntaxError] on anything but a JSON text. *)
Definition JSON_parse (text : Text) : Outcome JsVal :=
  match text with
  | JsonText doc => Ok doc
  | PlainText _ => Throw "SyntaxError"
  end.

End Json.

(** [String(x)] for the argument of [localStorage.setItem]. *)
Definition to_storage_string (x : option Text) : Text :=
  match x with
  | Some text => text
  | None => PlainText "undefined"
  end.

(** [!rawData] for a string read from storage: only the empty string is
    falsy, and no JSON text is empty. *)
Definition is_empty_text (raw : Text) : bool :=
  match raw with
  | PlainText "" => true
  | _ => false
  end.

(** ** Rows of the auth tables (types/iolta.ts) *)

Module User.
(** [passwordHash] is [None] on the shape [Omit<User, 'passwordHash'>],
    an object without that property. *)
Record t := mk {
  id : string;
  email : string;
  name : string;
  passwordHash : option string;
  createdAt : Z;
  updatedAt : Z;
}.
End User.

Module Session.
Record t := mk {
  id : string;
  userId : string;
  token : string;
  expiresAt : Z;
  createdAt : Z;
}.
End Session.

Module Organization.
Record t := mk {
  id : string;
  name : string;
  slug : string;
  logo : option string;
  createdAt : Z;
}.
End Organization.

Inductive Role := owner | admin | member.

Module Member.
Record t := mk {
  id : string;
  userId : string;
  organizationId : string;
  role : Role;
  createdAt : Z;
}.
End Member.

(** ** Dexie tables (db.ts)

    A table is the list of its rows in primary-key order; every table of the
    schema has the in-line primary key [id]. *)

Class Row (R : Type) := row_id : R → string.
#[export] Instance User_Row : Row User.t := User.id.
#[export] Instance Session_Row : Row Session.t := Session.id.
#[export] Instance Organization_Row : Row Organization.t := Organization.id.
#[export] Instance Member_Row : Row Member.t := Member.id.

Section Table.
Context {R : Type} `{Row R}.

(** [table.get(id)] *)
Definition tbl_get (key : string) (table : list R) : option R :=
  find (fun r => String.eqb (row_id r) key) table.

Fixpoint tbl_insert (r : R) (table : list R) : list R :=
  match table with
  | [] => [r]
  | r' :: rest =>
      if String.ltb (row_id r) (row_id r') then r :: table
      else r' :: tbl_insert r rest
  end.

(** [table.add(row)]; [None] is the [ConstraintError] raised when the key is
    already in the table. *)
Definition tbl_add (r : R) (table : list R) : option (list R) :=
  match tbl_get (row_id r) table with
  | Some _ => None
  | None => Some (tbl_insert r table)
  end.

(** [table.delete(id)] *)
Definition tbl_delete (key : string) (table : list R) : list R :=
  List.filter (fun r => negb (String.eqb (row_id r) key)) table.

(** [table.where(field).equals(value).toArray()] *)
Definition where_equals (field : R → string) (value : string) (table : list R)
  : list R :=
  List.filter (fun r => String.eqb (field r) value) table.

(** [table.where(field).equals(value).first()] *)
Definition where_equals_first (field : R → string) (value : string)
    (table : list R) : option R :=
  head (where_equals field value table).

(** [table.where(field).equals(value).delete()] *)
Definition where_equals_delete (field : R → string) (value : string)
    (table : list R) : list R :=
  List.filter (fun r => negb (String.eqb (field r) value)) table.

End Table.

Record Database := mkDatabase {
  users : list User.t;
  sessions : list Session.t;
  organizations : list Organization.t;
  members : list Member.t;
  (** the application tables, whose rows the auth layer never reads *)
  clients : list JsVal;
  matters : list JsVal;
  transactions : list JsVal;
  holds : list JsVal;
  auditLogs : list JsVal;
  reportHistory : list JsVal;
  trustAccountSettings : list JsVal;
}.

Definition with_users (t : list User.t) (d : Database) : Database :=
  mkDatabase t (sessions d) (organizations d) (members d) (clients d)
    (matters d) (transactions d) (holds d) (auditLogs d) (reportHistory d)
    (trustAccountSettings d).
Definition with_sessions (t : list Session.t) (d : Database) : Database :=
  mkDatabase (users d) t (organizations d) (members d) (clients d)
    (matters d) (transactions d) (holds d) (auditLogs d) (reportHistory d)
    (trustAccountSettings d).
Definition with_organizations (t : list Organization.t) (d : Database)
  : Database :=
  mkDatabase (users d) (sessions d) t (members d) (clients d)
    (matters d) (transactions d) (holds d) (auditLogs d) (reportHistory d)
    (trustAccountSettings d).
Definition with_members (t : list Member.t) (d : Database) : Database :=
  mkDatabase (users d) (sessions d) (organizations d) t (clients d)
    (matters d) (transactions d) (holds d) (auditLogs d) (reportHistory d)
    (trustAccountSettings d).

(** ** The world an operation runs in *)

(** The [iolta:local-session] cookie: its value and its expiry. *)
Record Cookie := mkCookie {
  cookie_value : string;
  cookie_expires : Z;
}.

Record World := mkWorld {
  (** [typeof window !== 'undefined'] *)
  hasWindow : bool;
  (** [typeof document !== 'undefined'] *)
  hasDocument : bool;
  (** [globalThis.crypto?.subtle] is there *)
  hasSubtle : bool;
  (** [process.env.NODE_ENV === 'development'] *)
  DEBUG : bool;
  (** [localStorage.setItem] throws [QuotaExceededError] *)
  quotaExceeded : bool;
  localStorage : gmap string Text;
  cookie : option Cookie;
  db : Database;
}.

Definition with_localStorage (s : gmap string Text) (w : World) : World :=
  mkWorld (hasWindow w) (hasDocument w) (hasSubtle w) (DEBUG w)
    (quotaExceeded w) s (cookie w) (db w).
Definition with_cookie (c : option Cookie) (w : World) : World :=
  mkWorld (hasWindow w) (hasDocument w) (hasSubtle w) (DEBUG w)
    (quotaExceeded w) (localStorage w) c (db w).
Definition with_db (d : Database) (w : World) : World :=
  mkWorld (hasWindow w) (hasDocument w) (hasSubtle w) (DEBUG w)
    (quotaExceeded w) (localStorage w) (cookie w) d.

(** An operation: the outcome and the world it leaves.  A throw keeps the
    writes made before it. *)
Definition M (A : Type) : Type := World → Outcome A * World.

Definition ret {A} (a : A) : M A := fun w => (Ok a, w).
Definition throw {A} (message : string) : M A := fun w => (Throw message, w).
Definition bind {A B} (m : M A) (k : A → M B) : M B :=
  fun w =>
    match m w with
    | (Ok a, w') => k a w'
    | (Throw e, w') => (Throw e, w')
    end.
Definition gets {A} (f : World → A) : M A := fun w => (Ok (f w), w).
Definition modify (f : World → World) : M unit := fun w => (Ok tt, f w).

Notation "'let*' x ':=' m 'in' k" := (bind m (fun x => k))
  (at level 10, x name, m at level 200, k at level 200).

(** ** localStorage helpers (local-storage-helpers.ts) *)

Module STORAGE_KEYS.
Definition SESSION : string := "iolta:session".
Definition ACTIVE_ORG : string := "iolta:activeOrg".
End STORAGE_KEYS.

(** [localStorage.getItem(key)] *)
Definition getItem (key : string) (w : World) : option Text :=
  localStorage w !! key.

(** [localStorage.setItem(key, value)] *)
Definition setItem (key : string) (value : Text) : M unit :=
  fun w =>
    if quotaExceeded w then (Throw "QuotaExceededError", w)
    else (Ok tt, with_localStorage (<[key := value]> (localStorage w)) w).

(** [localStorage.removeItem(key)] *)
Definition removeItem (key : string) (w : World) : World :=
  with_localStorage (delete key (localStorage w)) w.

(** The [options] argument of [loadFromLocalStorage]. *)
Record LoadOptions := mkLoadOptions {
  dateFields : option (list string);
  validator : option (JsVal → bool);
}.

Section LocalStorage.
Context `{Platform}.

(** The value returned is [VNull] where the code returns [null]. *)
Definition loadFromLocalStorage (key : string) (options : option LoadOptions)
    (w : World) : JsVal :=
  if negb (hasWindow w) then VNull
  else
    match getItem key w with
    | None => VNull
    | Some rawData =>
        if is_empty_text rawData then VNull
        else
          match JSON_parse rawData with
          | Throw _ => VNull
          | Ok parsed =>
              let deserialized :=
                deserializeDates
                  (default [] (options ≫= dateFields)) parsed in
              match options ≫= validator with
              | Some accepts =>
                  if negb (accepts deserialized) then VNull else deserialized
              | None => deserialized
              end
          end
    end.

Definition saveToLocalStorage (key : string) (data : JsVal) (w : World)
  : bool * World :=
  if negb (hasWindow w) then (false, w)
  else
    let serialized := serializeDates data in
    let jsonString := JSON_stringify serialized in
    match setItem key (to_storage_string jsonString) w with
    | (Throw _, w') => (false, w')
    | (Ok _, w') =>
        if DEBUG w
        then match jsonString with
             | Some _ => (true, w')
             | None => (false, w')   (* [jsonString.length] throws *)
             end
        else (true, w')
    end.

Definition removeFromLocalStorage (key : string) (w : World) : bool * World :=
  if negb (hasWindow w) then (false, w)
  else (true, removeItem key w).

End LocalStorage.

(** [expires.toUTCString()] keeps whole seconds. *)
Definition whole_seconds (t : Z) : Z := 1000 * (t / 1000).

(** [setAuthCookie(value, days)]: the cookie is assigned with the expiry
    [now + days] days. *)
Definition setAuthCookie (now : Z) (value : string) (days : Z) (w : World)
  : World :=
  if negb (hasDocument w) then w
  else
    let expires := now + days * 24 * 60 * 60 * 1000 in
    with_cookie (Some (mkCookie value (whole_seconds expires))) w.

(** [clearAuthCookie()]: the cookie is assigned with an expiry at the epoch,
    which is in the past, so the browser drops it. *)
Definition clearAuthCookie (w : World) : World :=
  if negb (hasDocument w) then w
  else with_cookie None w.

(** ** Password hashing and token generation (local-auth.ts) *)

(** [d.toString(16)] for one digit. *)
Definition hex_digit (d : Z) : ascii :=
  match String.get (Z.to_nat d) "0123456789abcdef" with
  | Some c => c
  | None => "0"%char
  end.

(** [b.toString(16).padStart(2, '0')] for a byte. *)
Definition hex_byte (b : Z) : string :=
  String (hex_digit (b / 16)) (String (hex_digit (b mod 16)) EmptyString).

Definition hex_string (bytes : list Z) : string :=
  String.concat "" (map hex_byte bytes).

Section PasswordHashing.
Context `{Platform}.

(** The hexadecimal rendering of the SHA-256 digest of a password. *)
Definition digest_hex (password : string) : string :=
  hex_string (sha256 password).

Definition hashPassword (password : string) : M string :=
  fun w =>
    if negb (hasSubtle w)
    then (Throw "Web Crypto API is not available. Please ensure you are accessing the app via localhost or HTTPS.", w)
    else (Ok (digest_hex password), w).

End PasswordHashing.

(** [generateToken()]; [bytes] are the 32 bytes [crypto.getRandomValues]
    writes. *)
Definition generateToken (bytes : list Z) : string := hex_string bytes.

(** ** Session reference *)

Module SessionRef.
Record t := mk {
  sessionId : string;
  token : string;
  activeOrgId : option string;
}.

(** The object literal of a reference. *)
Definition to_js (ref : t) : JsVal :=
  VObj ([ ("sessionId", VStr (sessionId ref)); ("token", VStr (token ref)) ]
        ++ match activeOrgId ref with
           | Some org => [ ("activeOrgId", VStr org) ]
           | None => []
           end)%list.

(** The reading of a loaded value at the type [SessionRef | null] that
    [getSessionRef] declares.  The code does not check the shape; a slot
    written by [setSessionRef] has it, and the properties of the operations
    that read the slot are stated for such slots ([session_slot_typed]). *)
Definition of_js (v : JsVal) : option t :=
  match v with
  | VObj props =>
      match obj_get "sessionId" props, obj_get "token" props with
      | VStr s, VStr tok =>
          match obj_get "activeOrgId" props with
          | VStr org => Some (mk s tok (Some org))
          | VUndefined => Some (mk s tok None)
          | _ => None
          end
      | _, _ => None
      end
  | _ => None
  end.
End SessionRef.

Section SessionReference.
Context `{Platform}.

Definition getSessionRef (w : World) : option SessionRef.t :=
  SessionRef.of_js (loadFromLocalStorage STORAGE_KEYS.SESSION None w).

Definition setSessionRef (now : Z) (ref : SessionRef.t) (w : World) : World :=
  let w' := snd (saveToLocalStorage STORAGE_KEYS.SESSION (SessionRef.to_js ref) w) in
  setAuthCookie now (SessionRef.token ref) 7 w'.

Definition clearSessionRef (w : World) : World :=
  let w' := snd (removeFromLocalStorage STORAGE_KEYS.SESSION w) in
  clearAuthCookie w'.

End SessionReference.

(** ** Database access *)

Definition isBrowser (w : World) : bool := hasWindow w.

Definition getDatabase : M unit :=
  fun w =>
    if negb (hasWindow w)
    then (Throw "IndexedDB is only available in the browser", w)
    else (Ok tt, w).

Definition users_add (u : User.t) : M unit :=
  fun w =>
    match tbl_add u (users (db w)) with
    | Some t => (Ok tt, with_db (with_users t (db w)) w)
    | None => (Throw "ConstraintError", w)
    end.

Definition sessions_add (s : Session.t) : M unit :=
  fun w =>
    match tbl_add s (sessions (db w)) with
    | Some t => (Ok tt, with_db (with_sessions t (db w)) w)
    | None => (Throw "ConstraintError", w)
    end.

Definition organizations_add (o : Organization.t) : M unit :=
  fun w =>
    match tbl_add o (organizations (db w)) with
    | Some t => (Ok tt, with_db (with_organizations t (db w)) w)
    | None => (Throw "ConstraintError", w)
    end.

Definition members_add (m : Member.t) : M unit :=
  fun w =>
    match tbl_add m (members (db w)) with
    | Some t => (Ok tt, with_db (with_members t (db w)) w)
    | None => (Throw "ConstraintError", w)
    end.

(** The world without the Session row [key]. *)
Definition without_session (key : string) (w : World) : World :=
  with_db (with_sessions (tbl_delete key (sessions (db w))) (db w)) w.

Definition sessions_delete (key : string) : M unit :=
  modify (without_session key).

Definition users_delete (key : string) : M unit :=
  modify (fun w => with_db (with_users (tbl_delete key (users (db w))) (db w)) w).

(** ** Sign up, sign in, sign out *)

Module SignUpData.
Record t := mk { email : string; password : string; name : string }.
End SignUpData.

Module SignInData.
Record t := mk { email : string; password : string }.
End SignInData.

Module SignUpResult.
Record t := mk { user : User.t; session : Session.t }.
End SignUpResult.

Module SessionData.
Record t := mk { user : User.t; session : Session.t }.
End SessionData.

(** The random draws of a sign-up, in the order they are made. *)
Record SignUpDraws := mkSignUpDraws {
  drawn_user_id : string;
  drawn_token_bytes : list Z;
  drawn_session_id : string;
}.

(** The random draws of a sign-in. *)
Record SignInDraws := mkSignInDraws {
  signin_token_bytes : list Z;
  signin_session_id : string;
}.

Definition SEVEN_DAYS : Z := 7 * 24 * 60 * 60 * 1000.

Section Auth.
Context `{Platform}.

Definition signUpEmail (now : Z) (rnd : SignUpDraws) (data : SignUpData.t)
  : M SignUpResult.t :=
  let* browser := gets isBrowser in
  if negb browser then throw "Auth operations require browser"
  else
    let* _ := getDatabase in
    let email := SignUpData.email data in
    let password := SignUpData.password data in
    let name := SignUpData.name data in
    let* existingUser :=
      gets (fun w => where_equals_first User.email (toLowerCase email)
                       (users (db w))) in
    match existingUser with
    | Some _ => throw "Email already registered"
    | None =>
        let* passwordHash := hashPassword password in
        let user :=
          User.mk (drawn_user_id rnd) (toLowerCase email) name
            (Some passwordHash) now now in
        let* _ := users_add user in
        let token := generateToken (drawn_token_bytes rnd) in
        let session :=
          Session.mk (drawn_session_id rnd) (User.id user) token
            (now + SEVEN_DAYS) now in
        let* _ := sessions_add session in
        let* _ :=
          modify (setSessionRef now
                    (SessionRef.mk (Session.id session) token None)) in
        ret (SignUpResult.mk user session)
    end.

Definition signInEmail (now : Z) (rnd : SignInDraws) (data : SignInData.t)
  : M SignUpResult.t :=
  let* browser := gets isBrowser in
  if negb browser then throw "Auth operations require browser"
  else
    let* _ := getDatabase in
    let email := SignInData.email data in
    let password := SignInData.password data in
    let* found :=
      gets (fun w => where_equals_first User.email (toLowerCase email)
                       (users (db w))) in
    match found with
    | None => throw "Invalid email or password"
    | Some user =>
        let* passwordHash := hashPassword password in
        if negb (bool_decide (Some passwordHash = User.passwordHash user))
        then throw "Invalid email or password"
        else
          let token := generateToken (signin_token_bytes rnd) in
          let session :=
            Session.mk (signin_session_id rnd) (User.id user) token
              (now + SEVEN_DAYS) now in
          let* _ := sessions_add session in
          let* _ :=
            modify (setSessionRef now
                      (SessionRef.mk (Session.id session) token None)) in
          ret (SignUpResult.mk user session)
    end.

(** The storage event dispatched at the end reaches the other tabs only. *)
Definition signOut : M unit :=
  let* browser := gets isBrowser in
  if negb browser then ret tt
  else
    let* _ := getDatabase in
    let* sessionRef := gets getSessionRef in
    let* _ :=
      match sessionRef with
      | Some ref => sessions_delete (SessionRef.sessionId ref)
      | None => ret tt
      end in
    modify clearSessionRef.

(** [const { passwordHash: _, ...safeUser } = user] *)
Definition safeUser (user : User.t) : User.t :=
  User.mk (User.id user) (User.email user) (User.name user) None
    (User.createdAt user) (User.updatedAt user).

Definition getSession (now : Z) : M (option SessionData.t) :=
  let* browser := gets isBrowser in
  if negb browser then ret None
  else
    let* _ := getDatabase in
    let* sessionRef := gets getSessionRef in
    match sessionRef with
    | None => ret None
    | Some sessionRef =>
        let* found :=
          gets (fun w => tbl_get (SessionRef.sessionId sessionRef)
                           (sessions (db w))) in
        match found with
        | None =>
            let* _ := modify clearSessionRef in
            ret None
        | Some session =>
            if negb (String.eqb (Session.token session)
                       (SessionRef.token sessionRef))
            then
              let* _ := modify clearSessionRef in
              ret None
            else if Session.expiresAt session <? now
            then
              let* _ := sessions_delete (Session.id session) in
              let* _ := modify clearSessionRef in
              ret None
            else
              let* user :=
                gets (fun w => tbl_get (Session.userId session)
                                 (users (db w))) in
              match user with
              | None =>
                  let* _ := sessions_delete (Session.id session) in
                  let* _ := modify clearSessionRef in
                  ret None
              | Some user =>
                  let* _ :=
                    modify (setAuthCookie now (Session.token session) 7) in
                  ret (Some (SessionData.mk (safeUser user) session))
              end
        end
    end.

End Auth.

(** ** Organisations *)

Module CreateOrgData.
Record t := mk { name : string; slug : string; logo : option string }.
End CreateOrgData.

(** The random draws of [createOrganization]. *)
Record CreateOrgDraws := mkCreateOrgDraws {
  drawn_org_id : string;
  drawn_member_id : string;
}.

(** [!s] for an optional string: [undefined] and the empty string are falsy. *)
Definition falsy_string (s : option string) : bool :=
  match s with
  | None => true
  | Some s => String.eqb s ""
  end.

Section Organizations.
Context `{Platform}.

Definition createOrganization (now : Z) (rnd : CreateOrgDraws)
    (data : CreateOrgData.t) (userId : string) : M Organization.t :=
  let* browser := gets isBrowser in
  if negb browser then throw "Auth operations require browser"
  else
    let* _ := getDatabase in
    let* existing :=
      gets (fun w => where_equals_first Organization.slug
                       (CreateOrgData.slug data) (organizations (db w))) in
    match existing with
    | Some _ => throw "Organization slug already taken"
    | None =>
        let org :=
          Organization.mk (drawn_org_id rnd) (CreateOrgData.name data)
            (CreateOrgData.slug data) (CreateOrgData.logo data) now in
        let* _ := organizations_add org in
        let member :=
          Member.mk (drawn_member_id rnd) userId (Organization.id org)
            owner now in
        let* _ := members_add member in
        let* sessionRef := gets getSessionRef in
        let* _ :=
          match sessionRef with
          | Some ref =>
              modify (setSessionRef now
                        (SessionRef.mk (SessionRef.sessionId ref)
                           (SessionRef.token ref)
                           (Some (Organization.id org))))
          | None => ret tt
          end in
        ret org
    end.

Definition getOrganizations (userId : string) : M (list Organization.t) :=
  let* browser := gets isBrowser in
  if negb browser then ret []
  else
    let* _ := getDatabase in
    let* memberships :=
      gets (fun w => where_equals Member.userId userId (members (db w))) in
    let orgIds := map Member.organizationId memberships in
    gets (fun w =>
            flat_map (fun id => match tbl_get id (organizations (db w)) with
                                | Some org => [org]
                                | None => []
                                end) orgIds).

Definition getActiveOrganization : M (option Organization.t) :=
  let* browser := gets isBrowser in
  if negb browser then ret None
  else
    let* sessionRef := gets getSessionRef in
    match sessionRef with
    | None => ret None
    | Some ref =>
        if falsy_string (SessionRef.activeOrgId ref) then ret None
        else
          let* _ := getDatabase in
          gets (fun w => tbl_get (default "" (SessionRef.activeOrgId ref))
                           (organizations (db w)))
    end.

Definition setActiveOrganization (now : Z) (orgId : string) : M unit :=
  let* browser := gets isBrowser in
  if negb browser then ret tt
  else
    let* sessionRef := gets getSessionRef in
    match sessionRef with
    | Some ref =>
        modify (setSessionRef now
                  (SessionRef.mk (SessionRef.sessionId ref)
                     (SessionRef.token ref) (Some orgId)))
    | None => ret tt
    end.

End Organizations.

(** ** Debug and admin utilities *)

Module Validation.
(** [details] is a plain object, filled property by property. *)
Record t := mk { valid : bool; details : list (string * JsVal) }.
End Validation.

Section Admin.
Context `{Platform}.

Definition listAllUsers : M (list User.t) :=
  let* browser := gets isBrowser in
  if negb browser then ret []
  else
    let* _ := getDatabase in
    let* all := gets (fun w => users (db w)) in
    ret (map safeUser all).

(** The three deletions run in one read-write transaction. *)
Definition deleteUserByEmail (email : string) : M unit :=
  let* browser := gets isBrowser in
  if negb browser then ret tt
  else
    let* _ := getDatabase in
    let* found :=
      gets (fun w => where_equals_first User.email (toLowerCase email)
                       (users (db w))) in
    match found with
    | None => ret tt
    | Some user =>
        let* _ :=
          modify (fun w =>
                    with_db
                      (with_sessions
                         (where_equals_delete Session.userId (User.id user)
                            (sessions (db w))) (db w)) w) in
        let* _ :=
          modify (fun w =>
                    with_db
                      (with_members
                         (where_equals_delete Member.userId (User.id user)
                            (members (db w))) (db w)) w) in
        users_delete (User.id user)
    end.

Definition clearAllSessions : M unit :=
  let* browser := gets isBrowser in
  if negb browser then ret tt
  else
    let* _ := getDatabase in
    let* _ := modify (fun w => with_db (with_sessions [] (db w)) w) in
    modify clearSessionRef.

Definition clearAllAuthData : M unit :=
  let* browser := gets isBrowser in
  if negb browser then ret tt
  else
    let* _ := getDatabase in
    let* _ := modify (fun w => with_db (with_sessions [] (db w)) w) in
    let* _ := modify (fun w => with_db (with_members [] (db w)) w) in
    let* _ := modify (fun w => with_db (with_organizations [] (db w)) w) in
    let* _ := modify (fun w => with_db (with_users [] (db w)) w) in
    modify clearSessionRef.

Definition validateSessionSync (now : Z) : M Validation.t :=
  let* browser := gets isBrowser in
  if negb browser
  then ret (Validation.mk false [ ("error", VStr "Not in browser") ])
  else
    let* sessionRef := gets getSessionRef in
    let* _ := getDatabase in
    let details :=
      [ ("hasLocalStorageRef", VBool (bool_decide (is_Some sessionRef)));
        ("sessionId", match sessionRef with
                      | Some ref => VStr (SessionRef.sessionId ref)
                      | None => VUndefined
                      end) ] in
    match sessionRef with
    | None => ret (Validation.mk false details)
    | Some sessionRef =>
        let* session :=
          gets (fun w => tbl_get (SessionRef.sessionId sessionRef)
                           (sessions (db w))) in
        let tokenMatch :=
          match session with
          | Some s => String.eqb (Session.token s) (SessionRef.token sessionRef)
          | None => false
          end in
        let notExpired :=
          match session with
          | Some s => now <? Session.expiresAt s
          | None => false
          end in
        let details :=
          obj_set "hasIndexedDBSession" (VBool (bool_decide (is_Some session)))
            details in
        let details := obj_set "tokenMatch" (VBool tokenMatch) details in
        let details := obj_set "notExpired" (VBool notExpired) details in
        let* details :=
          match session with
          | Some s =>
              let* user :=
                gets (fun w => tbl_get (Session.userId s) (users (db w))) in
              ret (obj_set "hasUser" (VBool (bool_decide (is_Some user)))
                     details)
          | None => ret details
          end in
        let valid :=
          match session with
          | Some s =>
              String.eqb (Session.token s) (SessionRef.token sessionRef)
              && (now <? Session.expiresAt s)
          | None => false
          end in
        ret (Validation.mk valid details)
    end.

End Admin.

(** ** The auth provider (auth-context.tsx) *)

Module AuthContext.

(** The state cells of [AuthProvider]. *)
Record t := mk {
  session : option SessionData.t;
  isLoading : bool;
  error : option string;
  activeOrganization : option Organization.t;
  organizations : list Organization.t;
}.

Definition setSession (s : option SessionData.t) (c : t) : t :=
  mk s (isLoading c) (error c) (activeOrganization c) (organizations c).
Definition setIsLoading (b : bool) (c : t) : t :=
  mk (session c) b (error c) (activeOrganization c) (organizations c).
Definition setError (e : option string) (c : t) : t :=
  mk (session c) (isLoading c) e (activeOrganization c) (organizations c).
Definition setActiveOrgState (o : option Organization.t) (c : t) : t :=
  mk (session c) (isLoading c) (error c) o (organizations c).
Definition setOrganizations (l : list Organization.t) (c : t) : t :=
  mk (session c) (isLoading c) (error c) (activeOrganization c) l.

Section Wrappers.
Context `{Platform}.

(** [signIn.email]: the outcome, the cells and the world after the call.
    The cells written before a throw keep their values. *)
Definition signInWithEmail (now : Z) (rnd : SignInDraws)
    (data : SignInData.t) (c : t) (w : World) : Outcome unit * t * World :=
  let c := setError None (setIsLoading true c) in
  match signInEmail now rnd data w with
  | (Throw message, w1) =>
      (Throw message, setIsLoading false (setError (Some message) c), w1)
  | (Ok result, w1) =>
      let c :=
        setSession (Some (SessionData.mk (SignUpResult.user result)
                            (SignUpResult.session result))) c in
      match getOrganizations (User.id (SignUpResult.user result)) w1 with
      | (Throw message, w2) =>
          (Throw message, setIsLoading false (setError (Some message) c), w2)
      | (Ok orgs, w2) =>
          let c := setOrganizations orgs c in
          match getActiveOrganization w2 with
          | (Throw message, w3) =>
              (Throw message,
               setIsLoading false (setError (Some message) c), w3)
          | (Ok activeOrg, w3) =>
              (Ok tt, setIsLoading false (setActiveOrgState activeOrg c), w3)
          end
      end
  end.

(** [signUp.email] *)
Definition signUpWithEmail (now : Z) (rnd : SignUpDraws)
    (data : SignUpData.t) (c : t) (w : World) : Outcome unit * t * World :=
  let c := setError None (setIsLoading true c) in
  match signUpEmail now rnd data w with
  | (Throw message, w1) =>
      (Throw message, setIsLoading false (setError (Some message) c), w1)
  | (Ok result, w1) =>
      (Ok tt,
       setIsLoading false
         (setSession (Some (SessionData.mk (SignUpResult.user result)
                              (SignUpResult.session result))) c),
       w1)
  end.

End Wrappers.
End AuthContext.

(** ** Shapes of stored values *)

(** No string occurs twice. *)
Fixpoint distinct (l : list string) : bool :=
  match l with
  | [] => true
  | x :: rest => negb (includes rest x) && distinct rest
  end.

(** The values [JSON.stringify] writes without loss: no [undefined], dates
    with a time value in range, objects with each key once. *)
Fixpoint json_serializable (v : JsVal) : bool :=
  match v with
  | VUndefined => false
  | VDate t => time_value t
  | VArr items => forallb json_serializable items
  | VObj props =>
      distinct (keys props)
      && forallb (fun p => let '(_, x) := p in json_serializable x) props
  | _ => true
  end.

(** Every property whose name is in [fields] holds a date, and a date occurs
    nowhere else: not as the value itself, not as an array item, not under
    another property name. *)
Fixpoint dates_in_date_fields (fields : list string) (v : JsVal) : bool :=
  match v with
  | VDate _ => false
  | VArr items => forallb (dates_in_date_fields fields) items
  | VObj props =>
      forallb (fun p => let '(k, x) := p in
                        if includes fields k then instanceof_Date x
                        else dates_in_date_fields fields x) props
  | _ => true
  end.

(** What [serializeDates] writes: a value without dates or [undefined]. *)
Fixpoint plain_json (v : JsVal) : bool :=
  match v with
  | VUndefined | VDate _ => false
  | VArr items => forallb plain_json items
  | VObj props => forallb (fun p => let '(_, x) := p in plain_json x) props
  | _ => true
  end.

(** ** A platform to run the definitions on

    Lower-casing of ASCII letters, dates rendered as their time value in
    decimal, and the character codes of a string in place of its digest. *)

Definition ascii_lower (c : ascii) : ascii :=
  let n := nat_of_ascii c in
  if (65 <=? n)%nat && (n <=? 90)%nat then ascii_of_nat (n + 32) else c.

Fixpoint string_lower (s : string) : string :=
  match s with
  | EmptyString => EmptyString
  | String c rest => String (ascii_lower c) (string_lower rest)
  end.

Definition decimal_of_time (t : Z) : string :=
  DecimalString.NilZero.string_of_int (Z.to_int t).

Definition time_of_decimal (s : string) : option Z :=
  option_map Z.of_int (DecimalString.NilZero.int_of_string s).

Definition char_codes (s : string) : list Z :=
  map (fun c => Z.of_nat (nat_of_ascii c)) (list_ascii_of_string s).

Definition demo_platform : Platform :=
  {| toLowerCase := string_lower;
     sha256 := char_codes;
     toISOString := decimal_of_time;
     Date_parse := time_of_decimal |}.

(** ** Sample worlds and values *)

Definition empty_database : Database :=
  mkDatabase [] [] [] [] [] [] [] [] [] [] [].

(** A browser tab with empty stores. *)
Definition browser_world : World :=
  mkWorld true true true false false ∅ None empty_database.

(** Server-side rendering: no [window], no [document]. *)
Definition server_world : World :=
  mkWorld false false false false false ∅ None empty_database.

(** A matter-like record with dates in [openDate] and [createdAt]. *)
Definition sample_matter : JsVal :=
  VObj [ ("id", VStr "m1");
         ("openDate", VDate 1700000000000);
         ("reviewedOn", VDate 1700000500000);
         ("tags", VArr [ VStr "trust"; VNull; VNum 3 ]);
         ("client", VObj [ ("createdAt", VDate 5); ("active", VBool true) ]) ].

(** The reference slot is empty or holds a reference written by
    [setSessionRef]. *)
Definition session_slot_typed (w : World) : Prop :=
  match localStorage w !! STORAGE_KEYS.SESSION with
  | None => True
  | Some text => ∃ ref, text = JsonText (SessionRef.to_js ref)
  end.

Definition jane : User.t :=
  User.mk "u-1" "jane@example.com" "Jane Doe" (Some "6a616e65") 100 100.

Definition jane_session : Session.t :=
  Session.mk "s-1" "u-1" "a1b2" 1000 100.

Definition jane_ref : SessionRef.t := SessionRef.mk "s-1" "a1b2" None.

(** Jane is signed in; her session expires at time 1000. *)
Definition signed_in_world : World :=
  mkWorld true true true false false
    {[ STORAGE_KEYS.SESSION := JsonText (SessionRef.to_js jane_ref) ]}
    (Some (mkCookie "a1b2" 604800000))
    (with_sessions [ jane_session ] (with_users [ jane ] empty_database)).

(** Jane's session and reference are in place, her User row is gone. *)
Definition orphan_world : World :=
  with_db (with_users [] (db signed_in_world)) signed_in_world.

Definition omar : User.t :=
  User.mk "u-2" "omar@example.com" "Omar Haddad" (Some "6f6d6172") 50 50.

Definition omar_session : Session.t :=
  Session.mk "s-2" "u-2" "c3d4" 2000 120.

Definition firm : Organization.t :=
  Organization.mk "o-1" "Haddad & Doe" "haddad-doe" None 60.

(** Jane and Omar are members of one firm; Jane is signed in. *)
Definition firm_world : World :=
  mkWorld true true true false false
    {[ STORAGE_KEYS.SESSION := JsonText (SessionRef.to_js jane_ref) ]}
    (Some (mkCookie "a1b2" 604800000))
    (mkDatabase [ jane; omar ] [ jane_session; omar_session ] [ firm ]
       [ Member.mk "m-1" "u-1" "o-1" owner 60;
         Member.mk "m-2" "u-2" "o-1" member 61 ]
       [ VObj [ ("id", VStr "c-1"); ("name", VStr "Acme") ] ]
       [] [] [] [] [] []).

Definition jane_signup : SignUpData.t :=
  SignUpData.mk "Jane@Example.com" "hunter22" "Jane Doe".

Definition jane_draws : SignUpDraws := mkSignUpDraws "u-9" [ 171; 5; 255 ] "s-9".

(** The cells of a freshly mounted provider. *)
Definition initial_context : AuthContext.t :=
  AuthContext.mk None true None None [].

(** What Jane's sign-up at time 100 returns in [browser_world] on the demo
    platform. *)
Definition jane_signup_result : SignUpResult.t :=
  SignUpResult.mk
    (User.mk "u-9" "jane@example.com" "Jane Doe" (Some "68756e7465723232")
       100 100)
    (Session.mk "s-9" "u-9" "ab05ff" 604800100 100).

(** The world Jane's sign-up leaves. *)
Definition after_jane_signup : World :=
  snd (@signUpEmail demo_platform 100 jane_draws jane_signup browser_world).

(** ** The rest of local-storage-helpers.ts *)

Definition ANONYMOUS_USER : string := "iolta:anonymousUserId".

(** [clearAllStorageData()]: the keys that start with [iolta:] are collected
    first and removed afterwards.  The enumeration [localStorage.key(i)] is
    the enumeration of the map. *)
Definition clearAllStorageData (w : World) : World :=
  if negb (hasWindow w) then w
  else
    let keysToRemove :=
      List.filter (String.prefix "iolta:")
        (map fst (map_to_list (localStorage w))) in
    fold_left (fun w' key => removeItem key w') keysToRemove w.

(** [clearSessionStorage()] *)
Definition clearSessionStorage (w : World) : World :=
  snd (removeFromLocalStorage STORAGE_KEYS.ACTIVE_ORG
         (snd (removeFromLocalStorage STORAGE_KEYS.SESSION w))).

(** [getAnonymousUserId()]; the id is returned as the text that is stored.
    [uuid] is the draw of [crypto.randomUUID].  The write is not guarded: a
    full store makes the call throw. *)
Definition getAnonymousUserId (uuid : string) : M Text :=
  fun w =>
    if negb (hasWindow w) then (Ok (PlainText "anon-server"), w)
    else
      let stored := getItem ANONYMOUS_USER w in
      match stored with
      | Some id =>
          if is_empty_text id
          then
            let id := PlainText ("anon-" ++ uuid) in
            let* _ := setItem ANONYMOUS_USER id in ret id
          else ret id
      | None =>
          let id := PlainText ("anon-" ++ uuid) in
          let* _ := setItem ANONYMOUS_USER id in ret id
      end w.

(** ** The rest of db.ts *)

(** [clearAppData()]: the seven application tables are cleared in one
    transaction. *)
Definition clearAppData : M unit :=
  let* browser := gets isBrowser in
  if negb browser then ret tt
  else
    let* _ := getDatabase in
    modify (fun w =>
              with_db
                (mkDatabase (users (db w)) (sessions (db w))
                   (organizations (db w)) (members (db w))
                   [] [] [] [] [] [] []) w).

(** [clearAuthData()]: the four auth tables are cleared; the session
    reference and the cookie are not touched. *)
Definition clearAuthData : M unit :=
  let* browser := gets isBrowser in
  if negb browser then ret tt
  else
    let* _ := getDatabase in
    let* _ := modify (fun w => with_db (with_sessions [] (db w)) w) in
    let* _ := modify (fun w => with_db (with_members [] (db w)) w) in
    let* _ := modify (fun w => with_db (with_organizations [] (db w)) w) in
    modify (fun w => with_db (with_users [] (db w)) w).

(** [resetDatabase()]: the database is deleted; the next [getDatabase()]
    opens an empty one. *)
Definition resetDatabase : M unit :=
  let* browser := gets isBrowser in
  if negb browser then ret tt
  else
    let* _ := getDatabase in
    modify (with_db (mkDatabase [] [] [] [] [] [] [] [] [] [] [])).

(** ** The rest of auth-context.tsx, and the protected layout *)

Module AuthProvider.

(** [loadSession()], run on mount and on a storage event for the session
    key.  An error is recorded and not rethrown. *)
Definition loadSession `{Platform} (now : Z) (c : AuthContext.t) (w : World)
  : AuthContext.t * World :=
  match getSession now w with
  | (Throw message, w1) =>
      (AuthContext.setIsLoading false
         (AuthContext.setError (Some message) c), w1)
  | (Ok sessionData, w1) =>
      let c := AuthContext.setSession sessionData c in
      match sessionData with
      | None => (AuthContext.setIsLoading false c, w1)
      | Some data =>
          match getOrganizations (User.id (SessionData.user data)) w1 with
          | (Throw message, w2) =>
              (AuthContext.setIsLoading false
                 (AuthContext.setError (Some message) c), w2)
          | (Ok orgs, w2) =>
              let c := AuthContext.setOrganizations orgs c in
              match getActiveOrganization w2 with
              | (Throw message, w3) =>
                  (AuthContext.setIsLoading false
                     (AuthContext.setError (Some message) c), w3)
              | (Ok activeOrg, w3) =>
                  (AuthContext.setIsLoading false
                     (AuthContext.setActiveOrgState activeOrg c), w3)
              end
          end
      end
  end.

(** [signOut] of the context: an error is logged and swallowed. *)
Definition handleSignOut `{Platform} (c : AuthContext.t) (w : World)
  : AuthContext.t * World :=
  let c := AuthContext.setIsLoading true c in
  match signOut w with
  | (Throw _, w1) => (AuthContext.setIsLoading false c, w1)
  | (Ok _, w1) =>
      (AuthContext.setIsLoading false
         (AuthContext.setOrganizations []
            (AuthContext.setActiveOrgState None
               (AuthContext.setSession None c))), w1)
  end.

(** [organization.create]: errors are not caught. *)
Definition handleCreateOrg `{Platform} (now : Z) (rnd : CreateOrgDraws)
    (data : CreateOrgData.t) (c : AuthContext.t) (w : World)
  : Outcome Organization.t * AuthContext.t * World :=
  match AuthContext.session c with
  | None => (Throw "Must be logged in", c, w)
  | Some session =>
      match createOrganization now rnd data
              (User.id (SessionData.user session)) w with
      | (Throw message, w1) => (Throw message, c, w1)
      | (Ok org, w1) =>
          (Ok org,
           AuthContext.setActiveOrgState (Some org)
             (AuthContext.setOrganizations
                (AuthContext.organizations c ++ [ org ])%list c),
           w1)
      end
  end.

(** [organization.setActive] *)
Definition handleSetActiveOrg `{Platform} (now : Z) (orgId : string)
    (c : AuthContext.t) (w : World) : Outcome unit * AuthContext.t * World :=
  match setActiveOrganization now orgId w with
  | (Throw message, w1) => (Throw message, c, w1)
  | (Ok _, w1) =>
      match getActiveOrganization w1 with
      | (Throw message, w2) => (Throw message, c, w2)
      | (Ok org, w2) => (Ok tt, AuthContext.setActiveOrgState org c, w2)
      end
  end.

(** What [useSession()] hands to a component. *)
Record SessionHook := mkSessionHook {
  data : option SessionData.t;
  isPending : bool;
  error : option string;
}.

Definition useSession (c : AuthContext.t) : SessionHook :=
  mkSessionHook (AuthContext.session c) (AuthContext.isLoading c)
    (AuthContext.error c).

(** What [ProtectedLayout] shows: the loading placeholder, nothing together
    with a navigation to [/login], or the page. *)
Inductive View := Loading | RedirectToLogin | Page.

Definition ProtectedLayout (c : AuthContext.t) : View :=
  let hook := useSession c in
  if isPending hook then Loading
  else match data hook with
       | None => RedirectToLogin
       | Some _ => Page
       end.

End AuthProvider.

(** ** Demo usage storage (lib/usage/storage.ts) *)

Definition DEMO_USAGE_KEY : string := "iolta:demoUsage".

(** [!!v] *)
Definition js_truthy (v : JsVal) : bool :=
  match v with
  | VUndefined | VNull | VBool false | VNum 0 | VStr "" => false
  | _ => true
  end.

(** [v.key] on a value that is not [null] or [undefined]. *)
Definition js_prop (v : JsVal) (key : string) : JsVal :=
  match v with
  | VObj props => obj_get key props
  | _ => VUndefined
  end.

Section DemoUsage.
Context `{Platform}.

Definition createDemoUsage (now : Z) (sessionId : string) : JsVal :=
  VObj [ ("sessionId", VStr sessionId);
         ("sessionStartedAt", VStr (toISOString now));
         ("totalInputTokens", VNum 0);
         ("totalOutputTokens", VNum 0);
         ("estimatedCostUsd", VNum 0);
         ("apiCallCount", VNum 0);
         ("ocrPageCount", VNum 0);
         ("lastUpdatedAt", VStr (toISOString now)) ].

Definition loadDemoUsage (w : World) : JsVal :=
  loadFromLocalStorage DEMO_USAGE_KEY
    (Some (mkLoadOptions (Some [ "sessionStartedAt"; "lastUpdatedAt" ]) None))
    w.

Definition saveDemoUsage (usage : JsVal) (w : World) : bool * World :=
  saveToLocalStorage DEMO_USAGE_KEY usage w.

Definition getOrCreateDemoUsage (now : Z) (sessionId : string) (w : World)
  : JsVal * World :=
  let existing := loadDemoUsage w in
  if js_truthy existing
     && match js_prop existing "sessionId" with
        | VStr s => String.eqb s sessionId
        | _ => false
        end
  then (existing, w)
  else
    let newUsage := createDemoUsage now sessionId in
    (newUsage, snd (saveDemoUsage newUsage w)).

End DemoUsage.

(** [clearDemoUsage()] *)
Definition clearDemoUsage (w : World) : World :=
  if hasWindow w then removeItem DEMO_USAGE_KEY w else w.

(** ** More shapes *)

(** No row id occurs twice: the primary key of a table. *)
Definition unique_ids {R : Type} `{Row R} (table : list R) : Prop :=
  NoDup (map row_id table).

(** No email occurs twice in the Users table. *)
Definition emails_unique (table : list User.t) : Prop :=
  NoDup (map User.email table).

(** No [Date] occurs in the value. *)
Fixpoint date_free (v : JsVal) : bool :=
  match v with
  | VDate _ => false
  | VArr items => forallb date_free items
  | VObj props => forallb (fun p => let '(_, x) := p in date_free x) props
  | _ => true
  end.

(** Every object in the value has each key once. *)
Fixpoint keys_distinct (v : JsVal) : bool :=
  match v with
  | VArr items => forallb keys_distinct items
  | VObj props =>
      distinct (keys props)
      && forallb (fun p => let '(_, x) := p in keys_distinct x) props
  | _ => true
  end.

(** A lower-case hexadecimal digit. *)
Definition is_hex_digit (c : ascii) : bool :=
  let n := nat_of_ascii c in
  ((48 <=? n)%nat && (n <=? 57)%nat) || ((97 <=? n)%nat && (n <=? 102)%nat).

Fixpoint all_chars (p : ascii → bool) (s : string) : bool :=
  match s with
  | EmptyString => true
  | String c rest => p c && all_chars p rest
  end.

(** A byte. *)
Definition is_byte (b : Z) : Prop := 0 ≤ b < 256.

(** ** More sample values *)

Definition jane_org_draws : CreateOrgDraws := mkCreateOrgDraws "o-7" "m-7".

Definition jane_org_data : CreateOrgData.t :=
  CreateOrgData.mk "Doe Law" "doe-law" None.

Section DateStrings.
Context `{Platform}.

(** No string under a key of [fields] parses as a date. *)
Fixpoint no_date_strings (fields : list string) (v : JsVal) : bool :=
  match v with
  | VArr items => forallb (no_date_strings fields) items
  | VObj props =>
      forallb (fun p => let '(k, x) := p in
                        match x with
                        | VStr s =>
                            negb (includes fields k)
                            || match Date_parse s with
                               | Some _ => false
                               | None => true
                               end
                        | _ => no_date_strings fields x
                        end) props
  | _ => true
  end.

End DateStrings.

(** No object in the value has the key [__proto__]. *)
Fixpoint ordinary_keys (v : JsVal) : bool :=
  match v with
  | VArr items => forallb ordinary_keys items
  | VObj props =>
      negb (includes (keys props) "__proto__")
      && forallb (fun p => let '(_, x) := p in ordinary_keys x) props
  | _ => true
  end.

(** A record with an own property [__proto__], as [JSON.parse] makes it
    from the text [{"id":"m2","__proto__":{"flag":true}}]. *)
Definition proto_matter : JsVal :=
  VObj [ ("id", VStr "m2"); ("__proto__", VObj [ ("flag", VBool true) ]) ].

(** * Properties *)

(** ** Induction on values *)

Lemma JsVal_nested_ind (P : JsVal → Prop) :
  P VUndefined → P VNull → (∀ b, P (VBool b)) → (∀ n, P (VNum n)) →
  (∀ s, P (VStr s)) → (∀ t, P (VDate t)) →
  (∀ items, Forall P items → P (VArr items)) →
  (∀ props, Forall (fun p => P (snd p)) props → P (VObj props)) →
  ∀ v, P v.
Proof.
  intros Hu Hn Hb Hz Hs Hd Ha Ho.
  fix IH 1. intros [ | | b | n | s | t | items | props ].
  - exact Hu.
  - exact Hn.
  - apply Hb.
  - apply Hz.
  - apply Hs.
  - apply Hd.
  - apply Ha. induction items as [|x items IHitems]; constructor.
    + apply IH.
    + exact IHitems.
  - apply Ho. induction props as [|[k x] props IHprops]; constructor.
    + apply IH.
    + exact IHprops.
Qed.

(** ** Objects *)

Lemma includes_elem_of l key : includes l key = true ↔ key ∈ l.
Proof.
  unfold includes. rewrite existsb_exists, list_elem_of_In. split.
  - intros (x & Hx & Heq). apply String.eqb_eq in Heq. now subst.
  - intros Hin. exists key. split; [assumption | apply String.eqb_refl].
Qed.

Lemma includes_false_elem_of l key : includes l key = false ↔ key ∉ l.
Proof.
  rewrite <- includes_elem_of. destruct (includes l key); split; congruence.
Qed.

Lemma distinct_NoDup l : distinct l = true ↔ NoDup l.
Proof.
  induction l as [|x l IHl]; simpl.
  - split; [constructor | reflexivity].
  - rewrite andb_true_iff, negb_true_iff, includes_false_elem_of, IHl.
    now rewrite NoDup_cons.
Qed.

Lemma obj_put_fresh key value result :
  key ∉ keys result → obj_put key value result = (result ++ [(key, value)])%list.
Proof.
  induction result as [|[k x] rest IHrest]; simpl; intros Hfresh.
  - reflexivity.
  - apply not_elem_of_cons in Hfresh as [Hne Hfresh].
    destruct (String.eqb_spec k key) as [->|_]; [congruence|].
    f_equal. now apply IHrest.
Qed.

Lemma obj_set_fresh key value result :
  key ≠ "__proto__" →
  key ∉ keys result → obj_set key value result = (result ++ [(key, value)])%list.
Proof.
  intros Hkey Hfresh. unfold obj_set.
  destruct (String.eqb_spec key "__proto__") as [|_]; [contradiction|].
  now apply obj_put_fresh.
Qed.

(** On an object without the key [__proto__], the assignment loop builds the
    entries in order. *)
Lemma assign_entries_distinct f entries result :
  "__proto__" ∉ keys entries →
  NoDup (keys result ++ keys entries) →
  assign_entries f entries result
  = (result ++ map (fun p => (fst p, f (fst p) (snd p))) entries)%list.
Proof.
  revert result.
  induction entries as [|[key value] rest IHrest]; simpl;
    intros result Hproto Hnd.
  - now rewrite app_nil_r.
  - apply not_elem_of_cons in Hproto as [Hkey Hproto].
    assert (Hfresh : key ∉ keys result).
    { apply NoDup_app in Hnd as (_ & Hdisj & _).
      intros Hin. apply (Hdisj key Hin). simpl. left. }
    rewrite (obj_set_fresh _ _ _ (not_eq_sym Hkey) Hfresh), IHrest.
    + now rewrite <- app_assoc.
    + exact Hproto.
    + unfold keys in *. rewrite map_app. simpl. rewrite <- app_assoc. exact Hnd.
Qed.

Lemma assign_entries_object f props :
  distinct (keys props) = true →
  includes (keys props) "__proto__" = false →
  assign_entries f props []
  = map (fun p => (fst p, f (fst p) (snd p))) props.
Proof.
  intros Hd Hproto. apply assign_entries_distinct.
  - now apply includes_false_elem_of.
  - simpl. now apply distinct_NoDup.
Qed.

Lemma keys_map_entries (g : string → JsVal → JsVal) props :
  keys (map (fun p => (fst p, g (fst p) (snd p))) props) = keys props.
Proof.
  unfold keys. rewrite map_map. apply map_ext. reflexivity.
Qed.

(** ** Date serialisation *)

Section DateSerializationFacts.
Context `{Platform}.

Lemma serializeDates_object props :
  distinct (keys props) = true →
  includes (keys props) "__proto__" = false →
  serializeDates (VObj props)
  = VObj (map (fun p => (fst p, serializeDates (snd p))) props).
Proof.
  intros Hd Hproto. simpl. now rewrite assign_entries_object.
Qed.

Lemma serializeDates_plain v :
  json_serializable v = true → ordinary_keys v = true →
  plain_json (serializeDates v) = true.
Proof.
  induction v as [ | | b | n | s | t | items IH | props IH ]
    using JsVal_nested_ind; intros Hv Hord; try reflexivity; try discriminate.
  - simpl in *. induction IH as [|x items Hx _ IHitems]; simpl in *.
    + reflexivity.
    + apply andb_true_iff in Hv as [Hx' Hitems].
      apply andb_true_iff in Hord as [Hox Hoitems].
      now rewrite Hx, IHitems.
  - apply andb_true_iff in Hv as [Hd Hv].
    simpl in Hord. apply andb_true_iff in Hord as [Hproto Hord].
    apply negb_true_iff in Hproto.
    rewrite serializeDates_object by assumption. simpl. clear Hd Hproto.
    induction IH as [|[k x] props Hx _ IHprops]; simpl in *.
    + reflexivity.
    + apply andb_true_iff in Hv as [Hx' Hprops].
      apply andb_true_iff in Hord as [Hox Hoprops].
      now rewrite Hx, IHprops.
Qed.

Lemma json_doc_plain v : plain_json v = true → json_doc v = v.
Proof.
  induction v as [ | | b | n | s | t | items IH | props IH ]
    using JsVal_nested_ind; intros Hv; try reflexivity; try discriminate.
  - simpl in *. f_equal.
    induction IH as [|x items Hx _ IHitems]; simpl in *.
    + reflexivity.
    + apply andb_true_iff in Hv as [Hx' Hitems].
      rewrite IHitems by exact Hitems. f_equal.
      destruct x; try discriminate; now apply Hx.
  - simpl in *. f_equal.
    induction IH as [|[k x] props Hx _ IHprops]; simpl in *.
    + reflexivity.
    + apply andb_true_iff in Hv as [Hx' Hprops].
      rewrite IHprops by exact Hprops.
      destruct x; try discriminate; f_equal; f_equal; now apply Hx.
Qed.

(** The text written for the serialised form of a serialisable value is the
    text of that form. *)
Lemma JSON_stringify_serialized v :
  json_serializable v = true → ordinary_keys v = true →
  JSON_stringify (serializeDates v) = Some (JsonText (serializeDates v)).
Proof.
  intros Hv Hord. pose proof (serializeDates_plain v Hv Hord) as Hp.
  unfold JSON_stringify.
  rewrite (json_doc_plain _ Hp).
  destruct (serializeDates v); try reflexivity; discriminate.
Qed.

(** Reading back what [serializeDates] wrote restores the value. *)
Lemma deserializeDates_serializeDates dateFields v :
  iso_round_trip →
  json_serializable v = true →
  ordinary_keys v = true →
  dates_in_date_fields (allDateFields dateFields) v = true →
  deserializeDates dateFields (serializeDates v) = v.
Proof.
  intros Hiso.
  induction v as [ | | b | n | s | t | items IH | props IH ]
    using JsVal_nested_ind; intros Hv Hord Hdates;
    try reflexivity; try discriminate.
  - simpl in *. f_equal. rewrite map_map.
    induction IH as [|x items Hx _ IHitems]; simpl in *.
    + reflexivity.
    + apply andb_true_iff in Hv as [Hx' Hitems].
      apply andb_true_iff in Hord as [Hox Hoitems].
      apply andb_true_iff in Hdates as [Hdx Hditems].
      now rewrite Hx, IHitems.
  - apply andb_true_iff in Hv as [Hd Hv].
    simpl in Hord. apply andb_true_iff in Hord as [Hproto Hord].
    apply negb_true_iff in Hproto.
    rewrite serializeDates_object by assumption.
    cbn [deserializeDates].
    rewrite assign_entries_object
      by now rewrite (keys_map_entries (fun _ x => serializeDates x)).
    f_equal. rewrite map_map. simpl in Hdates. clear Hd Hproto.
    induction IH as [|[k x] props Hx _ IHprops]; simpl in *.
    + reflexivity.
    + apply andb_true_iff in Hv as [Hx' Hprops].
      apply andb_true_iff in Hord as [Hox Hoprops].
      apply andb_true_iff in Hdates as [Hdx Hdprops].
      rewrite IHprops by assumption. f_equal. f_equal.
      destruct (includes (allDateFields dateFields) k).
      * destruct x; try discriminate. simpl.
        now rewrite (Hiso t Hx').
      * specialize (Hx Hx' Hox Hdx).
        destruct x; try discriminate; try reflexivity; simpl in *;
          exact Hx.
Qed.

End DateSerializationFacts.

(** ** The demo platform *)

Lemma demo_iso_round_trip : @iso_round_trip demo_platform.
Proof.
  intros t _. simpl. unfold time_of_decimal, decimal_of_time.
  rewrite NilZero.isi.
  - simpl. now rewrite DecimalZ.of_to.
  - destruct t; simpl; try discriminate.
    intros [= E]. now apply Unsigned.to_uint_nonnil in E.
  - destruct t; simpl; try discriminate.
    intros [= E]. now apply Unsigned.to_uint_nonnil in E.
Qed.

(** ** localStorage round trip *)

Section LocalStorageFacts.
Context `{Platform}.

Lemma saveToLocalStorage_true key data w w' :
  saveToLocalStorage key data w = (true, w') →
  hasWindow w = true
  ∧ w' = with_localStorage
           (<[key := to_storage_string (JSON_stringify (serializeDates data))]>
              (localStorage w)) w.
Proof.
  unfold saveToLocalStorage, setItem.
  destruct (hasWindow w); simpl; [|discriminate].
  destruct (quotaExceeded w); simpl; [discriminate|].
  destruct (DEBUG w); [destruct (JSON_stringify _)|];
    intros [= <-]; auto; discriminate.
Qed.

Lemma loadFromLocalStorage_absent key options w :
  getItem key w = None → loadFromLocalStorage key options w = VNull.
Proof.
  intros Habsent. unfold loadFromLocalStorage. rewrite Habsent.
  now destruct (hasWindow w).
Qed.

End LocalStorageFacts.

(** C8.  [loadFromLocalStorage(key, {dateFields})] after a successful
    [saveToLocalStorage(key, value)] returns [value], dates included, for
    every JSON-serialisable value whose date-named fields (the default names
    and the caller's [dateFields]) hold dates, which has dates nowhere else
    and which has no member named [__proto__]; [loadFromLocalStorage] returns
    [null] when the key is absent.  A member named [__proto__] is lost:
    [proto_matter] is JSON-serialisable and holds no date, its save succeeds,
    and what is read back is the object without that member. *)
Theorem localStorage_round_trip_drops_proto `{Platform} :
  iso_round_trip →
  (∀ key value fields w w',
      json_serializable value = true →
      dates_in_date_fields (allDateFields fields) value = true →
      ordinary_keys value = true →
      saveToLocalStorage key value w = (true, w') →
      loadFromLocalStorage key (Some (mkLoadOptions (Some fields) None)) w'
      = value)
  ∧ (∀ key options w,
        getItem key w = None → loadFromLocalStorage key options w = VNull)
  ∧ (json_serializable proto_matter = true
     ∧ dates_in_date_fields (allDateFields []) proto_matter = true
     ∧ fst (saveToLocalStorage "iolta:activeMatter" proto_matter browser_world)
       = true
     ∧ loadFromLocalStorage "iolta:activeMatter"
         (Some (mkLoadOptions (Some []) None))
         (snd (saveToLocalStorage "iolta:activeMatter" proto_matter
                 browser_world))
       = VObj [ ("id", VStr "m2") ]
     ∧ VObj [ ("id", VStr "m2") ] ≠ proto_matter).
Proof.
  intros Hiso. split; [|split].
  - intros key value fields w w' Hjson Hdates Hord Hsave.
    apply saveToLocalStorage_true in Hsave as [Hwin ->].
    unfold loadFromLocalStorage, getItem. simpl. rewrite Hwin. simpl.
    rewrite lookup_insert_eq.
    rewrite (JSON_stringify_serialized _ Hjson Hord). simpl.
    now apply deserializeDates_serializeDates.
  - intros key options w. apply loadFromLocalStorage_absent.
  - split; [reflexivity|]. split; [reflexivity|]. split; [reflexivity|].
    split; [vm_compute; reflexivity | discriminate].
Qed.

Lemma localStorage_round_trip_drops_proto_witness :
  json_serializable sample_matter = true
  ∧ dates_in_date_fields (allDateFields [ "reviewedOn" ]) sample_matter = true
  ∧ ordinary_keys sample_matter = true
  ∧ @loadFromLocalStorage demo_platform "iolta:activeMatter"
      (Some (mkLoadOptions (Some [ "reviewedOn" ]) None))
      (snd (@saveToLocalStorage demo_platform "iolta:activeMatter"
              sample_matter browser_world))
    = sample_matter.
Proof.
  split; [reflexivity|]. split; [reflexivity|]. split; [reflexivity|].
  apply (proj1 (@localStorage_round_trip_drops_proto demo_platform
                  demo_iso_round_trip))
    with (w := browser_world).
  - reflexivity.
  - reflexivity.
  - reflexivity.
  - vm_compute. reflexivity.
Defined.

(** ** Tables *)

Section TableFacts.
Context {R : Type} `{Row R}.

Lemma tbl_get_insert_eq (r : R) table :
  tbl_get (row_id r) table = None →
  tbl_get (row_id r) (tbl_insert r table) = Some r.
Proof.
  unfold tbl_get.
  induction table as [|r' rest IHrest]; simpl; intros Hfree.
  - now rewrite String.eqb_refl.
  - destruct (String.eqb (row_id r') (row_id r)) eqn:Hr'; [discriminate|].
    destruct (String.ltb (row_id r) (row_id r')); simpl.
    + now rewrite String.eqb_refl.
    + rewrite Hr'. now apply IHrest.
Qed.

Lemma tbl_get_insert_ne (r : R) key table :
  row_id r ≠ key → tbl_get key (tbl_insert r table) = tbl_get key table.
Proof.
  unfold tbl_get. intros Hne. apply String.eqb_neq in Hne.
  induction table as [|r' rest IHrest]; simpl.
  - now rewrite Hne.
  - destruct (String.ltb (row_id r) (row_id r')); simpl.
    + now rewrite Hne.
    + now rewrite IHrest.
Qed.

Lemma tbl_add_Some (r : R) table table' :
  tbl_add r table = Some table' →
  tbl_get (row_id r) table = None ∧ table' = tbl_insert r table.
Proof.
  unfold tbl_add. destruct (tbl_get (row_id r) table); [discriminate|].
  now intros [= <-].
Qed.

Lemma tbl_add_fresh (r : R) table :
  tbl_get (row_id r) table = None →
  tbl_add r table = Some (tbl_insert r table).
Proof. intros Hfree. unfold tbl_add. now rewrite Hfree. Qed.

Lemma tbl_get_delete_eq key (table : list R) :
  tbl_get key (tbl_delete key table) = None.
Proof.
  unfold tbl_get, tbl_delete.
  induction table as [|r rest IHrest]; simpl; [reflexivity|].
  destruct (String.eqb (row_id r) key) eqn:Hr; simpl; [assumption|].
  now rewrite Hr.
Qed.

Lemma filter_insert_first (p : R → bool) (r : R) table :
  List.filter p table = [] → p r = true →
  List.filter p (tbl_insert r table) = [r].
Proof.
  intros Hnone Hr.
  induction table as [|r' rest IHrest]; simpl in *.
  - now rewrite Hr.
  - destruct (p r') eqn:Hr'; [discriminate|].
    destruct (String.ltb (row_id r) (row_id r')); simpl.
    + now rewrite Hr, Hr', Hnone.
    + rewrite Hr'. now apply IHrest.
Qed.

Lemma where_equals_first_None field value (table : list R) :
  where_equals_first field value table = None →
  where_equals field value table = [].
Proof.
  unfold where_equals_first. now destruct (where_equals field value table).
Qed.

Lemma where_equals_first_Some field value (table : list R) r :
  where_equals_first field value table = Some r →
  r ∈ table ∧ field r = value.
Proof.
  unfold where_equals_first, where_equals. intros Hhead.
  assert (Hin : In r (List.filter (fun r => String.eqb (field r) value) table)).
  { destruct (List.filter _ table); [discriminate|].
    injection Hhead as ->. now left. }
  apply filter_In in Hin as [Hin Heq].
  split; [now apply list_elem_of_In | now apply String.eqb_eq].
Qed.

(** The boolean filters of the table operations as filters by a
    proposition. *)
Lemma List_filter_negb_eqb (field : R → string) value (table : list R) :
  List.filter (fun r => negb (String.eqb (field r) value)) table
  = filter (fun r => field r ≠ value) table.
Proof.
  induction table as [|r rest IHrest]; simpl; [reflexivity|].
  rewrite filter_cons, IHrest.
  destruct (String.eqb_spec (field r) value) as [Heq|Hne]; simpl.
  - now rewrite decide_False by auto.
  - now rewrite decide_True by auto.
Qed.

End TableFacts.

(** ** The session reference *)

Section SessionReferenceFacts.
Context `{Platform}.

Lemma SessionRef_of_js_to_js ref :
  SessionRef.of_js (deserializeDates [] (SessionRef.to_js ref)) = Some ref.
Proof. now destruct ref as [s tok [org|]]. Qed.

Lemma SessionRef_stringify ref :
  JSON_stringify (serializeDates (SessionRef.to_js ref))
  = Some (JsonText (SessionRef.to_js ref)).
Proof. now destruct ref as [s tok [org|]]. Qed.

(** What the reference slot holds decides [getSessionRef]. *)
Lemma getSessionRef_slot w ref :
  hasWindow w = true →
  localStorage w !! STORAGE_KEYS.SESSION = Some (JsonText (SessionRef.to_js ref)) →
  getSessionRef w = Some ref.
Proof.
  intros Hwin Hslot. unfold getSessionRef, loadFromLocalStorage, getItem.
  rewrite Hwin, Hslot. simpl negb. cbv iota.
  cbn [is_empty_text JSON_parse mbind option_bind default].
  apply SessionRef_of_js_to_js.
Qed.

Lemma getSessionRef_absent w :
  localStorage w !! STORAGE_KEYS.SESSION = None → getSessionRef w = None.
Proof.
  intros Hslot. unfold getSessionRef.
  now rewrite loadFromLocalStorage_absent.
Qed.

Lemma setSessionRef_browser now ref w :
  hasWindow w = true → quotaExceeded w = false →
  setSessionRef now ref w
  = setAuthCookie now (SessionRef.token ref) 7
      (with_localStorage
         (<[STORAGE_KEYS.SESSION := JsonText (SessionRef.to_js ref)]>
            (localStorage w)) w).
Proof.
  intros Hwin Hquota. unfold setSessionRef, saveToLocalStorage, setItem.
  rewrite Hwin, Hquota, SessionRef_stringify. simpl.
  now destruct (DEBUG w).
Qed.

Lemma getSessionRef_setSessionRef now ref w :
  hasWindow w = true → quotaExceeded w = false →
  getSessionRef (setSessionRef now ref w) = Some ref.
Proof.
  intros Hwin Hquota. rewrite setSessionRef_browser by assumption.
  unfold setAuthCookie. simpl.
  apply getSessionRef_slot; destruct (hasDocument w); simpl;
    first [exact Hwin | apply lookup_insert_eq].
Qed.

Lemma getSessionRef_clearSessionRef w :
  hasWindow w = true → getSessionRef (clearSessionRef w) = None.
Proof.
  intros Hwin. apply getSessionRef_absent.
  unfold clearSessionRef, clearAuthCookie, removeFromLocalStorage, removeItem.
  rewrite Hwin. simpl.
  destruct (hasDocument w); simpl; apply lookup_delete_eq.
Qed.

Lemma cookie_clearSessionRef w :
  hasDocument w = true → cookie (clearSessionRef w) = None.
Proof.
  intros Hdoc. unfold clearSessionRef, clearAuthCookie, removeFromLocalStorage.
  destruct (hasWindow w); simpl; now rewrite Hdoc.
Qed.

Lemma db_clearSessionRef w : db (clearSessionRef w) = db w.
Proof.
  unfold clearSessionRef, clearAuthCookie, removeFromLocalStorage.
  destruct (hasWindow w); simpl; now destruct (hasDocument w).
Qed.

Lemma hasWindow_clearSessionRef w :
  hasWindow (clearSessionRef w) = hasWindow w.
Proof.
  unfold clearSessionRef, clearAuthCookie, removeFromLocalStorage.
  destruct (hasWindow w) eqn:Hwin; simpl; destruct (hasDocument w); simpl;
    congruence.
Qed.

Lemma db_setSessionRef now ref w : db (setSessionRef now ref w) = db w.
Proof.
  unfold setSessionRef, setAuthCookie, saveToLocalStorage, setItem.
  rewrite SessionRef_stringify.
  destruct (hasWindow w), (quotaExceeded w), (DEBUG w); simpl;
    now destruct (hasDocument w).
Qed.

Lemma hasWindow_setSessionRef now ref w :
  hasWindow (setSessionRef now ref w) = hasWindow w.
Proof.
  unfold setSessionRef, setAuthCookie, saveToLocalStorage, setItem.
  rewrite SessionRef_stringify.
  destruct (hasWindow w) eqn:Hwin, (quotaExceeded w), (DEBUG w); simpl;
    destruct (hasDocument w); simpl; congruence.
Qed.

Lemma cookie_setSessionRef now ref w :
  hasDocument w = true →
  cookie (setSessionRef now ref w)
  = Some (mkCookie (SessionRef.token ref) (whole_seconds (now + SEVEN_DAYS))).
Proof.
  intros Hdoc. unfold setSessionRef, setAuthCookie, saveToLocalStorage, setItem.
  rewrite SessionRef_stringify.
  destruct (hasWindow w), (quotaExceeded w), (DEBUG w); simpl;
    now rewrite Hdoc.
Qed.

(** [getSessionRef] reads the reference slot only. *)
Lemma getSessionRef_with_db d w : getSessionRef (with_db d w) = getSessionRef w.
Proof. reflexivity. Qed.

Lemma getSessionRef_with_cookie c w :
  getSessionRef (with_cookie c w) = getSessionRef w.
Proof. reflexivity. Qed.

End SessionReferenceFacts.

(** ** Running the operations *)

Ltac unfold_monad :=
  unfold bind, gets, modify, ret, throw, getDatabase, isBrowser.

Section AuthFacts.
Context `{Platform}.

(** [getSession] in a browser, branch by branch. *)
Lemma getSession_browser now w :
  hasWindow w = true →
  getSession now w
  = match getSessionRef w with
    | None => (Ok None, w)
    | Some ref =>
        match tbl_get (SessionRef.sessionId ref) (sessions (db w)) with
        | None => (Ok None, clearSessionRef w)
        | Some s =>
            if negb (String.eqb (Session.token s) (SessionRef.token ref))
            then (Ok None, clearSessionRef w)
            else if Session.expiresAt s <? now
            then (Ok None, clearSessionRef (without_session (Session.id s) w))
            else
              match tbl_get (Session.userId s) (users (db w)) with
              | None =>
                  (Ok None,
                   clearSessionRef (without_session (Session.id s) w))
              | Some u =>
                  (Ok (Some (SessionData.mk (safeUser u) s)),
                   setAuthCookie now (Session.token s) 7 w)
              end
        end
    end.
Proof.
  intros Hwin. unfold getSession, sessions_delete. unfold_monad.
  rewrite Hwin. simpl. rewrite Hwin. simpl.
  destruct (getSessionRef w) as [ref|]; [|reflexivity].
  destruct (tbl_get _ (sessions (db w))) as [s|]; [|reflexivity].
  destruct (negb _); [reflexivity|].
  destruct (Session.expiresAt s <? now); [reflexivity|].
  now destruct (tbl_get _ (users (db w))).
Qed.

(** The successful read. *)
Lemma getSession_valid now w ref s u :
  hasWindow w = true →
  getSessionRef w = Some ref →
  tbl_get (SessionRef.sessionId ref) (sessions (db w)) = Some s →
  Session.token s = SessionRef.token ref →
  now ≤ Session.expiresAt s →
  tbl_get (Session.userId s) (users (db w)) = Some u →
  getSession now w
  = (Ok (Some (SessionData.mk (safeUser u) s)),
     setAuthCookie now (Session.token s) 7 w).
Proof.
  intros Hwin Href Hs Htok Hexp Hu.
  rewrite (getSession_browser now w Hwin), Href, Hs, Htok, Hu.
  rewrite String.eqb_refl. simpl.
  now destruct (Z.ltb_spec (Session.expiresAt s) now); [lia|].
Qed.

Lemma getSession_server now w :
  hasWindow w = false → getSession now w = (Ok None, w).
Proof.
  intros Hwin. unfold getSession. unfold_monad. now rewrite Hwin.
Qed.

Lemma validateSessionSync_server now w :
  hasWindow w = false →
  validateSessionSync now w
  = (Ok (Validation.mk false [ ("error", VStr "Not in browser") ]), w).
Proof.
  intros Hwin. unfold validateSessionSync. unfold_monad. now rewrite Hwin.
Qed.

(** [validateSessionSync] only reads; [valid] is the conjunction of the
    three checks on the Session row, and the user lookup is written to
    [details.hasUser]. *)
Lemma validateSessionSync_browser now w :
  hasWindow w = true →
  validateSessionSync now w
  = (Ok match getSessionRef w with
        | None =>
            Validation.mk false
              [ ("hasLocalStorageRef", VBool false);
                ("sessionId", VUndefined) ]
        | Some ref =>
            match tbl_get (SessionRef.sessionId ref) (sessions (db w)) with
            | None =>
                Validation.mk false
                  [ ("hasLocalStorageRef", VBool true);
                    ("sessionId", VStr (SessionRef.sessionId ref));
                    ("hasIndexedDBSession", VBool false);
                    ("tokenMatch", VBool false);
                    ("notExpired", VBool false) ]
            | Some s =>
                Validation.mk
                  (String.eqb (Session.token s) (SessionRef.token ref)
                   && (now <? Session.expiresAt s))
                  [ ("hasLocalStorageRef", VBool true);
                    ("sessionId", VStr (SessionRef.sessionId ref));
                    ("hasIndexedDBSession", VBool true);
                    ("tokenMatch",
                     VBool (String.eqb (Session.token s)
                              (SessionRef.token ref)));
                    ("notExpired", VBool (now <? Session.expiresAt s));
                    ("hasUser",
                     VBool (bool_decide
                              (is_Some (tbl_get (Session.userId s)
                                          (users (db w)))))) ]
            end
        end, w).
Proof.
  intros Hwin. unfold validateSessionSync. unfold_monad.
  rewrite Hwin. simpl. rewrite Hwin. simpl.
  destruct (getSessionRef w) as [ref|]; [|reflexivity].
  destruct (tbl_get _ (sessions (db w))) as [s|]; reflexivity.
Qed.

End AuthFacts.

(** ** getSession: expiry boundary, diagnosis, self-healing *)

(** C1.  Jane's session expires at time 1000.  Read at time 1000,
    [getSession] returns the session (it is not treated as expired: the row
    and the reference stay), while [validateSessionSync] reports the same
    state as not valid; read at time 999, one millisecond before the expiry,
    [getSession] returns the session. *)
Theorem getSession_expiry_boundary :
  Session.expiresAt jane_session = 1000
  ∧ fst (@getSession demo_platform 1000 signed_in_world)
    = Ok (Some (SessionData.mk (safeUser jane) jane_session))
  ∧ sessions (db (snd (@getSession demo_platform 1000 signed_in_world)))
    = [ jane_session ]
  ∧ @getSessionRef demo_platform
      (snd (@getSession demo_platform 1000 signed_in_world))
    = Some jane_ref
  ∧ (∃ v, fst (@validateSessionSync demo_platform 1000 signed_in_world) = Ok v
          ∧ Validation.valid v = false)
  ∧ fst (@getSession demo_platform 999 signed_in_world)
    = Ok (Some (SessionData.mk (safeUser jane) jane_session)).
Proof.
  repeat split; try (vm_compute; reflexivity).
  eexists. split; vm_compute; reflexivity.
Qed.

(** C3.  When a reference exists and the check [getSession] makes fails (the
    Session row is absent, its token differs from the reference's, its
    [expiresAt] is before now, or its user is absent), [getSession] returns
    [null] and leaves no reference and no cookie, and a second call, at any
    time, returns [null] again and changes nothing.  A Session whose
    [expiresAt] is now itself does not fail that check: read at time 1000,
    Jane's session, which expires at 1000, is returned, and the reference and
    a cookie are there after the call. *)
Theorem getSession_self_heals_before_expiry :
  (∀ `{Platform} now w ref,
      hasWindow w = true →
      hasDocument w = true →
      getSessionRef w = Some ref →
      match tbl_get (SessionRef.sessionId ref) (sessions (db w)) with
      | None => True
      | Some s =>
          Session.token s ≠ SessionRef.token ref
          ∨ Session.expiresAt s < now
          ∨ tbl_get (Session.userId s) (users (db w)) = None
      end →
      ∃ w1,
        getSession now w = (Ok None, w1)
        ∧ getSessionRef w1 = None
        ∧ cookie w1 = None
        ∧ ∀ now', getSession now' w1 = (Ok None, w1))
  ∧ (hasWindow signed_in_world = true
     ∧ hasDocument signed_in_world = true
     ∧ @getSessionRef demo_platform signed_in_world = Some jane_ref
     ∧ tbl_get (SessionRef.sessionId jane_ref) (sessions (db signed_in_world))
       = Some jane_session
     ∧ Session.expiresAt jane_session = 1000
     ∧ fst (@getSession demo_platform 1000 signed_in_world)
       = Ok (Some (SessionData.mk (safeUser jane) jane_session))
     ∧ @getSessionRef demo_platform
         (snd (@getSession demo_platform 1000 signed_in_world))
       = Some jane_ref
     ∧ is_Some (cookie (snd (@getSession demo_platform 1000 signed_in_world)))).
Proof.
  split.
  - intros H now w ref Hwin Hdoc Href Hfails.
    assert (Hhealed : ∀ w0,
               hasWindow w0 = true → hasDocument w0 = true →
               getSessionRef (clearSessionRef w0) = None
               ∧ cookie (clearSessionRef w0) = None
               ∧ ∀ now', getSession now' (clearSessionRef w0)
                         = (Ok None, clearSessionRef w0)).
    { intros w0 Hwin0 Hdoc0.
      pose proof (getSessionRef_clearSessionRef w0 Hwin0) as Hnone.
      repeat split; [exact Hnone | now apply cookie_clearSessionRef |].
      intros now'. rewrite getSession_browser
        by now rewrite hasWindow_clearSessionRef.
      now rewrite Hnone. }
    rewrite (getSession_browser now w Hwin), Href.
    destruct (tbl_get _ (sessions (db w))) as [s|].
    + destruct (String.eqb_spec (Session.token s) (SessionRef.token ref))
        as [Htok|Htok]; simpl.
      * destruct (Z.ltb_spec (Session.expiresAt s) now) as [Hexp|Hexp].
        -- eexists. split; [reflexivity|]. now apply Hhealed.
        -- destruct Hfails as [Hne|[Hlt|Huser]]; [congruence | lia |].
           rewrite Huser. eexists. split; [reflexivity|]. now apply Hhealed.
      * eexists. split; [reflexivity|]. now apply Hhealed.
    + eexists. split; [reflexivity|]. now apply Hhealed.
  - repeat split; try (vm_compute; reflexivity).
    vm_compute. eexists. reflexivity.
Qed.

Lemma getSession_self_heals_before_expiry_witness :
  ∃ w1,
    @getSession demo_platform 500 orphan_world = (Ok None, w1)
    ∧ @getSessionRef demo_platform w1 = None
    ∧ cookie w1 = None
    ∧ ∀ now', @getSession demo_platform now' w1 = (Ok None, w1).
Proof.
  apply (proj1 getSession_self_heals_before_expiry
           demo_platform 500 orphan_world jane_ref).
  - reflexivity.
  - reflexivity.
  - vm_compute. reflexivity.
  - vm_compute. right. right. reflexivity.
Defined.

(** C2, at Jane's orphaned session: [validateSessionSync] answers
    [valid = true] (and [hasUser = false] in the details) where [getSession]
    returns [null]. *)
Lemma validateSessionSync_orphan_valid :
  fst (@validateSessionSync demo_platform 500 orphan_world)
  = Ok (Validation.mk true
          [ ("hasLocalStorageRef", VBool true);
            ("sessionId", VStr "s-1");
            ("hasIndexedDBSession", VBool true);
            ("tokenMatch", VBool true);
            ("notExpired", VBool true);
            ("hasUser", VBool false) ])
  ∧ fst (@getSession demo_platform 500 orphan_world) = Ok None.
Proof. split; vm_compute; reflexivity. Qed.

(** C2, amended.  When the reference slot is empty or holds a reference,
    [validateSessionSync] never throws and leaves the world as it is.
    [valid] is true exactly when the reference exists, the Session row it
    names exists, the tokens are equal and [expiresAt] is after now.  In a
    browser, [details] holds [hasLocalStorageRef] and [sessionId]; with a
    reference also [hasIndexedDBSession], [tokenMatch] and [notExpired]; and
    with a Session row also [hasUser], which tells whether the Session's user
    exists: the user lookup is reported there and does not enter [valid].
    For a Session whose [expiresAt] is not now itself, [getSession] returns
    a session exactly when [valid] is true and the Session's user exists. *)
Theorem validateSessionSync_diagnosis `{Platform} now w :
  session_slot_typed w →
  ∃ v,
    validateSessionSync now w = (Ok v, w)
    ∧ (Validation.valid v = true ↔
       ∃ ref s,
         getSessionRef w = Some ref
         ∧ tbl_get (SessionRef.sessionId ref) (sessions (db w)) = Some s
         ∧ Session.token s = SessionRef.token ref
         ∧ now < Session.expiresAt s)
    ∧ (hasWindow w = true →
       Validation.details v
       = match getSessionRef w with
         | None =>
             [ ("hasLocalStorageRef", VBool false);
               ("sessionId", VUndefined) ]
         | Some ref =>
             ([ ("hasLocalStorageRef", VBool true);
                ("sessionId", VStr (SessionRef.sessionId ref)) ]
              ++
               match tbl_get (SessionRef.sessionId ref) (sessions (db w)) with
               | None =>
                   [ ("hasIndexedDBSession", VBool false);
                     ("tokenMatch", VBool false);
                     ("notExpired", VBool false) ]
               | Some s =>
                   [ ("hasIndexedDBSession", VBool true);
                     ("tokenMatch",
                      VBool (String.eqb (Session.token s)
                               (SessionRef.token ref)));
                     ("notExpired", VBool (now <? Session.expiresAt s));
                     ("hasUser",
                      VBool (bool_decide
                               (is_Some (tbl_get (Session.userId s)
                                           (users (db w)))))) ]
               end)%list
         end)
    ∧ ((∀ ref s,
           getSessionRef w = Some ref →
           tbl_get (SessionRef.sessionId ref) (sessions (db w)) = Some s →
           Session.expiresAt s ≠ now) →
       ((∃ d, fst (getSession now w) = Ok (Some d)) ↔
        Validation.valid v = true
        ∧ ∃ ref s u,
            getSessionRef w = Some ref
            ∧ tbl_get (SessionRef.sessionId ref) (sessions (db w)) = Some s
            ∧ tbl_get (Session.userId s) (users (db w)) = Some u)).
Proof.
  intros _.
  destruct (hasWindow w) eqn:Hwin.
  - rewrite (validateSessionSync_browser now w Hwin).
    eexists. split; [reflexivity|].
    rewrite (getSession_browser now w Hwin).
    destruct (getSessionRef w) as [ref|]; simpl.
    2:{ split; [|split; [reflexivity | intros _]].
        - split; [discriminate | intros (? & ? & [=] & _)].
        - split; [intros [d [=]] | intros [[=] _]]. }
    destruct (tbl_get _ (sessions (db w))) as [s|] eqn:Hs; simpl.
    2:{ split; [|split; [reflexivity | intros _]].
        - split; [discriminate|].
          intros (ref' & s' & [= <-] & Hs' & _). congruence.
        - split; [intros [d [=]] | intros [[=] _]]. }
    split; [|split; [reflexivity |
                     intros Hnot; specialize (Hnot ref s eq_refl Hs)]].
    + rewrite andb_true_iff, String.eqb_eq, Z.ltb_lt. split.
      * intros [Htok Hexp]. now exists ref, s.
      * intros (ref' & s' & [= <-] & Hs' & Htok & Hexp).
        rewrite Hs in Hs'. injection Hs' as <-. now split.
    + destruct (String.eqb_spec (Session.token s) (SessionRef.token ref))
        as [Htok|Htok]; simpl.
      2:{ split; [intros [d [=]] | intros [[=] _]]. }
      destruct (Z.ltb_spec (Session.expiresAt s) now) as [Hexp|Hexp];
        destruct (Z.ltb_spec now (Session.expiresAt s)) as [Hfut|Hfut];
        try lia; simpl.
      * split; [intros [d [=]] | intros [[=] _]].
      * destruct (tbl_get _ (users (db w))) as [u|] eqn:Hu; simpl.
        -- split; [intros _ | intros _; eexists; reflexivity].
           split; [reflexivity | now exists ref, s, u].
        -- split; [intros [d [=]] |].
           intros [_ (ref' & s' & u' & [= <-] & Hs' & Hu')].
           rewrite Hs in Hs'. injection Hs' as <-. congruence.
  - rewrite (validateSessionSync_server now w Hwin).
    eexists. split; [reflexivity|]. simpl.
    rewrite (getSession_server now w Hwin). simpl.
    assert (Href : getSessionRef w = None).
    { unfold getSessionRef, loadFromLocalStorage. now rewrite Hwin. }
    rewrite Href. split; [|split; [discriminate | intros _]].
    + split; [discriminate | intros (? & ? & [=] & _)].
    + split; [intros [d [=]] | intros [[=] _]].
Qed.

Lemma validateSessionSync_diagnosis_witness :
  session_slot_typed orphan_world
  ∧ ∃ v,
      @validateSessionSync demo_platform 500 orphan_world
      = (Ok v, orphan_world)
      ∧ Validation.valid v = true
      ∧ Validation.details v
        = [ ("hasLocalStorageRef", VBool true);
            ("sessionId", VStr "s-1");
            ("hasIndexedDBSession", VBool true);
            ("tokenMatch", VBool true);
            ("notExpired", VBool true);
            ("hasUser", VBool false) ].
Proof.
  assert (Htyped : session_slot_typed orphan_world).
  { exists jane_ref. reflexivity. }
  split; [exact Htyped|].
  destruct (@validateSessionSync_diagnosis demo_platform 500 orphan_world
              Htyped) as (v & Hrun & Hvalid & Hdetails & _).
  exists v. split; [exact Hrun|]. split.
  - apply Hvalid. exists jane_ref, jane_session.
    repeat split; vm_compute; reflexivity.
  - rewrite (Hdetails eq_refl). vm_compute. reflexivity.
Defined.

(** ** Outside a browser *)

(** C9.  Without a [window], the reading operations return [null], an empty
    list or a record marked invalid, and do not throw; [signUpEmail],
    [signInEmail] and [createOrganization] throw; the remaining operations
    return at once; and every one of them leaves the world, the database
    included, as it was. *)
Theorem auth_outside_browser `{Platform} w :
  hasWindow w = false →
  (∀ now, getSession now w = (Ok None, w))
  ∧ (∀ userId, getOrganizations userId w = (Ok [], w))
  ∧ getActiveOrganization w = (Ok None, w)
  ∧ listAllUsers w = (Ok [], w)
  ∧ (∀ now,
        validateSessionSync now w
        = (Ok (Validation.mk false [ ("error", VStr "Not in browser") ]), w))
  ∧ (∀ now rnd data,
        signUpEmail now rnd data w
        = (Throw "Auth operations require browser", w))
  ∧ (∀ now rnd data,
        signInEmail now rnd data w
        = (Throw "Auth operations require browser", w))
  ∧ (∀ now rnd data userId,
        createOrganization now rnd data userId w
        = (Throw "Auth operations require browser", w))
  ∧ signOut w = (Ok tt, w)
  ∧ (∀ now orgId, setActiveOrganization now orgId w = (Ok tt, w))
  ∧ (∀ email, deleteUserByEmail email w = (Ok tt, w))
  ∧ clearAllSessions w = (Ok tt, w)
  ∧ clearAllAuthData w = (Ok tt, w).
Proof.
  intros Hwin.
  repeat split; intros;
    unfold getSession, getOrganizations, getActiveOrganization, listAllUsers,
      validateSessionSync, signUpEmail, signInEmail, createOrganization,
      signOut, setActiveOrganization, deleteUserByEmail, clearAllSessions,
      clearAllAuthData;
    unfold_monad; now rewrite Hwin.
Qed.

Lemma auth_outside_browser_witness :
  hasWindow server_world = false
  ∧ @getSession demo_platform 0 server_world = (Ok None, server_world)
  ∧ @signUpEmail demo_platform 0 (mkSignUpDraws "u" [ 1; 2 ] "s")
      (SignUpData.mk "Jane@Example.com" "hunter22" "Jane Doe") server_world
    = (Throw "Auth operations require browser", server_world).
Proof.
  pose proof (@auth_outside_browser demo_platform server_world eq_refl)
    as (Hget & _ & _ & _ & _ & Hup & _).
  split; [reflexivity|]. split; [apply Hget | apply Hup].
Defined.

(** ** Deleting a user *)

(** C7.  In a browser, [deleteUserByEmail] with an email that matches a User
    (the first row whose stored email is the lower-cased argument) removes
    that row, the Session rows and the Member rows carrying the user's id,
    and nothing else: the other rows of these three tables, the
    organisations, the application tables, localStorage and the cookie stay
    as they were.  With no matching User the world is unchanged. *)
Theorem deleteUserByEmail_cascade `{Platform} email w :
  hasWindow w = true →
  match where_equals_first User.email (toLowerCase email) (users (db w)) with
  | None => deleteUserByEmail email w = (Ok tt, w)
  | Some u =>
      ∃ w',
        deleteUserByEmail email w = (Ok tt, w')
        ∧ users (db w')
          = filter (fun r => User.id r ≠ User.id u) (users (db w))
        ∧ sessions (db w')
          = filter (fun s => Session.userId s ≠ User.id u) (sessions (db w))
        ∧ members (db w')
          = filter (fun m => Member.userId m ≠ User.id u) (members (db w))
        ∧ organizations (db w') = organizations (db w)
        ∧ clients (db w') = clients (db w)
        ∧ matters (db w') = matters (db w)
        ∧ transactions (db w') = transactions (db w)
        ∧ holds (db w') = holds (db w)
        ∧ auditLogs (db w') = auditLogs (db w)
        ∧ reportHistory (db w') = reportHistory (db w)
        ∧ trustAccountSettings (db w') = trustAccountSettings (db w)
        ∧ localStorage w' = localStorage w
        ∧ cookie w' = cookie w
  end.
Proof.
  intros Hwin. unfold deleteUserByEmail, users_delete. unfold_monad.
  rewrite Hwin. simpl. rewrite Hwin. simpl.
  destruct (where_equals_first _ _ _) as [u|]; [|reflexivity].
  eexists. split; [reflexivity|]. simpl.
  unfold tbl_delete, where_equals_delete.
  rewrite (List_filter_negb_eqb (R := User.t) User.id).
  rewrite (List_filter_negb_eqb (R := Session.t) Session.userId).
  rewrite (List_filter_negb_eqb (R := Member.t) Member.userId).
  repeat split.
Qed.

(** ** Sign-up and sign-in *)

Section SignFacts.
Context `{Platform}.

(** [signUpEmail] in a browser, step by step. *)
Lemma signUpEmail_browser now rnd data w :
  hasWindow w = true →
  signUpEmail now rnd data w
  = match where_equals_first User.email
            (toLowerCase (SignUpData.email data)) (users (db w)) with
    | Some _ => (Throw "Email already registered", w)
    | None =>
        match hashPassword (SignUpData.password data) w with
        | (Throw e, _) => (Throw e, w)
        | (Ok passwordHash, _) =>
            let user :=
              User.mk (drawn_user_id rnd)
                (toLowerCase (SignUpData.email data)) (SignUpData.name data)
                (Some passwordHash) now now in
            let session :=
              Session.mk (drawn_session_id rnd) (drawn_user_id rnd)
                (generateToken (drawn_token_bytes rnd)) (now + SEVEN_DAYS)
                now in
            match tbl_add user (users (db w)) with
            | None => (Throw "ConstraintError", w)
            | Some us =>
                let w1 := with_db (with_users us (db w)) w in
                match tbl_add session (sessions (db w)) with
                | None => (Throw "ConstraintError", w1)
                | Some ss =>
                    (Ok (SignUpResult.mk user session),
                     setSessionRef now
                       (SessionRef.mk (drawn_session_id rnd)
                          (generateToken (drawn_token_bytes rnd)) None)
                       (with_db (with_sessions ss (db w1)) w1))
                end
            end
        end
    end.
Proof.
  intros Hwin. unfold signUpEmail, users_add, sessions_add, hashPassword.
  unfold_monad. rewrite Hwin. simpl. rewrite Hwin. simpl.
  destruct (where_equals_first _ _ _); [reflexivity|].
  destruct (hasSubtle w); simpl; [|reflexivity].
  destruct (tbl_add _ (users (db w))); simpl; [|reflexivity].
  now destruct (tbl_add _ (sessions (db w))).
Qed.

(** [signInEmail] in a browser, step by step. *)
Lemma signInEmail_browser now rnd data w :
  hasWindow w = true →
  signInEmail now rnd data w
  = match where_equals_first User.email
            (toLowerCase (SignInData.email data)) (users (db w)) with
    | None => (Throw "Invalid email or password", w)
    | Some user =>
        match hashPassword (SignInData.password data) w with
        | (Throw e, _) => (Throw e, w)
        | (Ok passwordHash, _) =>
            if negb (bool_decide (Some passwordHash = User.passwordHash user))
            then (Throw "Invalid email or password", w)
            else
              let session :=
                Session.mk (signin_session_id rnd) (User.id user)
                  (generateToken (signin_token_bytes rnd))
                  (now + SEVEN_DAYS) now in
              match tbl_add session (sessions (db w)) with
              | None => (Throw "ConstraintError", w)
              | Some ss =>
                  (Ok (SignUpResult.mk user session),
                   setSessionRef now
                     (SessionRef.mk (signin_session_id rnd)
                        (generateToken (signin_token_bytes rnd)) None)
                     (with_db (with_sessions ss (db w)) w))
              end
        end
    end.
Proof.
  intros Hwin. unfold signInEmail, sessions_add, hashPassword.
  unfold_monad. rewrite Hwin. simpl. rewrite Hwin. simpl.
  destruct (where_equals_first _ _ _) as [user|]; [|reflexivity].
  destruct (hasSubtle w); simpl; [|reflexivity].
  destruct (negb _); [reflexivity|].
  now destruct (tbl_add _ (sessions (db w))).
Qed.

Lemma signUpEmail_needs_browser now rnd data w r w1 :
  signUpEmail now rnd data w = (Ok r, w1) → hasWindow w = true.
Proof.
  destruct (hasWindow w) eqn:Hwin; [reflexivity|].
  unfold signUpEmail. unfold_monad. rewrite Hwin. discriminate.
Qed.

Lemma signInEmail_needs_browser now rnd data w r w1 :
  signInEmail now rnd data w = (Ok r, w1) → hasWindow w = true.
Proof.
  destruct (hasWindow w) eqn:Hwin; [reflexivity|].
  unfold signInEmail. unfold_monad. rewrite Hwin. discriminate.
Qed.

(** What a successful sign-up did. *)
Lemma signUpEmail_Ok now rnd data w r w1 :
  signUpEmail now rnd data w = (Ok r, w1) →
  hasWindow w1 = true
  ∧ where_equals_first User.email (toLowerCase (SignUpData.email data))
      (users (db w)) = None
  ∧ users (db w1) = tbl_insert (SignUpResult.user r) (users (db w))
  ∧ User.email (SignUpResult.user r) = toLowerCase (SignUpData.email data)
  ∧ User.passwordHash (SignUpResult.user r)
    = Some (digest_hex (SignUpData.password data)).
Proof.
  intros Hrun.
  pose proof (signUpEmail_needs_browser _ _ _ _ _ _ Hrun) as Hwin.
  rewrite (signUpEmail_browser _ _ _ _ Hwin) in Hrun.
  destruct (where_equals_first _ _ (users (db w))) eqn:Hfree; [discriminate|].
  unfold hashPassword in Hrun.
  destruct (hasSubtle w); simpl in Hrun; [|discriminate].
  destruct (tbl_add _ (users (db w))) as [us|] eqn:Hus; [|discriminate].
  destruct (tbl_add _ (sessions (db w))) as [ss|]; [|discriminate].
  injection Hrun as <- <-.
  apply tbl_add_Some in Hus as [_ ->].
  rewrite hasWindow_setSessionRef, db_setSessionRef. simpl.
  repeat split. exact Hwin.
Qed.

End SignFacts.

Lemma deleteUserByEmail_cascade_witness :
  hasWindow firm_world = true
  ∧ ∃ w',
      @deleteUserByEmail demo_platform "JANE@example.com" firm_world = (Ok tt, w')
      ∧ users (db w') = [ omar ]
      ∧ sessions (db w') = [ omar_session ]
      ∧ members (db w') = [ Member.mk "m-2" "u-2" "o-1" member 61 ]
      ∧ organizations (db w') = [ firm ].
Proof.
  split; [reflexivity|].
  pose proof (@deleteUserByEmail_cascade demo_platform "JANE@example.com"
                firm_world eq_refl) as Hcascade.
  change (where_equals_first User.email
            (@toLowerCase demo_platform "JANE@example.com")
            (users (db firm_world))) with (Some jane) in Hcascade.
  destruct Hcascade as (w' & Hrun & Hu & Hs & Hm & Ho & _).
  exists w'. split; [exact Hrun|].
  rewrite Hu, Hs, Hm, Ho. repeat split.
Defined.

(** C5.  After a successful sign-up, a sign-up whose email has the same
    lower-casing fails with the duplicate-email error and leaves the world as
    the first call left it: no User row and no Session row is added, and the
    Users table holds exactly one row with that email, the one the first call
    created. *)
Theorem signUp_duplicate_email `{Platform}
    now1 rnd1 data1 now2 rnd2 data2 w result1 w1 :
  toLowerCase (SignUpData.email data1) = toLowerCase (SignUpData.email data2) →
  signUpEmail now1 rnd1 data1 w = (Ok result1, w1) →
  signUpEmail now2 rnd2 data2 w1 = (Throw "Email already registered", w1)
  ∧ where_equals User.email (toLowerCase (SignUpData.email data1))
      (users (db w1))
    = [ SignUpResult.user result1 ].
Proof.
  intros Hsame Hfirst.
  apply signUpEmail_Ok in Hfirst as (Hwin & Hfree & Husers & Hemail & _).
  assert (Hrows :
    where_equals User.email (toLowerCase (SignUpData.email data1))
      (users (db w1)) = [ SignUpResult.user result1 ]).
  { rewrite Husers. unfold where_equals. apply filter_insert_first.
    - now apply where_equals_first_None in Hfree.
    - rewrite Hemail. apply String.eqb_refl. }
  split; [|exact Hrows].
  rewrite (signUpEmail_browser _ _ _ _ Hwin).
  unfold where_equals_first. now rewrite <- Hsame, Hrows.
Qed.

Lemma jane_signup_run :
  @signUpEmail demo_platform 100 jane_draws jane_signup browser_world
  = (Ok jane_signup_result, after_jane_signup).
Proof. vm_compute. reflexivity. Qed.

Lemma signUp_duplicate_email_witness :
  @signUpEmail demo_platform 250 (mkSignUpDraws "u-10" [ 7 ] "s-10")
    (SignUpData.mk "JANE@EXAMPLE.COM" "secret" "Jane D.") after_jane_signup
  = (Throw "Email already registered", after_jane_signup)
  ∧ users (db after_jane_signup) = [ SignUpResult.user jane_signup_result ].
Proof.
  destruct (@signUp_duplicate_email demo_platform
              100 jane_draws jane_signup
              250 (mkSignUpDraws "u-10" [ 7 ] "s-10")
              (SignUpData.mk "JANE@EXAMPLE.COM" "secret" "Jane D.")
              browser_world jane_signup_result after_jane_signup
              eq_refl jane_signup_run) as [Hthrow _].
  split; [exact Hthrow | vm_compute; reflexivity].
Defined.

(** C6.  In a browser, a sign-in whose lower-cased email matches no User, or
    whose password digest differs from the matched User's [passwordHash],
    throws "Invalid email or password" and leaves the world as it was: no
    Session row is added, and the other tables, the reference and the cookie
    are untouched. *)
Theorem signIn_invalid_credentials `{Platform} now rnd data w :
  hasWindow w = true →
  match where_equals_first User.email
          (toLowerCase (SignInData.email data)) (users (db w)) with
  | None => True
  | Some user =>
      hasSubtle w = true
      ∧ User.passwordHash user
        ≠ Some (digest_hex (SignInData.password data))
  end →
  signInEmail now rnd data w = (Throw "Invalid email or password", w).
Proof.
  intros Hwin Hbad. rewrite (signInEmail_browser _ _ _ _ Hwin).
  destruct (where_equals_first _ _ _) as [user|]; [|reflexivity].
  destruct Hbad as [Hsubtle Hdiff]. unfold hashPassword. rewrite Hsubtle. simpl.
  rewrite bool_decide_eq_false_2 by congruence. reflexivity.
Qed.

Lemma signIn_invalid_credentials_witness :
  @signInEmail demo_platform 10 (mkSignInDraws [ 1 ] "s-3")
    (SignInData.mk "nobody@example.com" "x") browser_world
  = (Throw "Invalid email or password", browser_world)
  ∧ @signInEmail demo_platform 10 (mkSignInDraws [ 1 ] "s-3")
      (SignInData.mk "Jane@Example.com" "wrong") signed_in_world
    = (Throw "Invalid email or password", signed_in_world).
Proof.
  split.
  - apply (@signIn_invalid_credentials demo_platform); [reflexivity|].
    vm_compute. exact I.
  - apply (@signIn_invalid_credentials demo_platform); [reflexivity|].
    vm_compute. split; [reflexivity | discriminate].
Defined.

(** C4.  In a browser with working crypto and room in localStorage, on a
    store without the lower-cased email and with fresh ids drawn, [signUpEmail]
    succeeds; the Session it creates expires seven days after the creation
    time; right after it the reference (the session's id and token) and the
    cookie are in place; and [getSession], called before the expiry, returns
    that Session and the new user, with the lower-cased email and without
    [passwordHash]. *)
Theorem signUp_then_getSession `{Platform} now now' rnd data w :
  hasWindow w = true →
  hasDocument w = true →
  hasSubtle w = true →
  quotaExceeded w = false →
  where_equals_first User.email (toLowerCase (SignUpData.email data))
    (users (db w)) = None →
  tbl_get (drawn_user_id rnd) (users (db w)) = None →
  tbl_get (drawn_session_id rnd) (sessions (db w)) = None →
  now' < now + 7 * 24 * 60 * 60 * 1000 →
  ∃ r w1 d w2,
    signUpEmail now rnd data w = (Ok r, w1)
    ∧ Session.expiresAt (SignUpResult.session r)
      = now + 7 * 24 * 60 * 60 * 1000
    ∧ Session.createdAt (SignUpResult.session r) = now
    ∧ getSessionRef w1
      = Some (SessionRef.mk (Session.id (SignUpResult.session r))
                (Session.token (SignUpResult.session r)) None)
    ∧ cookie w1
      = Some (mkCookie (Session.token (SignUpResult.session r))
                (whole_seconds (now + 7 * 24 * 60 * 60 * 1000)))
    ∧ getSession now' w1 = (Ok (Some d), w2)
    ∧ SessionData.session d = SignUpResult.session r
    ∧ SessionData.user d = safeUser (SignUpResult.user r)
    ∧ User.email (SessionData.user d) = toLowerCase (SignUpData.email data)
    ∧ User.passwordHash (SessionData.user d) = None.
Proof.
  intros Hwin Hdoc Hsubtle Hquota Hfree Huid Hsid Hsoon.
  rewrite (signUpEmail_browser _ _ _ _ Hwin), Hfree.
  unfold hashPassword. rewrite Hsubtle. cbn [negb].
  lazy zeta.
  set (user := User.mk _ _ _ _ _ _).
  set (session := Session.mk _ _ _ _ _).
  rewrite (tbl_add_fresh user _ Huid), (tbl_add_fresh session _ Hsid).
  set (w0 := with_db _ (with_db _ w)).
  assert (Hwin0 : hasWindow w0 = true) by exact Hwin.
  assert (Hdoc0 : hasDocument w0 = true) by exact Hdoc.
  assert (Hquota0 : quotaExceeded w0 = false) by exact Hquota.
  set (ref := SessionRef.mk _ _ _).
  pose proof (getSessionRef_setSessionRef now ref w0 Hwin0 Hquota0) as Href.
  assert (Hwin1 : hasWindow (setSessionRef now ref w0) = true)
    by now rewrite hasWindow_setSessionRef.
  do 4 eexists. split; [reflexivity|].
  split; [reflexivity|]. split; [reflexivity|].
  split; [exact Href|].
  split; [now apply cookie_setSessionRef|].
  assert (Hs : tbl_get (SessionRef.sessionId ref)
                 (sessions (db (setSessionRef now ref w0))) = Some session).
  { rewrite db_setSessionRef.
    exact (tbl_get_insert_eq session (sessions (db w)) Hsid). }
  assert (Hu : tbl_get (Session.userId session)
                 (users (db (setSessionRef now ref w0))) = Some user).
  { rewrite db_setSessionRef.
    exact (tbl_get_insert_eq user (users (db w)) Huid). }
  rewrite (getSession_valid now' _ ref session user Hwin1 Href Hs eq_refl);
    [| unfold session, SEVEN_DAYS; simpl; lia | exact Hu].
  repeat split.
Qed.

Lemma signUp_then_getSession_witness :
  ∃ d w2,
    @getSession demo_platform 101 after_jane_signup = (Ok (Some d), w2)
    ∧ User.email (SessionData.user d) = "jane@example.com"
    ∧ User.passwordHash (SessionData.user d) = None
    ∧ Session.expiresAt (SessionData.session d) = 100 + 604800000.
Proof.
  destruct (@signUp_then_getSession demo_platform 100 101 jane_draws
              jane_signup browser_world)
    as (r & w1 & d & w2 & Hup & Hexp & _ & _ & _ & Hget & Hsess & _ & Hemail
        & Hhash); try reflexivity.
  rewrite jane_signup_run in Hup. injection Hup as <- <-.
  exists d, w2. rewrite Hsess.
  repeat split; assumption.
Defined.

(** ** What sign-up and sign-in return *)

Lemma getSession_strips_passwordHash `{Platform} now w d w' :
  getSession now w = (Ok (Some d), w') →
  User.passwordHash (SessionData.user d) = None.
Proof.
  intros Hrun. destruct (hasWindow w) eqn:Hwin.
  - rewrite (getSession_browser _ _ Hwin) in Hrun.
    destruct (getSessionRef w); [|discriminate].
    destruct (tbl_get _ (sessions (db w))); [|discriminate].
    destruct (negb _); [discriminate|].
    destruct (_ <? now); [discriminate|].
    destruct (tbl_get _ (users (db w))); [|discriminate].
    now injection Hrun as <- _.
  - rewrite (getSession_server _ _ Hwin) in Hrun. discriminate.
Qed.

(** C10.  The user in the result of a successful [signUpEmail] carries the
    digest of the password as [passwordHash]; the user in the result of a
    successful [signInEmail] is a stored row, returned as stored, whose
    [passwordHash] is the digest of the password given; and the provider's
    [signUp.email] and [signIn.email] put exactly this user, hash included,
    in the session cell. *)
Theorem sign_results_keep_passwordHash `{Platform} :
  (∀ now rnd data w r w1,
      signUpEmail now rnd data w = (Ok r, w1) →
      User.passwordHash (SignUpResult.user r)
      = Some (digest_hex (SignUpData.password data))
      ∧ ∀ c,
          AuthContext.session
            (snd (fst (AuthContext.signUpWithEmail now rnd data c w)))
          = Some (SessionData.mk (SignUpResult.user r)
                    (SignUpResult.session r)))
  ∧ (∀ now rnd data w r w1,
        signInEmail now rnd data w = (Ok r, w1) →
        SignUpResult.user r ∈ users (db w)
        ∧ User.passwordHash (SignUpResult.user r)
          = Some (digest_hex (SignInData.password data))
        ∧ ∀ c,
            AuthContext.session
              (snd (fst (AuthContext.signInWithEmail now rnd data c w)))
            = Some (SessionData.mk (SignUpResult.user r)
                      (SignUpResult.session r))).
Proof.
  split.
  - intros now rnd data w r w1 Hrun. split.
    + now apply signUpEmail_Ok in Hrun as (_ & _ & _ & _ & Hhash).
    + intros c. unfold AuthContext.signUpWithEmail. now rewrite Hrun.
  - intros now rnd data w r w1 Hrun.
    assert (Hcell : ∀ c,
               AuthContext.session
                 (snd (fst (AuthContext.signInWithEmail now rnd data c w)))
               = Some (SessionData.mk (SignUpResult.user r)
                         (SignUpResult.session r))).
    { intros c. unfold AuthContext.signInWithEmail. rewrite Hrun.
      destruct (getOrganizations _ w1) as [[orgs|e] w2]; [|reflexivity].
      now destruct (getActiveOrganization w2) as [[org|e] w3]. }
    pose proof (signInEmail_needs_browser _ _ _ _ _ _ Hrun) as Hwin.
    rewrite (signInEmail_browser _ _ _ _ Hwin) in Hrun.
    destruct (where_equals_first _ _ _) as [user|] eqn:Hfound; [|discriminate].
    unfold hashPassword in Hrun.
    destruct (hasSubtle w); simpl in Hrun; [|discriminate].
    destruct (bool_decide _) eqn:Hsame; simpl in Hrun; [|discriminate].
    destruct (tbl_add _ (sessions (db w))); [|discriminate].
    injection Hrun as <- <-. simpl.
    apply bool_decide_eq_true_1 in Hsame.
    apply where_equals_first_Some in Hfound as [Hin _].
    repeat split; [exact Hin | now symmetry | exact Hcell].
Qed.

Lemma sign_results_keep_passwordHash_witness :
  User.passwordHash (SignUpResult.user jane_signup_result)
  = Some (@digest_hex demo_platform "hunter22")
  ∧ AuthContext.session
      (snd (fst (@AuthContext.signUpWithEmail demo_platform 100 jane_draws
                   jane_signup initial_context browser_world)))
    = Some (SessionData.mk (SignUpResult.user jane_signup_result)
              (SignUpResult.session jane_signup_result)).
Proof.
  destruct (proj1 (@sign_results_keep_passwordHash demo_platform)
              100 jane_draws jane_signup browser_world
              jane_signup_result after_jane_signup jane_signup_run)
    as [Hhash Hcell].
  split; [exact Hhash | apply Hcell].
Defined.

(** ** Worked examples *)

(** A date that is the stored value itself comes back as its ISO string. *)
Example top_level_date_not_revived :
  @loadFromLocalStorage demo_platform "k" None
    (snd (@saveToLocalStorage demo_platform "k" (VDate 5) browser_world))
  = VStr "5".
Proof. vm_compute. reflexivity. Qed.

(** A full store: the save reports failure and the key stays absent. *)
Example save_over_quota :
  let full := mkWorld true true true false true ∅ None empty_database in
  @saveToLocalStorage demo_platform "k" (VNum 1) full = (false, full)
  ∧ @loadFromLocalStorage demo_platform "k" None full = VNull.
Proof. split; vm_compute; reflexivity. Qed.

(** The sign-up of the specification's scenario. *)
Example signUp_scenario :
  fst (@signUpEmail demo_platform 100 jane_draws jane_signup browser_world)
  = Ok jane_signup_result
  ∧ @getSessionRef demo_platform after_jane_signup
    = Some (SessionRef.mk "s-9" "ab05ff" None)
  ∧ cookie after_jane_signup = Some (mkCookie "ab05ff" 604800000).
Proof. repeat split; vm_compute; reflexivity. Qed.

(** An expired session is removed together with the reference and the
    cookie. *)
Example getSession_expired :
  let after := snd (@getSession demo_platform 1001 signed_in_world) in
  fst (@getSession demo_platform 1001 signed_in_world) = Ok None
  ∧ sessions (db after) = []
  ∧ @getSessionRef demo_platform after = None
  ∧ cookie after = None.
Proof. repeat split; vm_compute; reflexivity. Qed.

(** * Further properties *)

(** ** Tokens *)

Lemma hex_string_cons b bytes :
  hex_string (b :: bytes)
  = String (hex_digit (b / 16))
      (String (hex_digit (b mod 16)) (hex_string bytes)).
Proof. unfold hex_string. now destruct bytes. Qed.

Lemma hex_digit_is_hex d : 0 ≤ d < 16 → is_hex_digit (hex_digit d) = true.
Proof.
  intros Hd. unfold hex_digit.
  assert (Hn : (Z.to_nat d < 16)%nat) by lia.
  remember (Z.to_nat d) as n eqn:Heqn. clear Heqn Hd.
  do 16 (destruct n as [|n]; [reflexivity|]). lia.
Qed.

Lemma hex_digit_inj d d' :
  0 ≤ d < 16 → 0 ≤ d' < 16 → hex_digit d = hex_digit d' → d = d'.
Proof.
  intros Hd Hd' Heq. unfold hex_digit in Heq.
  assert (Hn : (Z.to_nat d < 16)%nat) by lia.
  assert (Hn' : (Z.to_nat d' < 16)%nat) by lia.
  assert (Hnat : Z.to_nat d = Z.to_nat d'); [|lia].
  remember (Z.to_nat d) as n eqn:Heqn.
  remember (Z.to_nat d') as n' eqn:Heqn'. clear Heqn Heqn' Hd Hd'.
  do 16 (destruct n as [|n];
         [do 16 (destruct n' as [|n']; [first [reflexivity|discriminate]|]);
          lia|]).
  lia.
Qed.

Lemma hex_byte_inj b b' :
  is_byte b → is_byte b' → hex_byte b = hex_byte b' → b = b'.
Proof.
  unfold is_byte, hex_byte. intros Hb Hb' [= Hhi Hlo].
  apply hex_digit_inj in Hhi; [|Z.div_mod_to_equations; lia ..].
  apply hex_digit_inj in Hlo; [|Z.div_mod_to_equations; lia ..].
  Z.div_mod_to_equations. lia.
Qed.

(** X1.  The token made from [n] random bytes has [2 n] characters, all of
    them lower-case hexadecimal digits: 64 for the 32 bytes drawn. *)
Theorem generateToken_format bytes :
  Forall is_byte bytes →
  String.length (generateToken bytes) = (2 * length bytes)%nat
  ∧ all_chars is_hex_digit (generateToken bytes) = true.
Proof.
  unfold generateToken.
  induction 1 as [|b bytes Hb _ [IHlen IHhex]]; [now split|].
  rewrite hex_string_cons. simpl String.length. simpl all_chars.
  unfold is_byte in Hb. split.
  - rewrite IHlen. simpl. lia.
  - rewrite !hex_digit_is_hex, IHhex by (Z.div_mod_to_equations; lia).
    reflexivity.
Qed.

Lemma generateToken_format_witness :
  String.length (generateToken [ 171; 5; 255; 0 ]) = 8%nat
  ∧ all_chars is_hex_digit (generateToken [ 171; 5; 255; 0 ]) = true.
Proof.
  apply (generateToken_format [ 171; 5; 255; 0 ]).
  repeat constructor; unfold is_byte; lia.
Defined.

(** X2.  Different byte strings give different tokens. *)
Theorem generateToken_injective bytes bytes' :
  Forall is_byte bytes → Forall is_byte bytes' →
  generateToken bytes = generateToken bytes' → bytes = bytes'.
Proof.
  unfold generateToken. intros Hbytes. revert bytes'.
  induction Hbytes as [|b bytes Hb _ IH]; intros bytes' Hbytes' Heq.
  - destruct bytes' as [|b' bytes']; [reflexivity|].
    rewrite hex_string_cons in Heq. discriminate.
  - destruct Hbytes' as [|b' bytes' Hb' Hbytes'].
    + rewrite hex_string_cons in Heq. discriminate.
    + rewrite !hex_string_cons in Heq. injection Heq as Hhi Hlo Hrest.
      f_equal.
      * apply hex_byte_inj; [assumption ..|]. unfold hex_byte. congruence.
      * now apply IH.
Qed.

Lemma generateToken_injective_witness :
  Forall is_byte [ 1; 2 ]
  ∧ generateToken [ 1; 2 ] = generateToken [ 1; 2 ]
  ∧ [ 1; 2 ] = [ 1; 2 ].
Proof.
  assert (Hbytes : Forall is_byte [ 1; 2 ])
    by (repeat constructor; unfold is_byte; lia).
  split; [exact Hbytes|]. split; [reflexivity|].
  exact (generateToken_injective [ 1; 2 ] [ 1; 2 ] Hbytes Hbytes eq_refl).
Defined.

(** ** localStorage: other keys, removal, [undefined] *)

Section LocalStorageFrame.
Context `{Platform}.

(** [loadFromLocalStorage] reads one slot. *)
Lemma loadFromLocalStorage_slot key options w w' :
  hasWindow w' = hasWindow w →
  localStorage w' !! key = localStorage w !! key →
  loadFromLocalStorage key options w' = loadFromLocalStorage key options w.
Proof.
  intros Hwin Hslot. unfold loadFromLocalStorage, getItem.
  now rewrite Hwin, Hslot.
Qed.

End LocalStorageFrame.

(** X3.  [saveToLocalStorage] under one key, successful or not, never
    changes what [loadFromLocalStorage] returns for another key. *)
Theorem saveToLocalStorage_other_key `{Platform} key key' data options w :
  key ≠ key' →
  loadFromLocalStorage key' options (snd (saveToLocalStorage key data w))
  = loadFromLocalStorage key' options w.
Proof.
  intros Hne. apply loadFromLocalStorage_slot;
    unfold saveToLocalStorage, setItem;
    destruct (hasWindow w) eqn:Hwin; simpl; try reflexivity;
    destruct (quotaExceeded w); simpl; try reflexivity;
    destruct (DEBUG w); try destruct (JSON_stringify _); simpl;
    first [exact Hwin | reflexivity | now apply lookup_insert_ne].
Qed.

Lemma saveToLocalStorage_other_key_witness :
  @loadFromLocalStorage demo_platform STORAGE_KEYS.SESSION None
    (snd (@saveToLocalStorage demo_platform "iolta:activeMatter" sample_matter
            signed_in_world))
  = @loadFromLocalStorage demo_platform STORAGE_KEYS.SESSION None
      signed_in_world.
Proof.
  apply (@saveToLocalStorage_other_key demo_platform). discriminate.
Defined.

(** X4.  In a browser [removeFromLocalStorage] reports success, the key then
    loads as [null], whatever was stored, and the other keys load as
    before. *)
Theorem removeFromLocalStorage_then_load `{Platform} key options w :
  hasWindow w = true →
  fst (removeFromLocalStorage key w) = true
  ∧ loadFromLocalStorage key options (snd (removeFromLocalStorage key w))
    = VNull
  ∧ ∀ key',
      key ≠ key' →
      loadFromLocalStorage key' options (snd (removeFromLocalStorage key w))
      = loadFromLocalStorage key' options w.
Proof.
  intros Hwin. unfold removeFromLocalStorage. rewrite Hwin. simpl.
  split; [reflexivity|]. split.
  - apply loadFromLocalStorage_absent. unfold getItem, removeItem. simpl.
    apply lookup_delete_eq.
  - intros key' Hne. apply loadFromLocalStorage_slot; [exact eq_refl|].
    unfold removeItem. simpl. now apply lookup_delete_ne.
Qed.

Lemma removeFromLocalStorage_then_load_witness :
  @loadFromLocalStorage demo_platform STORAGE_KEYS.SESSION None
    (snd (removeFromLocalStorage STORAGE_KEYS.SESSION signed_in_world))
  = VNull.
Proof.
  apply (@removeFromLocalStorage_then_load demo_platform
           STORAGE_KEYS.SESSION None signed_in_world eq_refl).
Defined.

(** X5.  Saving [undefined] in a browser with room in the store writes the
    string "undefined": the value stored before under the key is lost, the
    key then loads as [null], and the call reports success exactly when
    debug logging is off. *)
Theorem saveToLocalStorage_undefined `{Platform} key options w :
  hasWindow w = true →
  quotaExceeded w = false →
  fst (saveToLocalStorage key VUndefined w) = negb (DEBUG w)
  ∧ getItem key (snd (saveToLocalStorage key VUndefined w))
    = Some (PlainText "undefined")
  ∧ loadFromLocalStorage key options (snd (saveToLocalStorage key VUndefined w))
    = VNull.
Proof.
  intros Hwin Hquota. unfold saveToLocalStorage, setItem.
  rewrite Hwin, Hquota. simpl.
  assert (Hslot : ∀ w',
             hasWindow w' = true →
             getItem key w' = Some (PlainText "undefined") →
             loadFromLocalStorage key options w' = VNull).
  { intros w' Hwin' Hget. unfold loadFromLocalStorage.
    now rewrite Hwin', Hget. }
  destruct (DEBUG w); simpl; (split; [reflexivity|]);
    (split; [apply lookup_insert_eq|]);
    (apply Hslot; [exact Hwin | apply lookup_insert_eq]).
Qed.

Lemma saveToLocalStorage_undefined_witness :
  fst (@saveToLocalStorage demo_platform STORAGE_KEYS.SESSION VUndefined
         signed_in_world) = true
  ∧ @getSessionRef demo_platform
      (snd (@saveToLocalStorage demo_platform STORAGE_KEYS.SESSION VUndefined
              signed_in_world)) = None.
Proof.
  destruct (@saveToLocalStorage_undefined demo_platform STORAGE_KEYS.SESSION
              None signed_in_world eq_refl eq_refl) as (Hret & _ & Hload).
  split; [exact Hret|].
  unfold getSessionRef. now rewrite Hload.
Defined.

Lemma fold_removeItem keysToRemove w :
  let w' := fold_left (fun w' key => removeItem key w') keysToRemove w in
  (∀ key,
      localStorage w' !! key
      = if bool_decide (key ∈ keysToRemove) then None
        else localStorage w !! key)
  ∧ db w' = db w ∧ cookie w' = cookie w ∧ hasWindow w' = hasWindow w.
Proof.
  revert w. induction keysToRemove as [|k ks IH]; intros w; cbn [fold_left].
  - split; [|repeat split].
    intros key. rewrite bool_decide_eq_false_2; [reflexivity|].
    apply not_elem_of_nil.
  - destruct (IH (removeItem k w)) as (Hslots & Hdb & Hcookie & Hwin).
    split; [|repeat split; assumption]. intros key. rewrite Hslots.
    unfold removeItem. simpl.
    destruct (decide (key ∈ ks)) as [Hin|Hnin].
    + rewrite (bool_decide_eq_true_2 _ Hin).
      rewrite bool_decide_eq_true_2; [reflexivity|].
      apply elem_of_cons. now right.
    + rewrite (bool_decide_eq_false_2 _ Hnin).
      destruct (decide (key = k)) as [->|Hne].
      * rewrite bool_decide_eq_true_2 by (apply elem_of_cons; now left).
        apply lookup_delete_eq.
      * rewrite bool_decide_eq_false_2 by (now apply not_elem_of_cons).
        now apply lookup_delete_ne.
Qed.

(** X6.  In a browser [clearAllStorageData] removes exactly the keys that
    start with [iolta:], the session reference among them, and leaves the
    other keys, the database and the auth cookie as they were. *)
Theorem clearAllStorageData_prefix `{Platform} w :
  hasWindow w = true →
  (∀ key,
      localStorage (clearAllStorageData w) !! key
      = if String.prefix "iolta:" key then None else localStorage w !! key)
  ∧ getSessionRef (clearAllStorageData w) = None
  ∧ db (clearAllStorageData w) = db w
  ∧ cookie (clearAllStorageData w) = cookie w.
Proof.
  intros Hwin. unfold clearAllStorageData. rewrite Hwin. simpl.
  destruct (fold_removeItem
              (List.filter (String.prefix "iolta:")
                 (map fst (map_to_list (localStorage w)))) w)
    as (Hslots & Hdb & Hcookie & Hwin').
  simpl in *.
  assert (Hkeys : ∀ key,
             localStorage
               (fold_left (fun w' key0 => removeItem key0 w')
                  (List.filter (String.prefix "iolta:")
                     (map fst (map_to_list (localStorage w)))) w) !! key
             = if String.prefix "iolta:" key then None
               else localStorage w !! key).
  { intros key. rewrite Hslots.
    destruct (String.prefix "iolta:" key) eqn:Hprefix.
    - destruct (localStorage w !! key) as [text|] eqn:Hkey.
      + rewrite bool_decide_eq_true_2; [reflexivity|].
        apply list_elem_of_In, filter_In. split; [|exact Hprefix].
        apply list_elem_of_In, list_elem_of_fmap. exists (key, text).
        split; [reflexivity | now apply elem_of_map_to_list].
      + now destruct (bool_decide _).
    - rewrite bool_decide_eq_false_2; [reflexivity|].
      intros Hin. apply list_elem_of_In, filter_In in Hin as [_ Hin].
      congruence. }
  repeat split; try assumption.
  apply getSessionRef_absent. now rewrite Hkeys.
Qed.

Lemma clearAllStorageData_prefix_witness :
  @getSessionRef demo_platform (clearAllStorageData signed_in_world) = None
  ∧ cookie (clearAllStorageData signed_in_world)
    = Some (mkCookie "a1b2" 604800000).
Proof.
  destruct (@clearAllStorageData_prefix demo_platform signed_in_world eq_refl)
    as (_ & Href & _ & Hcookie).
  split; [exact Href | exact Hcookie].
Defined.

(** X7.  Once [getAnonymousUserId] has returned an id, every later call
    returns the same id, whatever it draws, and changes nothing. *)
Theorem getAnonymousUserId_stable uuid w id w1 :
  getAnonymousUserId uuid w = (Ok id, w1) →
  ∀ uuid', getAnonymousUserId uuid' w1 = (Ok id, w1).
Proof.
  unfold getAnonymousUserId, getItem, setItem, bind, ret.
  destruct (hasWindow w) eqn:Hwin; simpl.
  2:{ intros [= <- <-] uuid'. now rewrite Hwin. }
  assert (Hfresh : quotaExceeded w = false →
            ∀ uuid',
              getAnonymousUserId uuid'
                (with_localStorage
                   (<[ANONYMOUS_USER := PlainText ("anon-" ++ uuid)]>
                      (localStorage w)) w)
              = (Ok (PlainText ("anon-" ++ uuid)),
                 with_localStorage
                   (<[ANONYMOUS_USER := PlainText ("anon-" ++ uuid)]>
                      (localStorage w)) w)).
  { intros Hquota uuid'. unfold getAnonymousUserId, getItem. simpl.
    rewrite Hwin. simpl. now rewrite lookup_insert_eq. }
  destruct (localStorage w !! ANONYMOUS_USER) as [stored|] eqn:Hstored.
  - destruct (is_empty_text stored) eqn:Hempty.
    + destruct (quotaExceeded w) eqn:Hquota; [discriminate|].
      intros [= <- <-]. now apply Hfresh.
    + intros [= <- <-] uuid'. unfold getAnonymousUserId, getItem.
      now rewrite Hwin, Hstored, Hempty.
  - destruct (quotaExceeded w) eqn:Hquota; [discriminate|].
    intros [= <- <-]. now apply Hfresh.
Qed.

Lemma getAnonymousUserId_stable_witness :
  ∃ w1,
    getAnonymousUserId "7f3c" browser_world = (Ok (PlainText "anon-7f3c"), w1)
    ∧ getAnonymousUserId "0000" w1 = (Ok (PlainText "anon-7f3c"), w1).
Proof.
  eexists. split; [vm_compute; reflexivity|].
  apply (getAnonymousUserId_stable "7f3c" browser_world).
  vm_compute. reflexivity.
Defined.

(** ** More on tables *)

Section TableFrame.
Context {R : Type} `{Row R}.

Lemma tbl_get_delete_ne key key' (table : list R) :
  key ≠ key' → tbl_get key' (tbl_delete key table) = tbl_get key' table.
Proof.
  intros Hne. unfold tbl_get, tbl_delete.
  induction table as [|r rest IHrest]; simpl; [reflexivity|].
  destruct (String.eqb_spec (row_id r) key) as [Hr|Hr]; simpl.
  - rewrite IHrest.
    destruct (String.eqb_spec (row_id r) key') as [Hr'|_]; [congruence|].
    reflexivity.
  - now rewrite IHrest.
Qed.

Lemma tbl_get_elem key (table : list R) r :
  tbl_get key table = Some r → r ∈ table ∧ row_id r = key.
Proof.
  unfold tbl_get. intros Hfind. apply find_some in Hfind as [Hin Hkey].
  split; [now apply list_elem_of_In | now apply String.eqb_eq].
Qed.

Lemma tbl_get_None key (table : list R) :
  tbl_get key table = None ↔ key ∉ map row_id table.
Proof.
  unfold tbl_get.
  induction table as [|r rest IHrest]; simpl.
  - split; [intros _; apply not_elem_of_nil | reflexivity].
  - rewrite not_elem_of_cons.
    destruct (String.eqb_spec (row_id r) key) as [Hr|Hr].
    + split; [discriminate | intros [Hne _]; congruence].
    + rewrite IHrest. split; [intros Hrest; split; congruence | now intros [_ ?]].
Qed.

Lemma tbl_get_unique (table : list R) r :
  unique_ids table → r ∈ table → tbl_get (row_id r) table = Some r.
Proof.
  unfold unique_ids, tbl_get.
  induction table as [|r' rest IHrest]; simpl; intros Hnd Hin.
  - now apply elem_of_nil in Hin.
  - apply NoDup_cons in Hnd as [Hfresh Hnd].
    apply elem_of_cons in Hin as [->|Hin].
    + now rewrite String.eqb_refl.
    + destruct (String.eqb_spec (row_id r') (row_id r)) as [Heq|_].
      * exfalso. apply Hfresh. rewrite Heq.
        now apply (list_elem_of_fmap_2 row_id).
      * now apply IHrest.
Qed.

Lemma tbl_get_filter_out (p : R → bool) key (table : list R) r :
  unique_ids table → tbl_get key table = Some r → p r = false →
  tbl_get key (List.filter p table) = None.
Proof.
  intros Hnd Hget Hp. apply tbl_get_None. intros Hin.
  apply list_elem_of_fmap in Hin as (r' & Hkey & Hin').
  apply list_elem_of_In, filter_In in Hin' as [Hin' Hp'].
  apply list_elem_of_In in Hin'.
  pose proof (tbl_get_unique table r' Hnd Hin') as Hget'.
  rewrite <- Hkey in Hget'. congruence.
Qed.

Lemma elem_of_tbl_insert (r r' : R) (table : list R) :
  r' ∈ tbl_insert r table ↔ r' = r ∨ r' ∈ table.
Proof.
  induction table as [|r0 rest IHrest]; simpl.
  - rewrite list_elem_of_singleton, elem_of_nil. tauto.
  - destruct (String.ltb (row_id r) (row_id r0)).
    + now rewrite elem_of_cons.
    + rewrite !elem_of_cons, IHrest. tauto.
Qed.

Lemma NoDup_map_tbl_insert {B : Type} (f : R → B) (r : R) (table : list R) :
  f r ∉ map f table → NoDup (map f table) → NoDup (map f (tbl_insert r table)).
Proof.
  induction table as [|r0 rest IHrest]; simpl; intros Hfresh Hnd.
  - apply NoDup_singleton.
  - destruct (String.ltb (row_id r) (row_id r0)); simpl.
    + apply NoDup_cons. now split.
    + apply NoDup_cons in Hnd as [Hr0 Hnd].
      apply not_elem_of_cons in Hfresh as [Hne Hfresh].
      apply NoDup_cons. split; [|now apply IHrest].
      intros Hin. apply list_elem_of_fmap in Hin as (x & Hx & Hin).
      apply elem_of_tbl_insert in Hin as [->|Hin]; [congruence|].
      apply Hr0. rewrite Hx. now apply (list_elem_of_fmap_2 f).
Qed.

Lemma where_equals_first_None_all field value (table : list R) :
  where_equals_first field value table = None →
  value ∉ map field table.
Proof.
  intros Hnone Hin. apply where_equals_first_None in Hnone.
  apply list_elem_of_fmap in Hin as (r & Hr & Hin).
  assert (Hmatch : In r (where_equals field value table)).
  { apply filter_In. split; [now apply list_elem_of_In|].
    apply String.eqb_eq. congruence. }
  rewrite Hnone in Hmatch. destruct Hmatch.
Qed.

End TableFrame.

(** ** Sign-out *)

Section SignOutFacts.
Context `{Platform}.

Lemma signOut_browser w :
  hasWindow w = true →
  signOut w
  = (Ok tt,
     clearSessionRef
       match getSessionRef w with
       | Some ref => without_session (SessionRef.sessionId ref) w
       | None => w
       end).
Proof.
  intros Hwin. unfold signOut, sessions_delete. unfold_monad.
  rewrite Hwin. simpl. rewrite Hwin. simpl.
  now destruct (getSessionRef w).
Qed.

(** A missing Session row heals the reference. *)
Lemma getSession_row_absent now w ref :
  hasWindow w = true →
  getSessionRef w = Some ref →
  tbl_get (SessionRef.sessionId ref) (sessions (db w)) = None →
  getSession now w = (Ok None, clearSessionRef w).
Proof.
  intros Hwin Href Hrow.
  now rewrite (getSession_browser now w Hwin), Href, Hrow.
Qed.

Lemma getSession_no_reference now w :
  hasWindow w = true → getSessionRef w = None →
  getSession now w = (Ok None, w).
Proof.
  intros Hwin Href. now rewrite (getSession_browser now w Hwin), Href.
Qed.

End SignOutFacts.

(** X8.  In a browser whose reference slot is empty or holds a reference,
    [signOut] leaves no session reference and no cookie, deletes the Session
    row the reference named and no other Session row, keeps the Users table,
    and a [getSession] after it returns [null]. *)
Theorem signOut_ends_session `{Platform} w :
  hasWindow w = true →
  hasDocument w = true →
  session_slot_typed w →
  ∃ w1,
    signOut w = (Ok tt, w1)
    ∧ getSessionRef w1 = None
    ∧ cookie w1 = None
    ∧ users (db w1) = users (db w)
    ∧ (∀ ref,
          getSessionRef w = Some ref →
          tbl_get (SessionRef.sessionId ref) (sessions (db w1)) = None
          ∧ ∀ key,
              key ≠ SessionRef.sessionId ref →
              tbl_get key (sessions (db w1)) = tbl_get key (sessions (db w)))
    ∧ (getSessionRef w = None → db w1 = db w)
    ∧ ∀ now, getSession now w1 = (Ok None, w1).
Proof.
  intros Hwin Hdoc _. rewrite (signOut_browser w Hwin).
  eexists. split; [reflexivity|].
  set (w0 := match getSessionRef w with
             | Some ref => without_session (SessionRef.sessionId ref) w
             | None => w
             end).
  assert (Hwin0 : hasWindow w0 = true) by (unfold w0; now destruct (getSessionRef w)).
  assert (Hdoc0 : hasDocument w0 = true) by (unfold w0; now destruct (getSessionRef w)).
  pose proof (getSessionRef_clearSessionRef w0 Hwin0) as Hnone.
  split; [exact Hnone|].
  split; [now apply cookie_clearSessionRef|].
  rewrite db_clearSessionRef.
  split; [unfold w0; now destruct (getSessionRef w)|].
  split; [|split].
  - intros ref Href. unfold w0. rewrite Href. simpl. split.
    + apply tbl_get_delete_eq.
    + intros key Hne. now apply tbl_get_delete_ne.
  - intros Href. unfold w0. now rewrite Href.
  - intros now. apply getSession_no_reference; [|exact Hnone].
    now rewrite hasWindow_clearSessionRef.
Qed.

Lemma signOut_ends_session_witness :
  session_slot_typed firm_world
  ∧ ∃ w1,
      @signOut demo_platform firm_world = (Ok tt, w1)
      ∧ @getSessionRef demo_platform w1 = None
      ∧ cookie w1 = None
      ∧ sessions (db w1) = [ omar_session ].
Proof.
  assert (Htyped : session_slot_typed firm_world).
  { exists jane_ref. reflexivity. }
  split; [exact Htyped|].
  destruct (@signOut_ends_session demo_platform firm_world eq_refl eq_refl
              Htyped)
    as (w1 & Hrun & Href & Hcookie & _).
  exists w1. repeat split; try assumption.
  assert (Hw1 : w1 = snd (@signOut demo_platform firm_world))
    by now rewrite Hrun.
  rewrite Hw1. vm_compute. reflexivity.
Defined.

(** ** Sign-in *)

Section SignInFacts.
Context `{Platform}.

(** What a successful sign-in did. *)
Lemma signInEmail_Ok now rnd data w r w1 :
  signInEmail now rnd data w = (Ok r, w1) →
  hasWindow w = true
  ∧ where_equals_first User.email (toLowerCase (SignInData.email data))
      (users (db w)) = Some (SignUpResult.user r)
  ∧ SignUpResult.session r
    = Session.mk (signin_session_id rnd) (User.id (SignUpResult.user r))
        (generateToken (signin_token_bytes rnd)) (now + SEVEN_DAYS) now
  ∧ tbl_get (signin_session_id rnd) (sessions (db w)) = None
  ∧ w1 = setSessionRef now
           (SessionRef.mk (signin_session_id rnd)
              (generateToken (signin_token_bytes rnd)) None)
           (with_db
              (with_sessions
                 (tbl_insert (SignUpResult.session r) (sessions (db w)))
                 (db w)) w).
Proof.
  intros Hrun.
  pose proof (signInEmail_needs_browser _ _ _ _ _ _ Hrun) as Hwin.
  rewrite (signInEmail_browser _ _ _ _ Hwin) in Hrun.
  destruct (where_equals_first _ _ _) as [user|]; [|discriminate].
  unfold hashPassword in Hrun.
  destruct (hasSubtle w); simpl in Hrun; [|discriminate].
  destruct (bool_decide _); simpl in Hrun; [|discriminate].
  destruct (tbl_add _ (sessions (db w))) as [ss|] eqn:Hss; [|discriminate].
  injection Hrun as <- <-.
  apply tbl_add_Some in Hss as [Hfresh ->].
  repeat split; assumption.
Qed.

(** The sign-in that succeeds. *)
Lemma signInEmail_success now rnd data w user :
  hasWindow w = true →
  hasSubtle w = true →
  where_equals_first User.email (toLowerCase (SignInData.email data))
    (users (db w)) = Some user →
  User.passwordHash user = Some (digest_hex (SignInData.password data)) →
  tbl_get (signin_session_id rnd) (sessions (db w)) = None →
  let session :=
    Session.mk (signin_session_id rnd) (User.id user)
      (generateToken (signin_token_bytes rnd)) (now + SEVEN_DAYS) now in
  signInEmail now rnd data w
  = (Ok (SignUpResult.mk user session),
     setSessionRef now
       (SessionRef.mk (signin_session_id rnd)
          (generateToken (signin_token_bytes rnd)) None)
       (with_db (with_sessions (tbl_insert session (sessions (db w))) (db w))
          w)).
Proof.
  intros Hwin Hsubtle Hfound Hhash Hfresh session.
  rewrite (signInEmail_browser _ _ _ _ Hwin), Hfound.
  unfold hashPassword. rewrite Hsubtle. cbn [negb].
  rewrite bool_decide_eq_true_2 by now symmetry.
  cbn [negb]. lazy zeta. fold session.
  now rewrite (tbl_add_fresh session _ Hfresh).
Qed.

End SignInFacts.

(** X9.  In a browser with working crypto and room in localStorage, a
    sign-in with the password of the User registered under the lower-cased
    email succeeds when a fresh session id is drawn; the new Session expires
    seven days later, and a [getSession] before that returns this User, without
    [passwordHash], and the new Session. *)
Theorem signIn_then_getSession `{Platform} now now' rnd data w user :
  hasWindow w = true →
  hasSubtle w = true →
  quotaExceeded w = false →
  unique_ids (users (db w)) →
  where_equals_first User.email (toLowerCase (SignInData.email data))
    (users (db w)) = Some user →
  User.passwordHash user = Some (digest_hex (SignInData.password data)) →
  tbl_get (signin_session_id rnd) (sessions (db w)) = None →
  now' < now + 7 * 24 * 60 * 60 * 1000 →
  ∃ r w1 w2,
    signInEmail now rnd data w = (Ok r, w1)
    ∧ SignUpResult.user r = user
    ∧ Session.userId (SignUpResult.session r) = User.id user
    ∧ Session.expiresAt (SignUpResult.session r)
      = now + 7 * 24 * 60 * 60 * 1000
    ∧ getSession now' w1
      = (Ok (Some (SessionData.mk (safeUser user) (SignUpResult.session r))),
         w2).
Proof.
  intros Hwin Hsubtle Hquota Hids Hfound Hhash Hfresh Hsoon.
  rewrite (signInEmail_success now rnd data w user) by assumption.
  set (session := Session.mk _ _ _ _ _).
  set (w0 := with_db _ w).
  set (ref := SessionRef.mk _ _ _).
  assert (Hwin0 : hasWindow w0 = true) by exact Hwin.
  assert (Hquota0 : quotaExceeded w0 = false) by exact Hquota.
  pose proof (getSessionRef_setSessionRef now ref w0 Hwin0 Hquota0) as Href.
  assert (Hwin1 : hasWindow (setSessionRef now ref w0) = true)
    by now rewrite hasWindow_setSessionRef.
  assert (Hs : tbl_get (SessionRef.sessionId ref)
                 (sessions (db (setSessionRef now ref w0))) = Some session).
  { rewrite db_setSessionRef.
    exact (tbl_get_insert_eq session (sessions (db w)) Hfresh). }
  assert (Hu : tbl_get (Session.userId session)
                 (users (db (setSessionRef now ref w0))) = Some user).
  { rewrite db_setSessionRef.
    apply where_equals_first_Some in Hfound as [Hin _].
    exact (tbl_get_unique (users (db w)) user Hids Hin). }
  do 3 eexists. split; [reflexivity|].
  split; [reflexivity|]. split; [reflexivity|]. split; [reflexivity|].
  rewrite (getSession_valid now' _ ref session user Hwin1 Href Hs eq_refl);
    [reflexivity | unfold session, SEVEN_DAYS; simpl; lia | exact Hu].
Qed.

Lemma signIn_then_getSession_witness :
  ∃ r w1 w2,
    @signInEmail demo_platform 400 (mkSignInDraws [ 0; 16; 255 ] "s-0")
      (SignInData.mk "OMAR@example.com" "omar") firm_world = (Ok r, w1)
    ∧ @getSession demo_platform 401 w1
      = (Ok (Some (SessionData.mk (safeUser omar) (SignUpResult.session r))),
         w2).
Proof.
  destruct (@signIn_then_getSession demo_platform 400 401
              (mkSignInDraws [ 0; 16; 255 ] "s-0")
              (SignInData.mk "OMAR@example.com" "omar") firm_world omar)
    as (r & w1 & w2 & Hin & _ & _ & _ & Hget);
    try reflexivity; try lia.
  - apply distinct_NoDup. reflexivity.
  - exists r, w1, w2. split; assumption.
Defined.

(** X10.  A successful sign-in adds one Session row under a fresh id and
    removes none: the earlier Session rows, of this user and of the others,
    are still read under their ids, and the Users table is unchanged. *)
Theorem signIn_keeps_sessions `{Platform} now rnd data w r w1 :
  signInEmail now rnd data w = (Ok r, w1) →
  users (db w1) = users (db w)
  ∧ tbl_get (Session.id (SignUpResult.session r)) (sessions (db w)) = None
  ∧ tbl_get (Session.id (SignUpResult.session r)) (sessions (db w1))
    = Some (SignUpResult.session r)
  ∧ (∀ key,
        key ≠ Session.id (SignUpResult.session r) →
        tbl_get key (sessions (db w1)) = tbl_get key (sessions (db w)))
  ∧ ∀ s, s ∈ sessions (db w) → s ∈ sessions (db w1).
Proof.
  intros Hrun.
  apply signInEmail_Ok in Hrun as (_ & _ & Hsession & Hfresh & ->).
  rewrite !db_setSessionRef.
  assert (Hid : Session.id (SignUpResult.session r) = signin_session_id rnd)
    by now rewrite Hsession.
  rewrite Hid.
  change (users (db (with_db
                       (with_sessions
                          (tbl_insert (SignUpResult.session r)
                             (sessions (db w))) (db w)) w)))
    with (users (db w)).
  change (sessions (db (with_db
                          (with_sessions
                             (tbl_insert (SignUpResult.session r)
                                (sessions (db w))) (db w)) w)))
    with (tbl_insert (SignUpResult.session r) (sessions (db w))).
  split; [reflexivity|]. split; [exact Hfresh|]. split; [|split].
  - rewrite <- Hid. apply (tbl_get_insert_eq (SignUpResult.session r)).
    change (row_id (SignUpResult.session r))
      with (Session.id (SignUpResult.session r)).
    now rewrite Hid.
  - intros key Hne. apply tbl_get_insert_ne.
    change (row_id (SignUpResult.session r))
      with (Session.id (SignUpResult.session r)).
    congruence.
  - intros s Hin. apply elem_of_tbl_insert. now right.
Qed.

Lemma signIn_keeps_sessions_witness :
  ∃ r w1,
    @signInEmail demo_platform 400 (mkSignInDraws [ 0; 16; 255 ] "s-0")
      (SignInData.mk "OMAR@example.com" "omar") firm_world = (Ok r, w1)
    ∧ jane_session ∈ sessions (db w1)
    ∧ omar_session ∈ sessions (db w1).
Proof.
  pose (run := @signInEmail demo_platform 400
                 (mkSignInDraws [ 0; 16; 255 ] "s-0")
                 (SignInData.mk "OMAR@example.com" "omar") firm_world).
  assert (Hrun : run
                 = (Ok (SignUpResult.mk omar
                          (Session.mk "s-0" "u-2" "0010ff" 604800400 400)),
                    snd run)) by (vm_compute; reflexivity).
  destruct (@signIn_keeps_sessions demo_platform _ _ _ _ _ _ Hrun)
    as (_ & _ & _ & _ & Hkept).
  do 2 eexists. split; [exact Hrun|].
  split; apply Hkept; apply list_elem_of_In; simpl; auto.
Defined.

(** ** Sign-up: unique emails, and signing in afterwards *)

Section SignUpMore.
Context `{Platform}.

Lemma hasSubtle_setSessionRef now ref w :
  hasSubtle (setSessionRef now ref w) = hasSubtle w.
Proof.
  unfold setSessionRef, setAuthCookie, saveToLocalStorage, setItem.
  rewrite SessionRef_stringify.
  destruct (hasWindow w), (quotaExceeded w), (DEBUG w); simpl;
    now destruct (hasDocument w).
Qed.

Lemma signUpEmail_Ok_subtle now rnd data w r w1 :
  signUpEmail now rnd data w = (Ok r, w1) → hasSubtle w1 = true.
Proof.
  intros Hrun.
  pose proof (signUpEmail_needs_browser _ _ _ _ _ _ Hrun) as Hwin.
  rewrite (signUpEmail_browser _ _ _ _ Hwin) in Hrun.
  destruct (where_equals_first _ _ (users (db w))); [discriminate|].
  unfold hashPassword in Hrun.
  destruct (hasSubtle w) eqn:Hsubtle; simpl in Hrun; [|discriminate].
  destruct (tbl_add _ (users (db w))); [|discriminate].
  destruct (tbl_add _ (sessions (db w))); [|discriminate].
  injection Hrun as _ <-. now rewrite hasSubtle_setSessionRef.
Qed.

(** The Users table after a sign-up, whatever its outcome. *)
Lemma signUpEmail_users now rnd data w o w1 :
  signUpEmail now rnd data w = (o, w1) →
  users (db w1) = users (db w)
  ∨ ∃ user,
      User.email user = toLowerCase (SignUpData.email data)
      ∧ where_equals_first User.email (toLowerCase (SignUpData.email data))
          (users (db w)) = None
      ∧ users (db w1) = tbl_insert user (users (db w)).
Proof.
  destruct (hasWindow w) eqn:Hwin.
  2:{ unfold signUpEmail. unfold_monad. rewrite Hwin. simpl.
      intros [= _ <-]. now left. }
  rewrite (signUpEmail_browser _ _ _ _ Hwin).
  destruct (where_equals_first _ _ (users (db w))) eqn:Hfree;
    [intros [= _ <-]; now left|].
  unfold hashPassword.
  destruct (hasSubtle w); simpl; [|intros [= _ <-]; now left].
  destruct (tbl_add _ (users (db w))) as [us|] eqn:Hus;
    [|intros [= _ <-]; now left].
  apply tbl_add_Some in Hus as [_ ->].
  set (user := User.mk _ _ _ _ _ _).
  destruct (tbl_add _ (sessions (db w)));
    intros [= _ <-]; right; exists user;
    (split; [reflexivity|]); (split; [reflexivity|]);
    rewrite ?db_setSessionRef; reflexivity.
Qed.

End SignUpMore.

(** X11.  [signUpEmail] keeps the emails of the Users table pairwise
    different, whether it succeeds or throws. *)
Theorem signUpEmail_keeps_emails_unique `{Platform} now rnd data w o w1 :
  emails_unique (users (db w)) →
  signUpEmail now rnd data w = (o, w1) →
  emails_unique (users (db w1)).
Proof.
  intros Huniq Hrun.
  apply signUpEmail_users in Hrun as [->|(user & Hemail & Hfree & ->)];
    [exact Huniq|].
  apply NoDup_map_tbl_insert; [|exact Huniq].
  rewrite Hemail. now apply where_equals_first_None_all.
Qed.

Lemma signUpEmail_keeps_emails_unique_witness :
  emails_unique (users (db firm_world))
  ∧ emails_unique
      (users (db (snd (@signUpEmail demo_platform 100 jane_draws
                         (SignUpData.mk "New@Example.com" "pw" "New")
                         firm_world)))).
Proof.
  assert (Huniq : emails_unique (users (db firm_world)))
    by (apply distinct_NoDup; reflexivity).
  split; [exact Huniq|].
  apply (@signUpEmail_keeps_emails_unique demo_platform 100 jane_draws
           (SignUpData.mk "New@Example.com" "pw" "New") firm_world
           (fst (@signUpEmail demo_platform 100 jane_draws
                   (SignUpData.mk "New@Example.com" "pw" "New") firm_world))
           _ Huniq).
  now destruct (@signUpEmail demo_platform 100 jane_draws
                  (SignUpData.mk "New@Example.com" "pw" "New") firm_world).
Defined.

(** X12.  After a successful sign-up, a sign-in with the same password and
    an email that lower-cases to the same string succeeds, whatever the
    casing, when a fresh session id is drawn, and returns the User the
    sign-up created. *)
Theorem signUp_then_signIn `{Platform}
    now rnd data w r w1 now2 rnd2 data2 :
  signUpEmail now rnd data w = (Ok r, w1) →
  toLowerCase (SignInData.email data2) = toLowerCase (SignUpData.email data) →
  SignInData.password data2 = SignUpData.password data →
  tbl_get (signin_session_id rnd2) (sessions (db w1)) = None →
  ∃ r2 w2,
    signInEmail now2 rnd2 data2 w1 = (Ok r2, w2)
    ∧ SignUpResult.user r2 = SignUpResult.user r
    ∧ Session.userId (SignUpResult.session r2) = User.id (SignUpResult.user r).
Proof.
  intros Hup Hemail Hpassword Hfresh.
  pose proof (signUpEmail_Ok_subtle _ _ _ _ _ _ Hup) as Hsubtle.
  apply signUpEmail_Ok in Hup as (Hwin & Hfree & Husers & Huser & Hhash).
  assert (Hfound :
    where_equals_first User.email (toLowerCase (SignInData.email data2))
      (users (db w1)) = Some (SignUpResult.user r)).
  { unfold where_equals_first, where_equals.
    rewrite Hemail, Husers, (filter_insert_first _ (SignUpResult.user r));
      [reflexivity | now apply where_equals_first_None in Hfree |].
    rewrite Huser. apply String.eqb_refl. }
  rewrite (signInEmail_success now2 rnd2 data2 w1 (SignUpResult.user r));
    try assumption; [|now rewrite Hpassword].
  do 2 eexists. repeat split.
Qed.

Lemma signUp_then_signIn_witness :
  ∃ r2 w2,
    @signInEmail demo_platform 300 (mkSignInDraws [ 9 ] "s-10")
      (SignInData.mk "JANE@EXAMPLE.COM" "hunter22") after_jane_signup
    = (Ok r2, w2)
    ∧ SignUpResult.user r2 = SignUpResult.user jane_signup_result.
Proof.
  destruct (@signUp_then_signIn demo_platform 100 jane_draws jane_signup
              browser_world jane_signup_result after_jane_signup
              300 (mkSignInDraws [ 9 ] "s-10")
              (SignInData.mk "JANE@EXAMPLE.COM" "hunter22")
              jane_signup_run eq_refl eq_refl)
    as (r2 & w2 & Hin & Huser & _).
  - vm_compute. reflexivity.
  - exists r2, w2. split; assumption.
Defined.

(** ** Organisations *)

Section OrganizationFacts.
Context `{Platform}.

Lemma getActiveOrganization_browser w :
  hasWindow w = true →
  getActiveOrganization w
  = (Ok match getSessionRef w with
        | None => None
        | Some ref =>
            if falsy_string (SessionRef.activeOrgId ref) then None
            else tbl_get (default "" (SessionRef.activeOrgId ref))
                   (organizations (db w))
        end, w).
Proof.
  intros Hwin. unfold getActiveOrganization. unfold_monad.
  rewrite Hwin. simpl.
  destruct (getSessionRef w) as [ref|]; [|reflexivity].
  destruct (falsy_string _); [reflexivity|]. now rewrite Hwin.
Qed.

Lemma getOrganizations_browser userId w :
  hasWindow w = true →
  getOrganizations userId w
  = (Ok (flat_map
           (fun id => match tbl_get id (organizations (db w)) with
                      | Some org => [ org ]
                      | None => []
                      end)
           (map Member.organizationId
              (where_equals Member.userId userId (members (db w))))), w).
Proof.
  intros Hwin. unfold getOrganizations. unfold_monad.
  rewrite Hwin. simpl. now rewrite Hwin.
Qed.

(** The organisations listed for a user are those of the user's Member
    rows. *)
Lemma elem_of_getOrganizations userId w org :
  hasWindow w = true →
  (∃ orgs, getOrganizations userId w = (Ok orgs, w) ∧ org ∈ orgs)
  ↔ ∃ m,
      m ∈ members (db w)
      ∧ Member.userId m = userId
      ∧ tbl_get (Member.organizationId m) (organizations (db w)) = Some org.
Proof.
  intros Hwin. rewrite (getOrganizations_browser userId w Hwin). split.
  - intros (orgs & [= <-] & Hin).
    apply list_elem_of_In, in_flat_map in Hin as (id & Hid & Horg).
    apply in_map_iff in Hid as (m & <- & Hm).
    apply filter_In in Hm as [Hm Huser].
    exists m. split; [now apply list_elem_of_In|].
    split; [now apply String.eqb_eq|].
    destruct (tbl_get _ (organizations (db w))) as [org'|]; [|destruct Horg].
    destruct Horg as [->|[]]. reflexivity.
  - intros (m & Hm & Huser & Horg). eexists. split; [reflexivity|].
    apply list_elem_of_In, in_flat_map. exists (Member.organizationId m).
    split.
    + apply in_map. apply filter_In. split; [now apply list_elem_of_In|].
      now apply String.eqb_eq.
    + rewrite Horg. now left.
Qed.

Lemma createOrganization_browser now rnd data userId w :
  hasWindow w = true →
  let org :=
    Organization.mk (drawn_org_id rnd) (CreateOrgData.name data)
      (CreateOrgData.slug data) (CreateOrgData.logo data) now in
  let member :=
    Member.mk (drawn_member_id rnd) userId (drawn_org_id rnd) owner now in
  createOrganization now rnd data userId w
  = match where_equals_first Organization.slug (CreateOrgData.slug data)
            (organizations (db w)) with
    | Some _ => (Throw "Organization slug already taken", w)
    | None =>
        match tbl_add org (organizations (db w)) with
        | None => (Throw "ConstraintError", w)
        | Some os =>
            let w1 := with_db (with_organizations os (db w)) w in
            match tbl_add member (members (db w)) with
            | None => (Throw "ConstraintError", w1)
            | Some ms =>
                let w2 := with_db (with_members ms (db w1)) w1 in
                (Ok org,
                 match getSessionRef w with
                 | Some ref =>
                     setSessionRef now
                       (SessionRef.mk (SessionRef.sessionId ref)
                          (SessionRef.token ref) (Some (drawn_org_id rnd)))
                       w2
                 | None => w2
                 end)
            end
        end
    end.
Proof.
  intros Hwin org member.
  unfold createOrganization, organizations_add, members_add. unfold_monad.
  rewrite Hwin. simpl. rewrite Hwin. simpl.
  destruct (where_equals_first _ _ _); [reflexivity|].
  fold org. destruct (tbl_add org _); simpl; [|reflexivity].
  fold member. destruct (tbl_add member _); simpl; [|reflexivity].
  rewrite !getSessionRef_with_db.
  now destruct (getSessionRef w).
Qed.

End OrganizationFacts.

(** X13.  In a browser with room in localStorage, for a signed-in user,
    [createOrganization] with a free slug and fresh ids returns the new
    organisation, adds an owner membership for the user, and makes the
    organisation the active one: the reference keeps its session and carries
    the new id, [getActiveOrganization] returns the organisation, and
    [getOrganizations] lists it for the user. *)
Theorem createOrganization_activates `{Platform} now rnd data userId w ref :
  hasWindow w = true →
  quotaExceeded w = false →
  getSessionRef w = Some ref →
  where_equals_first Organization.slug (CreateOrgData.slug data)
    (organizations (db w)) = None →
  tbl_get (drawn_org_id rnd) (organizations (db w)) = None →
  tbl_get (drawn_member_id rnd) (members (db w)) = None →
  drawn_org_id rnd ≠ "" →
  ∃ org w1,
    createOrganization now rnd data userId w = (Ok org, w1)
    ∧ org = Organization.mk (drawn_org_id rnd) (CreateOrgData.name data)
              (CreateOrgData.slug data) (CreateOrgData.logo data) now
    ∧ Member.mk (drawn_member_id rnd) userId (drawn_org_id rnd) owner now
      ∈ members (db w1)
    ∧ getSessionRef w1
      = Some (SessionRef.mk (SessionRef.sessionId ref) (SessionRef.token ref)
                (Some (drawn_org_id rnd)))
    ∧ getActiveOrganization w1 = (Ok (Some org), w1)
    ∧ ∃ orgs, getOrganizations userId w1 = (Ok orgs, w1) ∧ org ∈ orgs.
Proof.
  intros Hwin Hquota Href Hslug Horg Hmember Hid.
  rewrite (createOrganization_browser now rnd data userId w Hwin), Hslug, Href.
  set (org := Organization.mk _ _ _ _ _).
  set (member := Member.mk _ _ _ _ _).
  rewrite (tbl_add_fresh org _ Horg), (tbl_add_fresh member _ Hmember).
  cbv zeta.
  set (w2 := with_db _ (with_db _ w)).
  set (ref' := SessionRef.mk _ _ _).
  assert (Hwin2 : hasWindow w2 = true) by exact Hwin.
  assert (Hquota2 : quotaExceeded w2 = false) by exact Hquota.
  assert (Hwin3 : hasWindow (setSessionRef now ref' w2) = true)
    by now rewrite hasWindow_setSessionRef.
  pose proof (getSessionRef_setSessionRef now ref' w2 Hwin2 Hquota2) as Href'.
  assert (Horgs : tbl_get (drawn_org_id rnd)
                    (organizations (db (setSessionRef now ref' w2)))
                  = Some org).
  { rewrite db_setSessionRef.
    exact (tbl_get_insert_eq org (organizations (db w)) Horg). }
  assert (Hmembers : member ∈ members (db (setSessionRef now ref' w2))).
  { rewrite db_setSessionRef. apply elem_of_tbl_insert. now left. }
  exists org, (setSessionRef now ref' w2).
  split; [reflexivity|]. split; [reflexivity|]. split; [exact Hmembers|].
  split; [exact Href'|]. split.
  - rewrite (getActiveOrganization_browser _ Hwin3), Href'. simpl.
    destruct (String.eqb_spec (drawn_org_id rnd) "") as [Hempty|_];
      [contradiction|].
    now rewrite Horgs.
  - apply (elem_of_getOrganizations userId _ org Hwin3).
    exists member. split; [exact Hmembers|]. split; [reflexivity|].
    exact Horgs.
Qed.

Lemma createOrganization_activates_witness :
  ∃ org w1,
    @createOrganization demo_platform 300 jane_org_draws jane_org_data "u-1"
      firm_world = (Ok org, w1)
    ∧ @getActiveOrganization demo_platform w1 = (Ok (Some org), w1)
    ∧ Organization.slug org = "doe-law".
Proof.
  destruct (@createOrganization_activates demo_platform 300 jane_org_draws
              jane_org_data "u-1" firm_world jane_ref)
    as (org & w1 & Hrun & Horg & _ & _ & Hactive & _);
    try reflexivity; try discriminate.
  exists org, w1. split; [exact Hrun|]. split; [exact Hactive|].
  now rewrite Horg.
Defined.

(** X14.  In a browser [createOrganization] with a slug that an Organization
    row already has throws "Organization slug already taken" and changes
    nothing: no Organization row, no Member row, the reference as it was. *)
Theorem createOrganization_duplicate_slug `{Platform} now rnd data userId w o :
  hasWindow w = true →
  where_equals_first Organization.slug (CreateOrgData.slug data)
    (organizations (db w)) = Some o →
  createOrganization now rnd data userId w
  = (Throw "Organization slug already taken", w).
Proof.
  intros Hwin Htaken.
  now rewrite (createOrganization_browser now rnd data userId w Hwin), Htaken.
Qed.

Lemma createOrganization_duplicate_slug_witness :
  @createOrganization demo_platform 300 jane_org_draws
    (CreateOrgData.mk "Other" "haddad-doe" None) "u-1" firm_world
  = (Throw "Organization slug already taken", firm_world).
Proof.
  apply (@createOrganization_duplicate_slug demo_platform 300 jane_org_draws
           (CreateOrgData.mk "Other" "haddad-doe" None) "u-1" firm_world firm
           eq_refl).
  reflexivity.
Defined.

(** X15.  In a browser with room in localStorage, whose reference slot is
    empty or holds a reference, [setActiveOrganization]
    for a signed-in user rewrites the reference with the given id, keeping
    its session id and token, and does not touch the database; it checks
    neither that the organisation exists nor that the user is a member, and
    [getActiveOrganization] afterwards returns the Organization row with that
    id if there is one, and [null] otherwise or for the empty id.  Without a
    reference the call changes nothing. *)
Theorem setActiveOrganization_switch `{Platform} now orgId w :
  hasWindow w = true →
  quotaExceeded w = false →
  session_slot_typed w →
  match getSessionRef w with
  | None => setActiveOrganization now orgId w = (Ok tt, w)
  | Some ref =>
      ∃ w1,
        setActiveOrganization now orgId w = (Ok tt, w1)
        ∧ getSessionRef w1
          = Some (SessionRef.mk (SessionRef.sessionId ref)
                    (SessionRef.token ref) (Some orgId))
        ∧ db w1 = db w
        ∧ getActiveOrganization w1
          = (Ok (if String.eqb orgId "" then None
                 else tbl_get orgId (organizations (db w))), w1)
  end.
Proof.
  intros Hwin Hquota _. unfold setActiveOrganization. unfold_monad.
  rewrite Hwin. simpl.
  destruct (getSessionRef w) as [ref|]; [|reflexivity].
  set (ref' := SessionRef.mk _ _ _).
  pose proof (getSessionRef_setSessionRef now ref' w Hwin Hquota) as Href'.
  assert (Hwin1 : hasWindow (setSessionRef now ref' w) = true)
    by now rewrite hasWindow_setSessionRef.
  eexists. split; [reflexivity|]. split; [exact Href'|].
  split; [apply db_setSessionRef|].
  rewrite (getActiveOrganization_browser _ Hwin1), Href', db_setSessionRef.
  reflexivity.
Qed.

Lemma setActiveOrganization_switch_witness :
  session_slot_typed firm_world
  ∧ ∃ w1,
      @setActiveOrganization demo_platform 350 "o-1" firm_world = (Ok tt, w1)
      ∧ @getActiveOrganization demo_platform w1 = (Ok (Some firm), w1).
Proof.
  assert (Htyped : session_slot_typed firm_world).
  { exists jane_ref. reflexivity. }
  split; [exact Htyped|].
  pose proof (@setActiveOrganization_switch demo_platform 350 "o-1" firm_world
                eq_refl eq_refl Htyped) as Hswitch.
  change (@getSessionRef demo_platform firm_world) with (Some jane_ref)
    in Hswitch.
  destruct Hswitch as (w1 & Hrun & _ & _ & Hactive).
  exists w1. split; [exact Hrun | exact Hactive].
Defined.

(** X16.  In a browser [getOrganizations] returns, without changing
    anything, exactly the organisations reached from the Member rows of the
    user: a membership whose Organization row is missing contributes
    nothing. *)
Theorem getOrganizations_of_memberships `{Platform} userId w :
  hasWindow w = true →
  ∃ orgs,
    getOrganizations userId w = (Ok orgs, w)
    ∧ ∀ org,
        org ∈ orgs
        ↔ ∃ m,
            m ∈ members (db w)
            ∧ Member.userId m = userId
            ∧ tbl_get (Member.organizationId m) (organizations (db w))
              = Some org.
Proof.
  intros Hwin.
  pose proof (getOrganizations_browser userId w Hwin) as Hrun.
  eexists. split; [exact Hrun|]. intros org.
  rewrite <- (elem_of_getOrganizations userId w org Hwin), Hrun. split.
  - intros Hin. eexists. now split.
  - now intros (orgs & [= <-] & Hin).
Qed.

Lemma getOrganizations_of_memberships_witness :
  getOrganizations "u-2" firm_world = (Ok [ firm ], firm_world).
Proof.
  destruct (@getOrganizations_of_memberships demo_platform "u-2" firm_world
              eq_refl) as (orgs & Hrun & _).
  rewrite Hrun. f_equal. f_equal.
  assert (Horgs : Ok orgs = fst (getOrganizations "u-2" firm_world))
    by now rewrite Hrun.
  vm_compute in Horgs. now injection Horgs.
Defined.

(** ** Clearing data *)

Section ClearFacts.
Context `{Platform}.

Lemma signInEmail_no_users now rnd data w :
  hasWindow w = true → users (db w) = [] →
  signInEmail now rnd data w = (Throw "Invalid email or password", w).
Proof.
  intros Hwin Hnone. rewrite (signInEmail_browser _ _ _ _ Hwin), Hnone.
  reflexivity.
Qed.

Lemma getSession_no_sessions now w :
  hasWindow w = true → sessions (db w) = [] →
  getSession now w
  = (Ok None, match getSessionRef w with
              | Some _ => clearSessionRef w
              | None => w
              end).
Proof.
  intros Hwin Hnone. rewrite (getSession_browser now w Hwin), Hnone.
  now destruct (getSessionRef w).
Qed.

End ClearFacts.

(** X17.  In a browser [clearAllAuthData] empties Users, Sessions, Members
    and Organizations, keeps the application tables, and removes the
    reference and the cookie; afterwards [getSession] returns [null], the
    user list is empty and every sign-in is refused. *)
Theorem clearAllAuthData_resets `{Platform} w :
  hasWindow w = true →
  hasDocument w = true →
  ∃ w1,
    clearAllAuthData w = (Ok tt, w1)
    ∧ db w1
      = mkDatabase [] [] [] [] (clients (db w)) (matters (db w))
          (transactions (db w)) (holds (db w)) (auditLogs (db w))
          (reportHistory (db w)) (trustAccountSettings (db w))
    ∧ getSessionRef w1 = None
    ∧ cookie w1 = None
    ∧ (∀ now, getSession now w1 = (Ok None, w1))
    ∧ listAllUsers w1 = (Ok [], w1)
    ∧ ∀ now rnd data,
        signInEmail now rnd data w1 = (Throw "Invalid email or password", w1).
Proof.
  intros Hwin Hdoc. unfold clearAllAuthData. unfold_monad.
  rewrite Hwin. simpl. rewrite Hwin. simpl.
  set (w0 := with_db _ _).
  assert (Hwin0 : hasWindow w0 = true) by exact Hwin.
  assert (Hdoc0 : hasDocument w0 = true) by exact Hdoc.
  assert (Hwin1 : hasWindow (clearSessionRef w0) = true)
    by now rewrite hasWindow_clearSessionRef.
  pose proof (getSessionRef_clearSessionRef w0 Hwin0) as Href.
  eexists. split; [reflexivity|].
  split; [now rewrite db_clearSessionRef|].
  split; [exact Href|].
  split; [now apply cookie_clearSessionRef|].
  split; [intros now; now apply getSession_no_reference|].
  split.
  - unfold listAllUsers. unfold_monad. rewrite Hwin1. simpl.
    rewrite Hwin1. simpl. now rewrite db_clearSessionRef.
  - intros now rnd data. apply signInEmail_no_users; [exact Hwin1|].
    now rewrite db_clearSessionRef.
Qed.

Lemma clearAllAuthData_resets_witness :
  ∃ w1,
    clearAllAuthData firm_world = (Ok tt, w1)
    ∧ users (db w1) = [] ∧ sessions (db w1) = []
    ∧ members (db w1) = [] ∧ organizations (db w1) = []
    ∧ clients (db w1) = clients (db firm_world).
Proof.
  destruct (@clearAllAuthData_resets demo_platform firm_world eq_refl eq_refl)
    as (w1 & Hrun & Hdb & _).
  exists w1. split; [exact Hrun|]. rewrite Hdb. repeat split.
Defined.

(** X18.  In a browser [clearAllSessions] empties the Sessions table and
    removes the reference and the cookie, so that [getSession] returns
    [null]; the Users, Organizations and Members tables are kept. *)
Theorem clearAllSessions_logs_out `{Platform} w :
  hasWindow w = true →
  hasDocument w = true →
  ∃ w1,
    clearAllSessions w = (Ok tt, w1)
    ∧ sessions (db w1) = []
    ∧ users (db w1) = users (db w)
    ∧ organizations (db w1) = organizations (db w)
    ∧ members (db w1) = members (db w)
    ∧ getSessionRef w1 = None
    ∧ cookie w1 = None
    ∧ ∀ now, getSession now w1 = (Ok None, w1).
Proof.
  intros Hwin Hdoc. unfold clearAllSessions. unfold_monad.
  rewrite Hwin. simpl. rewrite Hwin. simpl.
  set (w0 := with_db _ _).
  assert (Hwin0 : hasWindow w0 = true) by exact Hwin.
  assert (Hdoc0 : hasDocument w0 = true) by exact Hdoc.
  pose proof (getSessionRef_clearSessionRef w0 Hwin0) as Href.
  eexists. split; [reflexivity|]. rewrite !db_clearSessionRef.
  repeat split; try reflexivity; try exact Href.
  - now apply cookie_clearSessionRef.
  - intros now. apply getSession_no_reference; [|exact Href].
    now rewrite hasWindow_clearSessionRef.
Qed.

Lemma clearAllSessions_logs_out_witness :
  ∃ w1,
    clearAllSessions firm_world = (Ok tt, w1)
    ∧ sessions (db w1) = []
    ∧ users (db w1) = [ jane; omar ].
Proof.
  destruct (@clearAllSessions_logs_out demo_platform firm_world eq_refl
              eq_refl) as (w1 & Hrun & Hs & Hu & _).
  exists w1. repeat split; assumption.
Defined.

(** X19.  In a browser [listAllUsers] returns one record per User row, in
    table order and with the same id, email, name and dates, none of them
    with a [passwordHash], and changes nothing. *)
Theorem listAllUsers_strips_hashes `{Platform} w :
  hasWindow w = true →
  ∃ listed,
    listAllUsers w = (Ok listed, w)
    ∧ Forall (fun u => User.passwordHash u = None) listed
    ∧ Forall2 (fun u row =>
                 User.id u = User.id row
                 ∧ User.email u = User.email row
                 ∧ User.name u = User.name row
                 ∧ User.createdAt u = User.createdAt row
                 ∧ User.updatedAt u = User.updatedAt row)
        listed (users (db w)).
Proof.
  intros Hwin. unfold listAllUsers. unfold_monad.
  rewrite Hwin. simpl. rewrite Hwin. simpl.
  eexists. split; [reflexivity|].
  induction (users (db w)) as [|row rest [IHhash IHrows]]; simpl.
  - split; constructor.
  - split; constructor; auto.
Qed.

Lemma listAllUsers_strips_hashes_witness :
  listAllUsers firm_world = (Ok [ safeUser jane; safeUser omar ], firm_world).
Proof.
  destruct (@listAllUsers_strips_hashes demo_platform firm_world eq_refl)
    as (listed & Hrun & _).
  rewrite Hrun. f_equal. f_equal.
  assert (Hlisted : Ok listed = fst (listAllUsers firm_world))
    by now rewrite Hrun.
  vm_compute in Hlisted. now injection Hlisted.
Defined.

(** X20.  In a browser whose reference slot is empty or holds a reference,
    [clearAuthData] of db.ts empties the four auth tables
    and keeps the application tables, but leaves the session reference and
    the cookie where they are; the next [getSession] returns [null] and, when
    a reference was there, removes it together with the cookie. *)
Theorem clearAuthData_then_getSession `{Platform} w :
  hasWindow w = true →
  hasDocument w = true →
  session_slot_typed w →
  ∃ w1,
    clearAuthData w = (Ok tt, w1)
    ∧ db w1
      = mkDatabase [] [] [] [] (clients (db w)) (matters (db w))
          (transactions (db w)) (holds (db w)) (auditLogs (db w))
          (reportHistory (db w)) (trustAccountSettings (db w))
    ∧ localStorage w1 = localStorage w
    ∧ cookie w1 = cookie w
    ∧ ∀ now,
        ∃ w2,
          getSession now w1 = (Ok None, w2)
          ∧ getSessionRef w2 = None
          ∧ (is_Some (getSessionRef w) → cookie w2 = None).
Proof.
  intros Hwin Hdoc _. unfold clearAuthData. unfold_monad.
  rewrite Hwin. simpl. rewrite Hwin. simpl.
  set (w1 := with_db _ _).
  assert (Hwin1 : hasWindow w1 = true) by exact Hwin.
  assert (Hdoc1 : hasDocument w1 = true) by exact Hdoc.
  exists w1. repeat split. intros now.
  rewrite (getSession_no_sessions now w1 Hwin1 eq_refl).
  change (getSessionRef w1) with (getSessionRef w).
  destruct (getSessionRef w) as [ref|] eqn:Href.
  - eexists. split; [reflexivity|].
    split; [now apply getSessionRef_clearSessionRef|].
    intros _. now apply cookie_clearSessionRef.
  - exists w1. split; [reflexivity|]. split; [exact Href|].
    intros [? [=]].
Qed.

Lemma clearAuthData_then_getSession_witness :
  session_slot_typed firm_world
  ∧ ∃ w1 w2,
      clearAuthData firm_world = (Ok tt, w1)
      ∧ @getSessionRef demo_platform w1 = Some jane_ref
      ∧ @getSession demo_platform 500 w1 = (Ok None, w2)
      ∧ @getSessionRef demo_platform w2 = None.
Proof.
  assert (Htyped : session_slot_typed firm_world).
  { exists jane_ref. reflexivity. }
  split; [exact Htyped|].
  destruct (@clearAuthData_then_getSession demo_platform firm_world eq_refl
              eq_refl Htyped) as (w1 & Hrun & _ & Hstore & _ & Hget).
  destruct (Hget 500) as (w2 & Hnull & Href & _).
  exists w1, w2. split; [exact Hrun|]. split; [|split; assumption].
  apply getSessionRef_slot.
  - assert (Hw1 : w1 = snd (clearAuthData firm_world)) by now rewrite Hrun.
    now rewrite Hw1.
  - now rewrite Hstore.
Defined.

(** X21.  In a browser [clearAppData] empties the seven application tables
    and keeps the auth tables, the reference and the cookie: [getSession]
    answers after it as it would have before. *)
Theorem clearAppData_keeps_session `{Platform} w :
  hasWindow w = true →
  ∃ w1,
    clearAppData w = (Ok tt, w1)
    ∧ db w1
      = mkDatabase (users (db w)) (sessions (db w)) (organizations (db w))
          (members (db w)) [] [] [] [] [] [] []
    ∧ localStorage w1 = localStorage w
    ∧ cookie w1 = cookie w
    ∧ ∀ now, fst (getSession now w1) = fst (getSession now w).
Proof.
  intros Hwin. unfold clearAppData. unfold_monad.
  rewrite Hwin. simpl. rewrite Hwin. simpl.
  set (w1 := with_db _ _).
  assert (Hwin1 : hasWindow w1 = true) by exact Hwin.
  exists w1. repeat split. intros now.
  rewrite (getSession_browser now w1 Hwin1), (getSession_browser now w Hwin).
  change (getSessionRef w1) with (getSessionRef w).
  change (sessions (db w1)) with (sessions (db w)).
  change (users (db w1)) with (users (db w)).
  destruct (getSessionRef w) as [ref|]; [|reflexivity].
  destruct (tbl_get _ (sessions (db w))) as [s|]; [|reflexivity].
  destruct (negb _); [reflexivity|].
  destruct (_ <? now); [reflexivity|].
  now destruct (tbl_get _ (users (db w))).
Qed.

Lemma clearAppData_keeps_session_witness :
  ∃ w1,
    clearAppData firm_world = (Ok tt, w1)
    ∧ clients (db w1) = []
    ∧ fst (@getSession demo_platform 500 w1)
      = Ok (Some (SessionData.mk (safeUser jane) jane_session)).
Proof.
  destruct (@clearAppData_keeps_session demo_platform firm_world eq_refl)
    as (w1 & Hrun & Hdb & _ & _ & Hget).
  exists w1. split; [exact Hrun|]. split; [now rewrite Hdb|].
  rewrite Hget. vm_compute. reflexivity.
Defined.

(** ** What [getSession] touches *)

Section GetSessionFrame.
Context `{Platform}.

Lemma db_setAuthCookie now value days w :
  db (setAuthCookie now value days w) = db w.
Proof. unfold setAuthCookie. now destruct (hasDocument w). Qed.

Lemma localStorage_setAuthCookie now value days w :
  localStorage (setAuthCookie now value days w) = localStorage w.
Proof. unfold setAuthCookie. now destruct (hasDocument w). Qed.

Lemma hasWindow_setAuthCookie now value days w :
  hasWindow (setAuthCookie now value days w) = hasWindow w.
Proof. unfold setAuthCookie. now destruct (hasDocument w). Qed.

Lemma getSessionRef_setAuthCookie now value days w :
  getSessionRef (setAuthCookie now value days w) = getSessionRef w.
Proof. unfold setAuthCookie. now destruct (hasDocument w). Qed.

(** What a successful [getSession] read. *)
Lemma getSession_Some now w d w1 :
  getSession now w = (Ok (Some d), w1) →
  hasWindow w = true
  ∧ ∃ ref u,
      getSessionRef w = Some ref
      ∧ tbl_get (SessionRef.sessionId ref) (sessions (db w))
        = Some (SessionData.session d)
      ∧ Session.token (SessionData.session d) = SessionRef.token ref
      ∧ (Session.expiresAt (SessionData.session d) <? now) = false
      ∧ tbl_get (Session.userId (SessionData.session d)) (users (db w))
        = Some u
      ∧ SessionData.user d = safeUser u
      ∧ w1 = setAuthCookie now (Session.token (SessionData.session d)) 7 w.
Proof.
  intros Hrun. destruct (hasWindow w) eqn:Hwin.
  2:{ rewrite (getSession_server _ _ Hwin) in Hrun. discriminate. }
  split; [reflexivity|].
  rewrite (getSession_browser _ _ Hwin) in Hrun.
  destruct (getSessionRef w) as [ref|]; [|discriminate].
  destruct (tbl_get _ (sessions (db w))) as [s|] eqn:Hs; [|discriminate].
  destruct (String.eqb_spec (Session.token s) (SessionRef.token ref))
    as [Htok|]; [|discriminate].
  simpl in Hrun.
  destruct (Session.expiresAt s <? now) eqn:Hexp; [discriminate|].
  destruct (tbl_get _ (users (db w))) as [u|] eqn:Hu; [|discriminate].
  injection Hrun as <- <-. now exists ref, u.
Qed.

End GetSessionFrame.

(** X22.  When the reference slot is empty or holds a reference, [getSession],
    whatever it returns, leaves the Users, Organizations
    and Members tables and the application tables as they were, adds no
    Session row, and removes no Session row other than the one the reference
    names. *)
Theorem getSession_frame `{Platform} now w o w1 :
  session_slot_typed w →
  getSession now w = (o, w1) →
  users (db w1) = users (db w)
  ∧ organizations (db w1) = organizations (db w)
  ∧ members (db w1) = members (db w)
  ∧ clients (db w1) = clients (db w)
  ∧ matters (db w1) = matters (db w)
  ∧ transactions (db w1) = transactions (db w)
  ∧ holds (db w1) = holds (db w)
  ∧ auditLogs (db w1) = auditLogs (db w)
  ∧ reportHistory (db w1) = reportHistory (db w)
  ∧ trustAccountSettings (db w1) = trustAccountSettings (db w)
  ∧ (∀ s, s ∈ sessions (db w1) → s ∈ sessions (db w))
  ∧ ∀ s,
      s ∈ sessions (db w) →
      (∀ ref, getSessionRef w = Some ref → Session.id s ≠ SessionRef.sessionId ref) →
      s ∈ sessions (db w1).
Proof.
  intros _ Hrun. destruct (hasWindow w) eqn:Hwin.
  2:{ rewrite (getSession_server _ _ Hwin) in Hrun.
      injection Hrun as _ <-. repeat split; auto. }
  rewrite (getSession_browser _ _ Hwin) in Hrun.
  assert (Hdeleted : ∀ ref s0,
             getSessionRef w = Some ref →
             tbl_get (SessionRef.sessionId ref) (sessions (db w)) = Some s0 →
             (∀ s, s ∈ sessions (db (clearSessionRef
                                       (without_session (Session.id s0) w))) →
                   s ∈ sessions (db w))
             ∧ ∀ s,
                 s ∈ sessions (db w) →
                 (∀ ref', getSessionRef w = Some ref' →
                          Session.id s ≠ SessionRef.sessionId ref') →
                 s ∈ sessions (db (clearSessionRef
                                     (without_session (Session.id s0) w)))).
  { intros ref s0 Href Hs0. rewrite db_clearSessionRef. simpl.
    apply tbl_get_elem in Hs0 as [_ Hid].
    unfold tbl_delete. split.
    - intros s Hin. apply list_elem_of_In, filter_In in Hin as [Hin _].
      now apply list_elem_of_In.
    - intros s Hin Hother. apply list_elem_of_In, filter_In.
      split; [now apply list_elem_of_In|].
      apply negb_true_iff, String.eqb_neq.
      change (row_id s) with (Session.id s).
      change (row_id s0) with (Session.id s0) in Hid.
      rewrite Hid. now apply Hother. }
  destruct (getSessionRef w) as [ref|] eqn:Href.
  2:{ injection Hrun as _ <-. repeat split; auto. }
  destruct (tbl_get _ (sessions (db w))) as [s0|] eqn:Hs0.
  2:{ injection Hrun as _ <-. rewrite db_clearSessionRef.
      repeat split; auto. }
  destruct (Hdeleted ref s0 eq_refl Hs0) as [Hsub Hkept].
  destruct (negb _).
  { injection Hrun as _ <-. rewrite db_clearSessionRef. repeat split; auto. }
  destruct (_ <? now).
  { injection Hrun as _ <-. rewrite ?db_clearSessionRef in *.
    repeat split; auto. }
  destruct (tbl_get _ (users (db w))).
  - injection Hrun as _ <-. rewrite db_setAuthCookie. repeat split; auto.
  - injection Hrun as _ <-. rewrite ?db_clearSessionRef in *.
    repeat split; auto.
Qed.

Lemma getSession_frame_witness :
  session_slot_typed firm_world
  ∧ omar_session
    ∈ sessions (db (snd (@getSession demo_platform 1500 firm_world)))
  ∧ users (db (snd (@getSession demo_platform 1500 firm_world)))
    = [ jane; omar ].
Proof.
  assert (Htyped : session_slot_typed firm_world).
  { exists jane_ref. reflexivity. }
  split; [exact Htyped|].
  destruct (@getSession_frame demo_platform 1500 firm_world
              (fst (@getSession demo_platform 1500 firm_world))
              (snd (@getSession demo_platform 1500 firm_world)) Htyped)
    as (Husers & _ & _ & _ & _ & _ & _ & _ & _ & _ & _ & Hkept).
  - now destruct (@getSession demo_platform 1500 firm_world).
  - split; [|exact Husers]. apply Hkept.
    + apply list_elem_of_In. simpl. auto.
    + intros ref Href. vm_compute in Href. injection Href as <-. discriminate.
Defined.

(** X23.  A [getSession] that returns a session changes neither the database
    nor localStorage; where there is a [document] it sets the cookie to the
    session's token with an expiry seven days after now; and a further
    [getSession] at any time up to [expiresAt] returns the same user and
    session. *)
Theorem getSession_repeatable `{Platform} now w d w1 :
  getSession now w = (Ok (Some d), w1) →
  db w1 = db w
  ∧ localStorage w1 = localStorage w
  ∧ (hasDocument w = true →
     cookie w1
     = Some (mkCookie (Session.token (SessionData.session d))
               (whole_seconds (now + 7 * 24 * 60 * 60 * 1000))))
  ∧ ∀ now',
      now' ≤ Session.expiresAt (SessionData.session d) →
      fst (getSession now' w1) = Ok (Some d).
Proof.
  intros Hrun.
  apply getSession_Some in Hrun
    as (Hwin & ref & u & Href & Hs & Htok & _ & Hu & Huser & ->).
  split; [apply db_setAuthCookie|].
  split; [apply localStorage_setAuthCookie|].
  split.
  - intros Hdoc. unfold setAuthCookie. now rewrite Hdoc.
  - intros now' Hsoon.
    rewrite (getSession_valid now' _ ref (SessionData.session d) u);
      rewrite ?hasWindow_setAuthCookie, ?getSessionRef_setAuthCookie,
        ?db_setAuthCookie; try assumption.
    simpl. destruct d as [user session]. simpl in *. now rewrite Huser.
Qed.

Lemma getSession_repeatable_witness :
  ∃ d w1,
    @getSession demo_platform 500 signed_in_world = (Ok (Some d), w1)
    ∧ cookie w1 = Some (mkCookie "a1b2" 604800000)
    ∧ fst (@getSession demo_platform 900 w1) = Ok (Some d).
Proof.
  pose (run := @getSession demo_platform 500 signed_in_world).
  assert (Hrun : run
                 = (Ok (Some (SessionData.mk (safeUser jane) jane_session)),
                    snd run)) by (vm_compute; reflexivity).
  destruct (@getSession_repeatable demo_platform _ _ _ _ Hrun)
    as (_ & _ & Hcookie & Hagain).
  do 2 eexists. split; [exact Hrun|]. split.
  - rewrite (Hcookie eq_refl). reflexivity.
  - apply Hagain. simpl. lia.
Defined.

(** X24.  [deleteUserByEmail] does not touch the session reference: after
    the signed-in user is deleted the reference is still there, and the next
    [getSession] finds its Session row gone, returns [null] and removes the
    reference and the cookie. *)
Theorem deleteUserByEmail_then_getSession `{Platform} email now w ref s u :
  hasWindow w = true →
  hasDocument w = true →
  unique_ids (sessions (db w)) →
  getSessionRef w = Some ref →
  tbl_get (SessionRef.sessionId ref) (sessions (db w)) = Some s →
  where_equals_first User.email (toLowerCase email) (users (db w)) = Some u →
  Session.userId s = User.id u →
  ∃ w1 w2,
    deleteUserByEmail email w = (Ok tt, w1)
    ∧ getSessionRef w1 = Some ref
    ∧ getSession now w1 = (Ok None, w2)
    ∧ getSessionRef w2 = None
    ∧ cookie w2 = None.
Proof.
  intros Hwin Hdoc Hids Href Hs Hu Howner.
  unfold deleteUserByEmail, users_delete. unfold_monad.
  rewrite Hwin. simpl. rewrite Hwin. simpl. rewrite Hu.
  set (w1 := with_db _ _).
  assert (Hwin1 : hasWindow w1 = true) by exact Hwin.
  assert (Hdoc1 : hasDocument w1 = true) by exact Hdoc.
  assert (Href1 : getSessionRef w1 = Some ref) by exact Href.
  assert (Hgone : tbl_get (SessionRef.sessionId ref) (sessions (db w1)) = None).
  { unfold w1. simpl. unfold where_equals_delete.
    apply (tbl_get_filter_out _ _ _ s Hids Hs).
    rewrite Howner, String.eqb_refl. reflexivity. }
  exists w1, (clearSessionRef w1). split; [reflexivity|].
  split; [exact Href1|].
  split; [now apply (getSession_row_absent now w1 ref)|].
  split; [now apply getSessionRef_clearSessionRef
         | now apply cookie_clearSessionRef].
Qed.

Lemma deleteUserByEmail_then_getSession_witness :
  ∃ w1 w2,
    @deleteUserByEmail demo_platform "Jane@Example.com" firm_world
    = (Ok tt, w1)
    ∧ @getSession demo_platform 500 w1 = (Ok None, w2)
    ∧ @getSessionRef demo_platform w2 = None.
Proof.
  destruct (@deleteUserByEmail_then_getSession demo_platform
              "Jane@Example.com" 500 firm_world jane_ref jane_session jane)
    as (w1 & w2 & Hrun & _ & Hget & Href & _); try reflexivity.
  - apply distinct_NoDup. reflexivity.
  - exists w1, w2. repeat split; assumption.
Defined.

(** ** Dates in stored values *)

Lemma Forall_obj_set (P : JsVal → Prop) key value result :
  P value → Forall (fun p => P (snd p)) result →
  Forall (fun p => P (snd p)) (obj_set key value result).
Proof.
  intros Hvalue Hresult. unfold obj_set.
  destruct (String.eqb key "__proto__"); [exact Hresult|].
  induction Hresult as [|[k x] rest Hx Hrest IH]; simpl.
  - now repeat constructor.
  - destruct (String.eqb k key); constructor; auto.
Qed.

Lemma Forall_assign_entries (P : JsVal → Prop) f entries result :
  Forall (fun p => P (f (fst p) (snd p))) entries →
  Forall (fun p => P (snd p)) result →
  Forall (fun p => P (snd p)) (assign_entries f entries result).
Proof.
  intros Hentries. revert result.
  induction Hentries as [|[k x] rest Hx _ IH]; simpl; intros result Hresult.
  - exact Hresult.
  - apply IH. now apply Forall_obj_set.
Qed.

Lemma forallb_snd_Forall (q : JsVal → bool) (props : list (string * JsVal)) :
  forallb (fun p => let '(_, x) := p in q x) props = true
  ↔ Forall (fun p => q (snd p) = true) props.
Proof.
  induction props as [|[k x] rest IH]; simpl.
  - split; [constructor | reflexivity].
  - rewrite andb_true_iff, IH. split.
    + intros [Hx Hrest]. now constructor.
    + intros Hall. inversion Hall; subst. now split.
Qed.

(** X25.  Whatever the value, objects with repeated keys included,
    [serializeDates] leaves no [Date] in it. *)
Theorem serializeDates_date_free `{Platform} v :
  date_free (serializeDates v) = true.
Proof.
  induction v as [ | | b | n | s | t | items IH | props IH ]
    using JsVal_nested_ind; try reflexivity.
  - simpl. rewrite forallb_forall. intros x Hin.
    apply in_map_iff in Hin as (x0 & <- & Hin0).
    rewrite Forall_forall in IH. now apply IH, list_elem_of_In.
  - simpl. apply forallb_snd_Forall.
    apply (Forall_assign_entries (fun x => date_free x = true));
      [exact IH | constructor].
Qed.

(** X26.  [deserializeDates] changes nothing but strings that parse as dates
    and sit under a date-named key, and members named [__proto__]: a
    date-free value whose objects have each key once and no key [__proto__],
    and in which no string under a date-named key parses, is returned as it
    is. *)
Theorem deserializeDates_identity `{Platform} fields v :
  keys_distinct v = true →
  ordinary_keys v = true →
  date_free v = true →
  no_date_strings (allDateFields fields) v = true →
  deserializeDates fields v = v.
Proof.
  induction v as [ | | b | n | s | t | items IH | props IH ]
    using JsVal_nested_ind; intros Hkeys Hord Hfree Hstrings;
    try reflexivity; try discriminate.
  - simpl in *. f_equal.
    induction IH as [|x items Hx _ IHitems]; simpl in *; [reflexivity|].
    apply andb_true_iff in Hkeys as [Hkx Hkeys].
    apply andb_true_iff in Hord as [Hox Hord].
    apply andb_true_iff in Hfree as [Hfx Hfree].
    apply andb_true_iff in Hstrings as [Hsx Hstrings].
    now rewrite Hx, IHitems.
  - simpl in Hkeys. apply andb_true_iff in Hkeys as [Hd Hkeys].
    simpl in Hord. apply andb_true_iff in Hord as [Hproto Hord].
    apply negb_true_iff in Hproto.
    cbn [deserializeDates]. rewrite assign_entries_object by assumption.
    f_equal. simpl in Hfree, Hstrings. clear Hd Hproto.
    induction IH as [|[k x] props Hx _ IHprops]; simpl in *; [reflexivity|].
    apply andb_true_iff in Hkeys as [Hkx Hkeys].
    apply andb_true_iff in Hord as [Hox Hord].
    apply andb_true_iff in Hfree as [Hfx Hfree].
    apply andb_true_iff in Hstrings as [Hsx Hstrings].
    rewrite IHprops by assumption. f_equal. f_equal.
    destruct x; try discriminate; simpl in *;
      try (now destruct (includes _ k));
      try (destruct (includes _ k); simpl; now rewrite ?Hx).
    destruct (includes _ k); simpl in *; [|reflexivity].
    now destruct (Date_parse s).
Qed.

Lemma deserializeDates_identity_witness :
  @deserializeDates demo_platform [ "due" ]
    (VObj [ ("due", VStr "tomorrow"); ("createdAt", VNum 7);
            ("notes", VArr [ VStr "12"; VObj [ ("openDate", VNull) ] ]) ])
  = VObj [ ("due", VStr "tomorrow"); ("createdAt", VNum 7);
           ("notes", VArr [ VStr "12"; VObj [ ("openDate", VNull) ] ]) ].
Proof.
  apply (@deserializeDates_identity demo_platform); reflexivity.
Defined.

(** ** The provider and the protected layout *)

Section ProviderFacts.
Context `{Platform}.

(** [getSession], [getOrganizations] and [getActiveOrganization] do not
    throw. *)
Lemma getSession_returns now w :
  ∃ result w1, getSession now w = (Ok result, w1).
Proof.
  destruct (hasWindow w) eqn:Hwin.
  - rewrite (getSession_browser now w Hwin).
    destruct (getSessionRef w); [|now eauto].
    destruct (tbl_get _ (sessions (db w))); [|now eauto].
    destruct (negb _); [now eauto|].
    destruct (_ <? now); [now eauto|].
    destruct (tbl_get _ (users (db w))); now eauto.
  - rewrite (getSession_server now w Hwin). now eauto.
Qed.

Lemma getOrganizations_returns userId w :
  ∃ orgs, getOrganizations userId w = (Ok orgs, w).
Proof.
  destruct (hasWindow w) eqn:Hwin.
  - rewrite (getOrganizations_browser userId w Hwin). now eauto.
  - unfold getOrganizations. unfold_monad. rewrite Hwin. now eauto.
Qed.

Lemma getActiveOrganization_returns w :
  ∃ org, getActiveOrganization w = (Ok org, w).
Proof.
  destruct (hasWindow w) eqn:Hwin.
  - rewrite (getActiveOrganization_browser w Hwin). now eauto.
  - unfold getActiveOrganization. unfold_monad. rewrite Hwin. now eauto.
Qed.

Lemma signOut_returns w : ∃ w1, signOut w = (Ok tt, w1).
Proof.
  destruct (hasWindow w) eqn:Hwin.
  - rewrite (signOut_browser w Hwin). now eauto.
  - unfold signOut. unfold_monad. rewrite Hwin. now eauto.
Qed.

Lemma getSessionRef_signOut w w1 :
  signOut w = (Ok tt, w1) → getSessionRef w1 = None.
Proof.
  destruct (hasWindow w) eqn:Hwin.
  - rewrite (signOut_browser w Hwin). intros [= <-].
    apply getSessionRef_clearSessionRef. now destruct (getSessionRef w).
  - unfold signOut. unfold_monad. rewrite Hwin. intros [= <-].
    unfold getSessionRef, loadFromLocalStorage. now rewrite Hwin.
Qed.

End ProviderFacts.

(** X27.  When the reference slot is empty or holds a reference,
    [loadSession] puts the answer of [getSession] in the session cell
    and ends the loading state, after which the protected layout shows the
    page when there is a session and sends to the login page when there is
    none.  When there is none, the error, organisations and active
    organisation cells keep the values they had. *)
Theorem loadSession_decides_view `{Platform} now c w :
  session_slot_typed w →
  ∃ result w0,
    getSession now w = (Ok result, w0)
    ∧ AuthContext.session (fst (AuthProvider.loadSession now c w)) = result
    ∧ AuthContext.isLoading (fst (AuthProvider.loadSession now c w)) = false
    ∧ AuthProvider.ProtectedLayout (fst (AuthProvider.loadSession now c w))
      = match result with
        | Some _ => AuthProvider.Page
        | None => AuthProvider.RedirectToLogin
        end
    ∧ (result = None →
       AuthProvider.loadSession now c w
       = (AuthContext.mk None false (AuthContext.error c)
            (AuthContext.activeOrganization c) (AuthContext.organizations c),
          w0)).
Proof.
  intros _.
  destruct (getSession_returns now w) as (result & w0 & Hrun).
  exists result, w0. split; [exact Hrun|].
  unfold AuthProvider.loadSession. rewrite Hrun.
  destruct result as [d|].
  - destruct (getOrganizations_returns (User.id (SessionData.user d)) w0)
      as (orgs & ->).
    destruct (getActiveOrganization_returns w0) as (org & ->).
    repeat split. discriminate.
  - repeat split.
Qed.

Lemma loadSession_decides_view_witness :
  session_slot_typed firm_world
  ∧ AuthProvider.ProtectedLayout
      (fst (@AuthProvider.loadSession demo_platform 500 initial_context
              firm_world))
    = AuthProvider.Page
  ∧ AuthContext.isLoading
      (fst (@AuthProvider.loadSession demo_platform 500 initial_context
              firm_world))
    = false.
Proof.
  assert (Htyped : session_slot_typed firm_world).
  { exists jane_ref. reflexivity. }
  split; [exact Htyped|].
  destruct (@loadSession_decides_view demo_platform 500 initial_context
              firm_world Htyped)
    as (result & w0 & Hrun & _ & Hloading & Hview & _).
  split; [|exact Hloading].
  rewrite Hview.
  assert (Hresult : result
                    = Some (SessionData.mk (safeUser jane) jane_session)).
  { assert (Hfst : fst (@getSession demo_platform 500 firm_world)
                   = Ok (Some (SessionData.mk (safeUser jane) jane_session)))
      by (vm_compute; reflexivity).
    rewrite Hrun in Hfst. simpl in Hfst. now injection Hfst. }
  now rewrite Hresult.
Defined.

(** X28.  When the reference slot is empty or holds a reference and
    [signIn.email] or [signUp.email] settles, the loading state
    is over; a failure of the underlying call is rethrown with its message,
    which is also put in the error cell, and leaves the session cell as it
    was; a success clears the error cell and fills the session cell. *)
Theorem wrappers_settle `{Platform} c w :
  session_slot_typed w →
  (∀ now rnd data,
      let '(o, c1, w1) := AuthContext.signInWithEmail now rnd data c w in
      AuthContext.isLoading c1 = false
      ∧ match signInEmail now rnd data w with
        | (Throw message, w') =>
            o = Throw message ∧ w1 = w'
            ∧ AuthContext.error c1 = Some message
            ∧ AuthContext.session c1 = AuthContext.session c
        | (Ok r, _) =>
            o = Ok tt ∧ AuthContext.error c1 = None
            ∧ AuthContext.session c1
              = Some (SessionData.mk (SignUpResult.user r)
                        (SignUpResult.session r))
        end)
  ∧ ∀ now rnd data,
      let '(o, c1, w1) := AuthContext.signUpWithEmail now rnd data c w in
      AuthContext.isLoading c1 = false
      ∧ match signUpEmail now rnd data w with
        | (Throw message, w') =>
            o = Throw message ∧ w1 = w'
            ∧ AuthContext.error c1 = Some message
            ∧ AuthContext.session c1 = AuthContext.session c
        | (Ok r, _) =>
            o = Ok tt ∧ AuthContext.error c1 = None
            ∧ AuthContext.session c1
              = Some (SessionData.mk (SignUpResult.user r)
                        (SignUpResult.session r))
        end.
Proof.
  intros _. split; intros now rnd data.
  - unfold AuthContext.signInWithEmail.
    destruct (signInEmail now rnd data w) as [[r|message] w1];
      [|now repeat split].
    destruct (getOrganizations_returns (User.id (SignUpResult.user r)) w1)
      as (orgs & ->).
    destruct (getActiveOrganization_returns w1) as (org & ->).
    now repeat split.
  - unfold AuthContext.signUpWithEmail.
    destruct (signUpEmail now rnd data w) as [[r|message] w1];
      now repeat split.
Qed.

Lemma wrappers_settle_witness :
  session_slot_typed firm_world
  ∧ (let '(o, c1, w1) :=
       @AuthContext.signInWithEmail demo_platform 400
         (mkSignInDraws [ 0; 16; 255 ] "s-0")
         (SignInData.mk "OMAR@example.com" "wrong") initial_context
         firm_world in
     o = Throw "Invalid email or password"
     ∧ AuthContext.isLoading c1 = false
     ∧ AuthContext.error c1 = Some "Invalid email or password"
     ∧ AuthContext.session c1 = None).
Proof.
  assert (Htyped : session_slot_typed firm_world).
  { exists jane_ref. reflexivity. }
  split; [exact Htyped|].
  pose proof (proj1 (@wrappers_settle demo_platform initial_context firm_world
                       Htyped)
                400 (mkSignInDraws [ 0; 16; 255 ] "s-0")
                (SignInData.mk "OMAR@example.com" "wrong")) as Hsettle.
  destruct (@AuthContext.signInWithEmail demo_platform 400
              (mkSignInDraws [ 0; 16; 255 ] "s-0")
              (SignInData.mk "OMAR@example.com" "wrong") initial_context
              firm_world) as [[o c1] w1].
  destruct Hsettle as [Hloading Hcase].
  assert (Hrun : @signInEmail demo_platform 400
                   (mkSignInDraws [ 0; 16; 255 ] "s-0")
                   (SignInData.mk "OMAR@example.com" "wrong") firm_world
                 = (Throw "Invalid email or password", firm_world))
    by (vm_compute; reflexivity).
  rewrite Hrun in Hcase.
  destruct Hcase as (Ho & _ & Herror & Hsession).
  repeat split; assumption.
Defined.

(** X29.  When the reference slot is empty or holds a reference, after the
    context's [signOut] the session, active organisation and
    organisations cells are empty and the protected layout sends to the login
    page; a [loadSession] that follows, at any time, finds no session and the
    layout keeps sending to the login page. *)
Theorem handleSignOut_redirects `{Platform} now c w :
  session_slot_typed w →
  let '(c1, w1) := AuthProvider.handleSignOut c w in
  c1 = AuthContext.mk None false (AuthContext.error c) None []
  ∧ AuthProvider.ProtectedLayout c1 = AuthProvider.RedirectToLogin
  ∧ AuthContext.session (fst (AuthProvider.loadSession now c1 w1)) = None
  ∧ AuthProvider.ProtectedLayout (fst (AuthProvider.loadSession now c1 w1))
    = AuthProvider.RedirectToLogin.
Proof.
  intros _. unfold AuthProvider.handleSignOut.
  destruct (signOut_returns w) as (w1 & Hout). rewrite Hout.
  split; [reflexivity|]. split; [reflexivity|].
  pose proof (getSessionRef_signOut w w1 Hout) as Href.
  assert (Hnone : getSession now w1 = (Ok None, w1)).
  { destruct (hasWindow w1) eqn:Hwin1.
    - now apply getSession_no_reference.
    - now apply getSession_server. }
  unfold AuthProvider.loadSession. rewrite Hnone. now split.
Qed.

Lemma handleSignOut_redirects_witness :
  session_slot_typed firm_world
  ∧ (let '(c1, w1) :=
       @AuthProvider.handleSignOut demo_platform initial_context firm_world in
     c1 = AuthContext.mk None false None None []
     ∧ AuthProvider.ProtectedLayout
         (fst (@AuthProvider.loadSession demo_platform 500 c1 w1))
       = AuthProvider.RedirectToLogin).
Proof.
  assert (Htyped : session_slot_typed firm_world).
  { exists jane_ref. reflexivity. }
  split; [exact Htyped|].
  pose proof (@handleSignOut_redirects demo_platform 500 initial_context
                firm_world Htyped) as Hout.
  destruct (@AuthProvider.handleSignOut demo_platform initial_context
              firm_world) as [c1 w1].
  destruct Hout as (Hcells & _ & _ & Hview).
  split; [exact Hcells | exact Hview].
Defined.

(** ** Demo usage *)

Section DemoUsageFacts.
Context `{Platform}.

Lemma createDemoUsage_stringify now sessionId :
  JSON_stringify (serializeDates (createDemoUsage now sessionId))
  = Some (JsonText (createDemoUsage now sessionId)).
Proof. reflexivity. Qed.

(** The usage record as [loadDemoUsage] returns it. *)
Lemma createDemoUsage_revived now sessionId :
  iso_round_trip → time_value now = true →
  deserializeDates [ "sessionStartedAt"; "lastUpdatedAt" ]
    (createDemoUsage now sessionId)
  = VObj [ ("sessionId", VStr sessionId);
           ("sessionStartedAt", VDate now);
           ("totalInputTokens", VNum 0);
           ("totalOutputTokens", VNum 0);
           ("estimatedCostUsd", VNum 0);
           ("apiCallCount", VNum 0);
           ("ocrPageCount", VNum 0);
           ("lastUpdatedAt", VDate now) ].
Proof.
  intros Hiso Hnow. unfold createDemoUsage.
  cbn [deserializeDates]. rewrite assign_entries_object by reflexivity.
  cbn [map fst snd]. f_equal.
  change (includes (allDateFields [ "sessionStartedAt"; "lastUpdatedAt" ])
            "sessionStartedAt") with true.
  change (includes (allDateFields [ "sessionStartedAt"; "lastUpdatedAt" ])
            "lastUpdatedAt") with true.
  cbn [andb typeof_string revive_date]. rewrite (Hiso now Hnow).
  reflexivity.
Qed.

End DemoUsageFacts.

(** X30.  With nothing stored, [getOrCreateDemoUsage] returns a new record
    whose [sessionStartedAt] and [lastUpdatedAt] are ISO strings and saves
    it; from then on [getOrCreateDemoUsage] with the same session id returns
    the stored record, in which these two fields are dates, since
    [loadDemoUsage] names them as date fields. *)
Theorem getOrCreateDemoUsage_revives_dates `{Platform} now sessionId w :
  iso_round_trip →
  time_value now = true →
  hasWindow w = true →
  quotaExceeded w = false →
  getItem DEMO_USAGE_KEY w = None →
  ∃ w1,
    getOrCreateDemoUsage now sessionId w = (createDemoUsage now sessionId, w1)
    ∧ js_prop (createDemoUsage now sessionId) "sessionStartedAt"
      = VStr (toISOString now)
    ∧ ∀ now2,
        ∃ again,
          getOrCreateDemoUsage now2 sessionId w1 = (again, w1)
          ∧ js_prop again "sessionId" = VStr sessionId
          ∧ js_prop again "sessionStartedAt" = VDate now
          ∧ js_prop again "lastUpdatedAt" = VDate now.
Proof.
  intros Hiso Hnow Hwin Hquota Habsent.
  unfold getOrCreateDemoUsage at 1, loadDemoUsage.
  rewrite (loadFromLocalStorage_absent _ _ _ Habsent). cbn [js_truthy andb].
  eexists. split; [reflexivity|]. split; [reflexivity|].
  intros now2.
  assert (Hload :
    loadDemoUsage (snd (saveDemoUsage (createDemoUsage now sessionId) w))
    = deserializeDates [ "sessionStartedAt"; "lastUpdatedAt" ]
        (createDemoUsage now sessionId)).
  { unfold loadDemoUsage, saveDemoUsage, saveToLocalStorage, setItem.
    rewrite Hwin, Hquota, createDemoUsage_stringify. cbn [negb].
    unfold loadFromLocalStorage, getItem.
    destruct (DEBUG w); simpl; rewrite Hwin, lookup_insert_eq; reflexivity. }
  unfold getOrCreateDemoUsage. rewrite Hload.
  rewrite (createDemoUsage_revived now sessionId Hiso Hnow).
  cbn [js_truthy js_prop obj_get andb]. simpl.
  rewrite String.eqb_refl. eexists. now repeat split.
Qed.

Lemma getOrCreateDemoUsage_revives_dates_witness :
  ∃ w1 again,
    @getOrCreateDemoUsage demo_platform 1700000000000 "demo-1" browser_world
    = (@createDemoUsage demo_platform 1700000000000 "demo-1", w1)
    ∧ @getOrCreateDemoUsage demo_platform 1700000009999 "demo-1" w1
      = (again, w1)
    ∧ js_prop again "sessionStartedAt" = VDate 1700000000000.
Proof.
  destruct (@getOrCreateDemoUsage_revives_dates demo_platform 1700000000000
              "demo-1" browser_world demo_iso_round_trip eq_refl eq_refl
              eq_refl eq_refl) as (w1 & Hfirst & _ & Hlater).
  destruct (Hlater 1700000009999) as (again & Hsecond & _ & Hstart & _).
  exists w1, again. repeat split; assumption.
Defined.
